(** * Session lifecycle thunks of the GUI ([gui/src/redux/thunks/session.ts])

    A shallow embedding of the asynchronous session operations
    (refresh metadata, delete, update, load, load last, save current)
    and of the title deriver, together with the properties the design
    document states about them.

    JavaScript strings are sequences of UTF-16 code units; the messenger is
    an external collaborator whose replies may depend on its own state; the
    Redux store is a value that is read with [getState] and changed only by
    dispatching reducer actions. *)

From Stdlib Require Import String Ascii.
From Stdlib Require Import List NArith Arith Bool Lia.
Import ListNotations.

Set Implicit Arguments.

(* ================================================================== *)
(** * JavaScript strings *)
(* ================================================================== *)

Module Js.

(** A string is its sequence of UTF-16 code units. *)
Definition str := list N.

Definition of_string (s : string) : str :=
  map N_of_ascii (list_ascii_of_string s).

Fixpoint eqb (a b : str) : bool :=
  match a, b with
  | [], [] => true
  | x :: a', y :: b' => N.eqb x y && eqb a' b'
  | _, _ => false
  end.

(** Truthiness of a string value: every string but the empty one. *)
Definition truthy (s : str) : bool :=
  match s with [] => false | _ :: _ => true end.

Definition LF : N := 10%N.

(** [WhiteSpace] and [LineTerminator] code units of ECMAScript, the ones
    [String.prototype.trim] strips. *)
Definition is_white (c : N) : bool :=
  (N.leb 9 c && N.leb c 13)            (* TAB LF VT FF CR *)
  || N.eqb c 32 || N.eqb c 160         (* SP NBSP *)
  || N.eqb c 5760                      (* U+1680 *)
  || (N.leb 8192 c && N.leb c 8202)    (* U+2000 .. U+200A *)
  || N.eqb c 8232 || N.eqb c 8233      (* U+2028 U+2029 *)
  || N.eqb c 8239 || N.eqb c 8287      (* U+202F U+205F *)
  || N.eqb c 12288 || N.eqb c 65279.   (* U+3000 U+FEFF *)

Fixpoint trimStart (s : str) : str :=
  match s with
  | [] => []
  | c :: rest => if is_white c then trimStart rest else s
  end.

Definition trimEnd (s : str) : str := rev (trimStart (rev s)).

Definition trim (s : str) : str := trimEnd (trimStart s).

(** [s.split("\n")]: the pieces between line feeds; the empty string
    splits into one empty piece. *)
Fixpoint split_lines (s : str) : list str :=
  match s with
  | [] => [[]]
  | c :: rest =>
      if N.eqb c LF then [] :: split_lines rest
      else match split_lines rest with
           | [] => [[c]]
           | l :: ls => (c :: l) :: ls
           end
  end.

(** [a.slice(-1)]: the last element as a one-element array, or the empty
    array. *)
Definition slice_last {A} (l : list A) : list A :=
  skipn (length l - 1) l.

(** [s.slice(0, n)] for [0 <= n]. *)
Definition slice_to (n : nat) (s : str) : str := firstn n s.

(** [v || ""] for [v] a string or [undefined]. *)
Definition or_empty (v : option str) : str :=
  match v with
  | Some s => if truthy s then s else []
  | None => []
  end.

(** [parts.join(",")]. *)
Fixpoint join_comma (parts : list str) : str :=
  match parts with
  | [] => []
  | [p] => p
  | p :: rest => p ++ 44%N :: join_comma rest
  end.

End Js.

Definition jsstring : Type := Js.str.

(* ================================================================== *)
(** * Data model *)
(* ================================================================== *)

Inductive ChatMessageRole := user | assistant | system | thinking | tool.

Definition role_eqb (a b : ChatMessageRole) : bool :=
  match a, b with
  | user, user | assistant, assistant | system, system
  | thinking, thinking | tool, tool => true
  | _, _ => false
  end.

Inductive MessagePart :=
| TextPart (text : jsstring)
| ImagePart (url : jsstring).

(** Message content is a string or an array of parts. *)
Inductive MessageContent :=
| ContentText (text : jsstring)
| ContentParts (parts : list MessagePart).

(** Modelled from the spec: the [ChatMessage] type of [core], of which the
    thunks read the role and the content only. *)
Record ChatMessage := {
  role : ChatMessageRole;
  content : option MessageContent
}.

Record ChatHistoryItem := { message : ChatMessage }.

Record Session := {
  s_sessionId : jsstring;
  s_title : jsstring;
  s_workspaceDirectory : jsstring;
  s_history : list ChatHistoryItem
}.

Record SessionMetadata := {
  m_sessionId : jsstring;
  m_title : jsstring;
  m_workspaceDirectory : option jsstring
}.

(** [content.toString()]: a string is itself, an array joins the
    renderings of its elements, which are plain objects. *)
Definition content_toString (c : MessageContent) : jsstring :=
  match c with
  | ContentText t => t
  | ContentParts parts =>
      Js.join_comma (map (fun _ => Js.of_string "[object Object]") parts)
  end.

Definition MAX_TITLE_LENGTH : nat := 100.

(* ================================================================== *)
(** * The title deriver *)
(* ================================================================== *)

Section TitleDeriver.

(** The text rendering of a message body is an external pure function. *)
Variable renderChatMessage : ChatMessage -> jsstring.

Definition getChatTitleFromMessage (msg : ChatMessage) : jsstring :=
  let text :=
    Js.or_empty
      (hd_error
         (Js.slice_last
            (filter (fun l => negb (Js.eqb (Js.trim l) []))
               (Js.split_lines (renderChatMessage msg))))) in
  (* Truncate *)
  if MAX_TITLE_LENGTH <? length text
  then Js.slice_to (MAX_TITLE_LENGTH - 3) text ++ Js.of_string "..."
  else text.

End TitleDeriver.

(* ================================================================== *)
(** * The messenger port *)
(* ================================================================== *)

Inductive JsError := Error (message : jsstring).

(** The promise a request returns: it resolves to a response or rejects. *)
Inductive Promise (A : Type) :=
| Resolves (response : A)
| Rejects (e : JsError).
Arguments Resolves {A} response.
Arguments Rejects {A} e.

(** Tagged responses: [{status: "success", content}] or
    [{status: "error", error}]. *)
Inductive WebviewResult (A : Type) :=
| Success (content : A)
| Failure (error : jsstring).
Arguments Success {A} content.
Arguments Failure {A} error.

(** What the thunks receive for [getWorkspaceDirs] is inspected at run time
    with [Array.isArray]: a value that is itself an array, or a tagged
    response. *)
Inductive DirsResponse :=
| DirsArray (dirs : list jsstring)
| DirsTagged (r : WebviewResult (list jsstring)).

Record ListArgs := {
  limit : option nat;
  offset : option nat;
  workspaceDirectory : option jsstring
}.

(** The messenger with its own state [R]: each operation answers from the
    state and moves it. *)
Record IIdeMessenger (R : Type) := {
  history_load : jsstring -> R -> Promise (WebviewResult Session) * R;
  history_list : ListArgs -> R -> Promise (WebviewResult (list SessionMetadata)) * R;
  history_delete : jsstring -> R -> Promise (WebviewResult unit) * R;
  history_save : Session -> R -> Promise (WebviewResult unit) * R;
  getWorkspaceDirs : R -> Promise DirsResponse * R;
  chatDescriber_describe : jsstring -> R -> Promise (WebviewResult (option jsstring)) * R
}.

(** One request with the answer it got. *)
Inductive Exchange :=
| XLoad (id : jsstring) (reply : Promise (WebviewResult Session))
| XList (args : ListArgs) (reply : Promise (WebviewResult (list SessionMetadata)))
| XDelete (id : jsstring) (reply : Promise (WebviewResult unit))
| XSave (s : Session) (reply : Promise (WebviewResult unit))
| XDirs (reply : Promise DirsResponse)
| XDescribe (text : jsstring) (reply : Promise (WebviewResult (option jsstring))).

(* ================================================================== *)
(** * The store *)
(* ================================================================== *)

Record SessionState := {
  id : jsstring;
  title : jsstring;
  history : list ChatHistoryItem;
  allSessionMetadata : list SessionMetadata;
  isSessionMetadataLoading : bool
}.

Record ModelDescription := { model_title : jsstring }.

(** Modelled from the spec: the configuration slice, of which the thunks
    read [config.config?.disableSessionTitles] and the selected chat
    model. *)
Record ConfigState := {
  disableSessionTitles : option bool;
  selectedChatModel : option ModelDescription
}.

Record RootState := {
  session : SessionState;
  config : ConfigState
}.

Definition selectSelectedChatModel (state : RootState) : option ModelDescription :=
  selectedChatModel (config state).

Record MetadataUpdate := {
  u_sessionId : jsstring;
  u_title : jsstring;
  u_workspaceDirectory : jsstring
}.

(** The actions of [sessionSlice] the thunks dispatch. *)
Inductive Action :=
| newSession (payload : option Session)
| deleteSessionMetadata (sessionId : jsstring)
| updateSessionMetadata (payload : MetadataUpdate)
| setAllSessionMetadata (payload : list SessionMetadata)
| setIsSessionMetadataLoading (payload : bool).

Section Reducer.

Variable NEW_SESSION_TITLE : jsstring.

(** Modelled from the spec: the reducers of [sessionSlice]. [newSession]
    with a session overwrites id, title and history with the session's;
    without one it activates an empty session under the identifier
    [fresh]. [deleteSessionMetadata] removes the entries of an id,
    [updateSessionMetadata] rewrites title and workspace of the entries of
    an id, [setAllSessionMetadata] replaces the collection and
    [setIsSessionMetadataLoading] sets the flag. *)
Definition sessionReducer (fresh : jsstring) (a : Action) (st : SessionState)
  : SessionState :=
  match a with
  | newSession (Some s) =>
      {| id := s_sessionId s; title := s_title s; history := s_history s;
         allSessionMetadata := allSessionMetadata st;
         isSessionMetadataLoading := isSessionMetadataLoading st |}
  | newSession None =>
      {| id := fresh; title := NEW_SESSION_TITLE; history := [];
         allSessionMetadata := allSessionMetadata st;
         isSessionMetadataLoading := isSessionMetadataLoading st |}
  | deleteSessionMetadata sid =>
      {| id := id st; title := title st; history := history st;
         allSessionMetadata :=
           filter (fun m => negb (Js.eqb (m_sessionId m) sid))
             (allSessionMetadata st);
         isSessionMetadataLoading := isSessionMetadataLoading st |}
  | updateSessionMetadata u =>
      {| id := id st; title := title st; history := history st;
         allSessionMetadata :=
           map (fun m =>
                  if Js.eqb (m_sessionId m) (u_sessionId u)
                  then {| m_sessionId := m_sessionId m;
                          m_title := u_title u;
                          m_workspaceDirectory := Some (u_workspaceDirectory u) |}
                  else m)
             (allSessionMetadata st);
         isSessionMetadataLoading := isSessionMetadataLoading st |}
  | setAllSessionMetadata l =>
      {| id := id st; title := title st; history := history st;
         allSessionMetadata := l;
         isSessionMetadataLoading := isSessionMetadataLoading st |}
  | setIsSessionMetadataLoading b =>
      {| id := id st; title := title st; history := history st;
         allSessionMetadata := allSessionMetadata st;
         isSessionMetadataLoading := b |}
  end.

End Reducer.

(* ================================================================== *)
(** * Asynchronous code: state, exceptions and the exchanges made *)
(* ================================================================== *)

Inductive ConsoleLine :=
| console_warn (text : jsstring) (e : JsError)
| console_error (text : jsstring) (e : JsError).

(** Everything an operation can read or change: the store, the state of
    the messenger, the identifiers still to hand out, the console, and the
    metadata refreshes started without being awaited. *)
Record World (R : Type) := {
  store : RootState;
  remote : R;
  entropy : nat;
  console : list ConsoleLine;
  background : list ListArgs
}.

Inductive Completion (A : Type) :=
| Return (a : A)
| Throw (e : JsError).
Arguments Return {A} a.
Arguments Throw {A} e.

(** A finished run: how it completed, the world it left and the exchanges
    it made with the messenger, oldest first. *)
Record Run (R A : Type) := {
  result : Completion A;
  final : World R;
  trace : list Exchange
}.

Definition M (R A : Type) : Type := World R -> Run R A.

(** The action a dispatched thunk resolves to. *)
Inductive ThunkAction (A : Type) :=
| fulfilled (payload : A)
| rejected (error : JsError).
Arguments fulfilled {A} payload.
Arguments rejected {A} error.

Section Monad.

Context {R : Type}.

Definition ret {A} (a : A) : M R A :=
  fun w => {| result := Return a; final := w; trace := [] |}.

Definition throw {A} (e : JsError) : M R A :=
  fun w => {| result := Throw e; final := w; trace := [] |}.

Definition bind {A B} (m : M R A) (k : A -> M R B) : M R B :=
  fun w =>
    let r := m w in
    match result r with
    | Return a =>
        let r' := k a (final r) in
        {| result := result r'; final := final r';
           trace := trace r ++ trace r' |}
    | Throw e => {| result := Throw e; final := final r; trace := trace r |}
    end.

(** [try { m } catch (e) { h e }]. *)
Definition try_catch {A} (m : M R A) (h : JsError -> M R A) : M R A :=
  fun w =>
    let r := m w in
    match result r with
    | Return a => r
    | Throw e =>
        let r' := h e (final r) in
        {| result := result r'; final := final r';
           trace := trace r ++ trace r' |}
    end.

Definition getState : M R RootState :=
  fun w => {| result := Return (store w); final := w; trace := [] |}.

Definition log (line : ConsoleLine) : M R unit :=
  fun w =>
    {| result := Return tt;
       final := {| store := store w; remote := remote w; entropy := entropy w;
                   console := console w ++ [line];
                   background := background w |};
       trace := [] |}.

(** [await request(...)]: the messenger answers from its state; a
    rejected promise is thrown at the [await]. *)
Definition await_request {A} (h : R -> Promise A * R)
    (exchange : Promise A -> Exchange) : M R A :=
  fun w =>
    let (p, r') := h (remote w) in
    {| result := match p with Resolves a => Return a | Rejects e => Throw e end;
       final := {| store := store w; remote := r'; entropy := entropy w;
                   console := console w; background := background w |};
       trace := [exchange p] |}.

(** [createAsyncThunk]: the promise of a dispatched thunk never rejects,
    it resolves to a fulfilled or a rejected action. *)
Definition createAsyncThunk {A} (payloadCreator : M R A) : M R (ThunkAction A) :=
  fun w =>
    let r := payloadCreator w in
    {| result := match result r with
                 | Return a => Return (fulfilled a)
                 | Throw e => Return (rejected e)
                 end;
       final := final r; trace := trace r |}.

(** [unwrapResult]: the payload of a fulfilled action; the error of a
    rejected one is thrown. *)
Definition unwrapResult {A} (action : ThunkAction A) : M R A :=
  match action with
  | fulfilled a => ret a
  | rejected e => throw e
  end.

(** [action.payload], undefined on a rejected action. *)
Definition payload_of {A} (action : ThunkAction A) : option A :=
  match action with
  | fulfilled a => Some a
  | rejected _ => None
  end.

End Monad.

Notation "x <- m ;; k" := (bind m (fun x => k))
  (at level 61, m at next level, right associativity).
Notation "m ;;; k" := (bind m (fun _ => k))
  (at level 61, right associativity).

(** Truthiness of an optional flag and of an optional object. *)
Definition flag_truthy (v : option bool) : bool :=
  match v with Some b => b | None => false end.

Definition present {A} (v : option A) : bool :=
  match v with Some _ => true | None => false end.

(** [history?.filter(h => h.message.role === "assistant")[0]
      ?.message?.content?.toString()]. *)
Definition firstAssistantResponse (h : list ChatHistoryItem) : option jsstring :=
  match filter (fun i => role_eqb (role (message i)) assistant) h with
  | [] => None
  | i :: _ => option_map content_toString (content (message i))
  end.

(* ================================================================== *)
(** * The session thunks *)
(* ================================================================== *)

Module SessionThunks.

Section Thunks.

Variable R : Type.
Variable ideMessenger : IIdeMessenger R.
Variable renderChatMessage : ChatMessage -> jsstring.
(** The sentinel title of a session that has no title yet
    ([core/util/constants]). *)
Variable NEW_SESSION_TITLE : jsstring.
(** The identifiers handed to new sessions, in order. *)
Variable uuidv4 : nat -> jsstring.

(** [dispatch(action)] for a plain action of the slice: the reducer runs
    at once. *)
Definition dispatch (a : Action) : M R unit :=
  fun w =>
    {| result := Return tt;
       final :=
         {| store :=
              {| session := sessionReducer NEW_SESSION_TITLE
                              (uuidv4 (entropy w)) a (session (store w));
                 config := config (store w) |};
            remote := remote w;
            entropy := match a with
                       | newSession None => S (entropy w)
                       | _ => entropy w
                       end;
            console := console w;
            background := background w |};
       trace := [] |}.

(** [void dispatch(refreshSessionMetadata(args))]: the refresh is started
    and left to finish on its own; nothing of it reaches the caller. *)
Definition spawn_refresh (args : ListArgs) : M R unit :=
  fun w =>
    {| result := Return tt;
       final := {| store := store w; remote := remote w; entropy := entropy w;
                   console := console w;
                   background := background w ++ [args] |};
       trace := [] |}.

Definition getSession (sessionId : jsstring) : M R Session :=
  result <- await_request (history_load ideMessenger sessionId) (XLoad sessionId) ;;
  match result with
  | Failure e => throw (Error e)
  | Success content => ret content
  end.

Definition refreshSessionMetadata (args : ListArgs)
  : M R (ThunkAction (list SessionMetadata)) :=
  createAsyncThunk
    (result <- await_request (history_list ideMessenger args) (XList args) ;;
     match result with
     | Failure e => throw (Error e)
     | Success content =>
         dispatch (setIsSessionMetadataLoading false) ;;;
         dispatch (setAllSessionMetadata content) ;;;
         ret content
     end).

Definition updateSession (s : Session) : M R (ThunkAction unit) :=
  createAsyncThunk
    (dispatch (updateSessionMetadata
                 {| u_sessionId := s_sessionId s;
                    u_title := s_title s;
                    u_workspaceDirectory := s_workspaceDirectory s |}) ;;;
     (* optimistic session metadata update *)
     _ <- await_request (history_save ideMessenger s) (XSave s) ;;
     _ <- refreshSessionMetadata
            {| limit := None; offset := None;
               workspaceDirectory := Some (s_workspaceDirectory s) |} ;;
     ret tt).

(** The block both [loadLastSession] and [saveCurrentSession] open with:
    [workspaceDirectory] starts as [initial] and takes the first element
    of the response when the response is a non-empty array; a rejected
    request is caught and logged. *)
Definition lookupWorkspaceDirectory {T} (initial : T) (adopt : jsstring -> T)
  : M R T :=
  try_catch
    (response <- await_request (getWorkspaceDirs ideMessenger) XDirs ;;
     match response with
     | DirsArray (first :: _) => ret (adopt first)
     | _ => ret initial
     end)
    (fun e =>
       log (console_warn (Js.of_string "Failed to get workspace directory") e) ;;;
       ret initial).

Definition saveCurrentSession (openNewSession generateTitle : bool)
  : M R (ThunkAction unit) :=
  createAsyncThunk
    (state <- getState ;;
     if length (history (session state)) =? 0 then ret tt
     else
       (* Get the current workspace directory from the IDE *)
       workspaceDirectory <- lookupWorkspaceDirectory [] (fun d => d) ;;
       (if openNewSession then dispatch (newSession None) else ret tt) ;;;
       (* New session has already been dispatched.
          Now save previous session and update chat title if relevant *)
       let title0 := title (session state) in
       title1 <-
         (if Js.eqb title0 NEW_SESSION_TITLE then
            let selectedChatModel := selectSelectedChatModel state in
            described <-
              (if negb (flag_truthy (disableSessionTitles (config state)))
                  && present selectedChatModel
               then
                 let assistantResponse :=
                   firstAssistantResponse (history (session state)) in
                 match assistantResponse with
                 | Some text =>
                     if Js.truthy text && generateTitle then
                       try_catch
                         (result <- await_request
                                      (chatDescriber_describe ideMessenger text)
                                      (XDescribe text) ;;
                          match result with
                          | Success (Some c) =>
                              if Js.truthy c then ret c else ret title0
                          | _ => ret title0
                          end)
                         (fun e =>
                            log (console_error
                                   (Js.of_string "Error generating chat title") e) ;;;
                            ret title0)
                     else ret title0
                 | None => ret title0
                 end
               else ret title0) ;;
            (* Fallbacks if above doesn't work out or session titles disabled *)
            if Js.eqb described NEW_SESSION_TITLE then
              match history (session state) with
              | first :: _ =>
                  ret (getChatTitleFromMessage renderChatMessage (message first))
              | [] => throw (Error (Js.of_string "TypeError"))
              end
            else ret described
          else ret title0) ;;
       (* More fallbacks in case of no title *)
       title2 <-
         (if length title1 =? 0 then
            now <- getState ;;
            let metadata :=
              find (fun m => Js.eqb (m_sessionId m) (id (session state)))
                (allSessionMetadata (session now)) in
            match metadata with
            | Some m => if Js.truthy (m_title m) then ret (m_title m) else ret title1
            | None => ret title1
            end
          else ret title1) ;;
       let title3 := if length title2 =? 0 then NEW_SESSION_TITLE else title2 in
       let session :=
         {| s_sessionId := id (session state);
            s_title := title3;
            s_workspaceDirectory := workspaceDirectory;
            s_history := history (session state) |} in
       result <- updateSession session ;;
       unwrapResult result).

(** this is only used for the custom focusContinueSessionId command at the
    moment *)
Definition loadSession (sessionId : jsstring) (save : bool)
  : M R (ThunkAction unit) :=
  createAsyncThunk
    ((if save then
        result <- saveCurrentSession false true ;;
        unwrapResult result
      else ret tt) ;;;
     session <- getSession sessionId ;;
     dispatch (newSession (Some session))).

Definition loadLastSession (shouldSaveCurrentSession : bool)
  : M R (ThunkAction unit) :=
  createAsyncThunk
    (state <- getState ;;
     (* Get the current workspace directory from the IDE *)
     workspaceDirectory <- lookupWorkspaceDirectory None Some ;;
     (* Save current session if needed *)
     (if Js.truthy (id (session state)) && shouldSaveCurrentSession then
        _ <- saveCurrentSession false true ;; ret tt
      else ret tt) ;;;
     (* Get the last session ID from the current workspace *)
     metadataResult <- refreshSessionMetadata
                         {| limit := Some 1; offset := None;
                            workspaceDirectory := workspaceDirectory |} ;;
     let metadata := payload_of metadataResult in
     let lastSession :=
       match metadata with Some l => hd_error l | None => None end in
     match lastSession with
     | Some m =>
         session <- getSession (m_sessionId m) ;;
         dispatch (newSession (Some session))
     | None =>
         (* If no sessions found in the current workspace, start a new one *)
         dispatch (newSession None)
     end).

Definition deleteSession (sessionId : jsstring) : M R (ThunkAction unit) :=
  createAsyncThunk
    (dispatch (deleteSessionMetadata sessionId) ;;; (* optimistic *)
     state <- getState ;;
     (if Js.eqb sessionId (id (session state)) then
        _ <- loadLastSession false ;; ret tt
      else ret tt) ;;;
     result <- await_request (history_delete ideMessenger sessionId)
                 (XDelete sessionId) ;;
     match result with
     | Failure e => throw (Error e)
     | Success _ =>
         spawn_refresh {| limit := None; offset := None;
                          workspaceDirectory := None |}
     end).

(** The refreshes left in the background, run to their end one after the
    other once the operation that started them has returned. *)
Fixpoint settle (pending : list ListArgs) : M R unit :=
  match pending with
  | [] => ret tt
  | args :: rest => _ <- refreshSessionMetadata args ;; settle rest
  end.

Definition settle_background : M R unit :=
  fun w =>
    settle (background w)
      {| store := store w; remote := remote w; entropy := entropy w;
         console := console w; background := [] |}.

End Thunks.

End SessionThunks.

(** What the design document calls the last non-blank line of a text: a
    piece [line] between line feeds (or the ends of the text) that holds a
    character other than white space and is followed by white space only. *)
Definition last_nonblank_line (text line : jsstring) : Prop :=
  exists pre suf,
    text = pre ++ line ++ suf /\
    (pre = [] \/ exists p, pre = p ++ [Js.LF]) /\
    (suf = [] \/ exists s, suf = Js.LF :: s) /\
    ~ In Js.LF line /\
    forallb Js.is_white line = false /\
    forallb Js.is_white suf = true.


(* ================================================================== *)
(** * Invariants of a run *)
(* ================================================================== *)

(** [respects I T m]: whatever world [m] starts in, the world it leaves is
    related to it by [I] and every exchange it makes satisfies [T]. *)
Definition respects {R A} (I : World R -> World R -> Prop)
    (T : Exchange -> Prop) (m : M R A) : Prop :=
  forall w, I w (final (m w)) /\ Forall T (trace (m w)).

(** The active session of two worlds is the same: id, title and history. *)
Definition same_active_session {R} (w w' : World R) : Prop :=
  id (session (store w')) = id (session (store w)) /\
  title (session (store w')) = title (session (store w)) /\
  history (session (store w')) = history (session (store w)).

Definition is_load (x : Exchange) : bool :=
  match x with XLoad _ _ => true | _ => false end.

Definition is_delete (x : Exchange) : bool :=
  match x with XDelete _ _ => true | _ => false end.

(** The sessions handed to [history/save] in a trace. *)
Fixpoint saved_sessions (t : list Exchange) : list Session :=
  match t with
  | [] => []
  | XSave s _ :: rest => s :: saved_sessions rest
  | _ :: rest => saved_sessions rest
  end.

(** The arguments of the [history/list] requests of a trace that ask for
    one entry, as [loadLastSession] does. *)
Fixpoint last_session_queries (t : list Exchange) : list ListArgs :=
  match t with
  | [] => []
  | XList args _ :: rest =>
      match limit args with
      | Some 1 => args :: last_session_queries rest
      | _ => last_session_queries rest
      end
  | _ :: rest => last_session_queries rest
  end.

(** An answer of [chatDescriber/describe] that gives a title to adopt: a
    success carrying a non-empty string. *)
Definition describes_title (x : Exchange) : bool :=
  match x with
  | XDescribe _ (Resolves (Success (Some c))) => Js.truthy c
  | _ => false
  end.

Definition has_metadata_of (sessionId : jsstring) (l : list SessionMetadata) : bool :=
  existsb (fun m => Js.eqb (m_sessionId m) sessionId) l.

(** [wp m w Q]: the run of [m] from [w] satisfies [Q], a property of how
    it completed, the world it left and the exchanges it made. *)
Definition wp {R A} (m : M R A) (w : World R)
    (Q : Completion A -> World R -> list Exchange -> Prop) : Prop :=
  Q (result (m w)) (final (m w)) (trace (m w)).

(** The directory the workspace lookup adopts from an answer to
    [getWorkspaceDirs]: the first element of an answer that is itself a
    non-empty array. *)
Definition adopted_directory (reply : Promise DirsResponse) : option jsstring :=
  match reply with
  | Resolves (DirsArray (first :: _)) => Some first
  | _ => None
  end.

(** The title the deriver gives for the first message of a history. *)
Definition derived_title (renderChatMessage : ChatMessage -> jsstring)
    (h : list ChatHistoryItem) : jsstring :=
  match h with
  | first :: _ => getChatTitleFromMessage renderChatMessage (message first)
  | [] => []
  end.

(* ================================================================== *)
(** * A history store behind the messenger *)
(* ================================================================== *)

(** A concrete messenger, used to run the thunks: the sessions it keeps,
    most recent first, and how it is disposed to answer. *)
Module Demo.

Inductive Mode :=
| Healthy
| ReadOnly      (* save and delete answer with an error status *)
| SaveRejects   (* the promise of a save request rejects *)
| ListFails.    (* list answers with an error status *)

Record Disk := {
  sessions : list Session;
  mode : Mode;
  dirs : Promise DirsResponse;
  describer : Promise (WebviewResult (option jsstring))
}.

Definition metadata_of (s : Session) : SessionMetadata :=
  {| m_sessionId := s_sessionId s; m_title := s_title s;
     m_workspaceDirectory := Some (s_workspaceDirectory s) |}.

Definition in_workspace (wd : option jsstring) (s : Session) : bool :=
  match wd with
  | None => true
  | Some d => Js.eqb d (s_workspaceDirectory s)
  end.

Definition window {A} (off lim : option nat) (l : list A) : list A :=
  let l' := skipn (match off with Some n => n | None => 0 end) l in
  match lim with Some n => firstn n l' | None => l' end.

Definition without (sid : jsstring) (l : list Session) : list Session :=
  filter (fun s => negb (Js.eqb (s_sessionId s) sid)) l.

Definition set_sessions (d : Disk) (l : list Session) : Disk :=
  {| sessions := l; mode := mode d; dirs := dirs d; describer := describer d |}.

Definition messenger : IIdeMessenger Disk :=
  {| history_load := fun sid d =>
       (match find (fun s => Js.eqb (s_sessionId s) sid) (sessions d) with
        | Some s => Resolves (Success s)
        | None => Resolves (Failure (Js.of_string "no such session"))
        end, d);
     history_list := fun args d =>
       (match mode d with
        | ListFails => Resolves (Failure (Js.of_string "list failed"))
        | _ =>
            Resolves (Success
              (window (offset args) (limit args)
                 (map metadata_of
                    (filter (in_workspace (workspaceDirectory args))
                       (sessions d)))))
        end, d);
     history_delete := fun sid d =>
       match mode d with
       | ReadOnly => (Resolves (Failure (Js.of_string "read-only")), d)
       | _ => (Resolves (Success tt), set_sessions d (without sid (sessions d)))
       end;
     history_save := fun s d =>
       match mode d with
       | ReadOnly => (Resolves (Failure (Js.of_string "read-only")), d)
       | SaveRejects => (Rejects (Error (Js.of_string "bridge closed")), d)
       | _ =>
           (Resolves (Success tt),
            set_sessions d (s :: without (s_sessionId s) (sessions d)))
       end;
     getWorkspaceDirs := fun d => (dirs d, d);
     chatDescriber_describe := fun _ d => (describer d, d) |}.

Definition NEW_SESSION_TITLE : jsstring := Js.of_string "New Session".

Definition uuidv4 (n : nat) : jsstring :=
  Js.of_string "fresh-" ++ [N.of_nat (48 + n)].

Definition render (m : ChatMessage) : jsstring :=
  match content m with
  | Some c => content_toString c
  | None => []
  end.

Definition says (r : ChatMessageRole) (text : jsstring) : ChatHistoryItem :=
  {| message := {| role := r; content := Some (ContentText text) |} |}.

Definition abc : Session :=
  {| s_sessionId := Js.of_string "abc";
     s_title := Js.of_string "Fix the parser";
     s_workspaceDirectory := Js.of_string "/ws";
     s_history :=
       [ says user (Js.of_string "Fix the parser");
         says assistant
           (Js.of_string "Here is the fix." ++ [Js.LF; Js.LF]
              ++ Js.of_string "Done.") ] |}.

Definition old : Session :=
  {| s_sessionId := Js.of_string "old";
     s_title := Js.of_string "Earlier chat";
     s_workspaceDirectory := Js.of_string "/ws";
     s_history := [ says user (Js.of_string "hello") ] |}.

Definition tagged_dirs : Promise DirsResponse :=
  Resolves (DirsTagged (Success [Js.of_string "/ws"])).

Definition disk (m : Mode) : Disk :=
  {| sessions := [abc; old]; mode := m; dirs := tagged_dirs;
     describer := Resolves (Success None) |}.

(** The same store behind a messenger that hands the directories over as
    a plain array. *)
Definition disk_plain_dirs : Disk :=
  {| sessions := [abc; old]; mode := Healthy;
     dirs := Resolves (DirsArray [Js.of_string "/ws"]);
     describer := Resolves (Success None) |}.

(** A session that has no title yet and whose first message renders to
    nothing. *)
Definition untitled : Session :=
  {| s_sessionId := Js.of_string "new";
     s_title := NEW_SESSION_TITLE;
     s_workspaceDirectory := [];
     s_history := [ {| message := {| role := user; content := None |} |} ] |}.

Definition blank : Session :=
  {| s_sessionId := Js.of_string "blank";
     s_title := NEW_SESSION_TITLE;
     s_workspaceDirectory := [];
     s_history := [] |}.

(** A message of one line of 120 letters between two blank lines. *)
Definition long_line : jsstring := repeat 120%N 120.

Definition long_message : ChatMessage :=
  {| role := user;
     content := Some (ContentText
                        ([Js.LF] ++ long_line ++ [Js.LF; 32%N; Js.LF])) |}.

Definition blank_message : ChatMessage :=
  {| role := user; content := Some (ContentText [32%N; Js.LF; 9%N]) |}.

(** The store while session [s] is active and the metadata of the
    sessions [known] is loaded. *)
Definition store_with (s : Session) (known : list Session) : RootState :=
  {| session :=
       {| id := s_sessionId s; title := s_title s; history := s_history s;
          allSessionMetadata := map metadata_of known;
          isSessionMetadataLoading := false |};
     config := {| disableSessionTitles := None; selectedChatModel := None |} |}.

Definition world (st : RootState) (d : Disk) : World Disk :=
  {| store := st; remote := d; entropy := 0; console := []; background := [] |}.

Definition deleteSession :=
  SessionThunks.deleteSession messenger render NEW_SESSION_TITLE uuidv4.
Definition updateSession :=
  SessionThunks.updateSession messenger NEW_SESSION_TITLE uuidv4.
Definition refreshSessionMetadata :=
  SessionThunks.refreshSessionMetadata messenger NEW_SESSION_TITLE uuidv4.
Definition loadSession :=
  SessionThunks.loadSession messenger render NEW_SESSION_TITLE uuidv4.
Definition loadLastSession :=
  SessionThunks.loadLastSession messenger render NEW_SESSION_TITLE uuidv4.
Definition saveCurrentSession :=
  SessionThunks.saveCurrentSession messenger render NEW_SESSION_TITLE uuidv4.

Definition settle_background :=
  SessionThunks.settle_background messenger NEW_SESSION_TITLE uuidv4.

End Demo.

(* ================================================================== *)
(** * Reading answers and traces *)
(* ================================================================== *)

(** The error [getSession] throws on an answer to [history/load], if any:
    the error of an error status wrapped in [Error], or the reason of a
    rejected promise. *)
Definition load_error (reply : Promise (WebviewResult Session)) : option JsError :=
  match reply with
  | Resolves (Success _) => None
  | Resolves (Failure e) => Some (Error e)
  | Rejects e => Some e
  end.

(** [payload?.[0]] for the answer to a [history/list] request: the first
    entry of a success, nothing otherwise. *)
Definition listed_session
    (reply : Promise (WebviewResult (list SessionMetadata)))
  : option SessionMetadata :=
  match reply with
  | Resolves (Success (m :: _)) => Some m
  | _ => None
  end.

Definition is_describe (x : Exchange) : bool :=
  match x with XDescribe _ _ => true | _ => false end.

Definition is_save (x : Exchange) : bool :=
  match x with XSave _ _ => true | _ => false end.

(** The text [saveCurrentSession] sends to [chatDescriber/describe], when
    it sends one: the title is the sentinel, titles are not disabled, a chat
    model is selected, the first assistant message has a non-empty text and
    a title is asked for. *)
Definition describe_request (NEW_SESSION_TITLE : jsstring) (state : RootState)
    (generateTitle : bool) : option jsstring :=
  if Js.eqb (title (session state)) NEW_SESSION_TITLE
     && (negb (flag_truthy (disableSessionTitles (config state)))
         && present (selectSelectedChatModel state))
  then match firstAssistantResponse (history (session state)) with
       | Some text => if Js.truthy text && generateTitle then Some text else None
       | None => None
       end
  else None.

(** The title after the describe stage: the content of a success that
    carries a non-empty string, the title before otherwise. *)
Definition described_title (title0 : jsstring)
    (reply : Promise (WebviewResult (option jsstring))) : jsstring :=
  match reply with
  | Resolves (Success (Some c)) => if Js.truthy c then c else title0
  | _ => title0
  end.

(** The fallbacks after the describe stage, on the state the thunk started
    in: the title derived from the first message when the title is still
    the sentinel, the stored metadata title when it is empty, the sentinel
    when it is empty still. *)
Definition resolved_title (NEW_SESSION_TITLE : jsstring)
    (renderChatMessage : ChatMessage -> jsstring) (state : RootState)
    (described : jsstring) : jsstring :=
  let title1 :=
    if Js.eqb (title (session state)) NEW_SESSION_TITLE
    then if Js.eqb described NEW_SESSION_TITLE
         then derived_title renderChatMessage (history (session state))
         else described
    else title (session state) in
  let title2 :=
    if length title1 =? 0
    then match find (fun m => Js.eqb (m_sessionId m) (id (session state)))
                 (allSessionMetadata (session state)) with
         | Some m => if Js.truthy (m_title m) then m_title m else title1
         | None => title1
         end
    else title1 in
  if length title2 =? 0 then NEW_SESSION_TITLE else title2.

(** The arguments of the three metadata refreshes the thunks make: after
    a save, when the last session is looked for, and after a delete. *)
Definition refresh_query (wd : jsstring) : ListArgs :=
  {| limit := None; offset := None; workspaceDirectory := Some wd |}.

Definition last_session_query (wd : option jsstring) : ListArgs :=
  {| limit := Some 1; offset := None; workspaceDirectory := wd |}.

Definition plain_refresh : ListArgs :=
  {| limit := None; offset := None; workspaceDirectory := None |}.

(* ================================================================== *)
(** * More stores and sessions to run the thunks on *)
(* ================================================================== *)

Module Scenes.

(** What the assistant said in the chat below. *)
Definition answer : jsstring :=
  Js.of_string "Here is the fix." ++ [Js.LF; Js.LF] ++ Js.of_string "Done.".

(** A chat that has no title yet. *)
Definition chat : Session :=
  {| s_sessionId := Js.of_string "chat";
     s_title := Demo.NEW_SESSION_TITLE;
     s_workspaceDirectory := [];
     s_history := [ Demo.says user (Js.of_string "Fix the parser");
                    Demo.says assistant answer ] |}.

(** The session stored under the id of [Demo.untitled], with a title. *)
Definition stored : Session :=
  {| s_sessionId := Js.of_string "new";
     s_title := Js.of_string "Stored title";
     s_workspaceDirectory := [];
     s_history := [] |}.

(** The store of [Demo.store_with] once a chat model is selected. *)
Definition store_ready (s : Session) (known : list Session) : RootState :=
  {| session := session (Demo.store_with s known);
     config := {| disableSessionTitles := None;
                  selectedChatModel :=
                    Some {| model_title := Js.of_string "model" |} |} |}.

Definition suggested : jsstring := Js.of_string "Parser fix".

(** A history store whose describer suggests a title. *)
Definition describing : Demo.Disk :=
  {| Demo.sessions := [Demo.abc; Demo.old]; Demo.mode := Demo.Healthy;
     Demo.dirs := Demo.tagged_dirs;
     Demo.describer := Resolves (Success (Some suggested)) |}.

(** A history store whose workspace lookup is rejected. *)
Definition no_ide : Demo.Disk :=
  {| Demo.sessions := [Demo.abc; Demo.old]; Demo.mode := Demo.Healthy;
     Demo.dirs := Rejects (Error (Js.of_string "no ide"));
     Demo.describer := Resolves (Success None) |}.

(** The messenger of the history store, but every load is answered with an
    error status. *)
Definition forgetful : IIdeMessenger Demo.Disk :=
  {| history_load := fun _ d => (Resolves (Failure (Js.of_string "gone")), d);
     history_list := history_list Demo.messenger;
     history_delete := history_delete Demo.messenger;
     history_save := history_save Demo.messenger;
     getWorkspaceDirs := getWorkspaceDirs Demo.messenger;
     chatDescriber_describe := chatDescriber_describe Demo.messenger |}.

(** The messenger of the history store, but the promise of every list
    request rejects. *)
Definition deaf : IIdeMessenger Demo.Disk :=
  {| history_load := history_load Demo.messenger;
     history_list := fun _ d => (Rejects (Error (Js.of_string "timeout")), d);
     history_delete := history_delete Demo.messenger;
     history_save := history_save Demo.messenger;
     getWorkspaceDirs := getWorkspaceDirs Demo.messenger;
     chatDescriber_describe := chatDescriber_describe Demo.messenger |}.

Definition the_answer : ChatMessage :=
  {| role := assistant; content := Some (ContentText answer) |}.

End Scenes.
(* ================================================================== *)
(** * Properties of the string operations *)
(* ================================================================== *)

Lemma js_eqb_nil_r (s : jsstring) : Js.eqb s [] = true <-> s = [].
Proof. destruct s; simpl; split; intro H; congruence. Qed.

Lemma trimStart_nil_iff (s : jsstring) :
  Js.trimStart s = [] <-> forallb Js.is_white s = true.
Proof.
  induction s as [|c s IH]; simpl.
  - tauto.
  - destruct (Js.is_white c); simpl.
    + exact IH.
    + split; intro H; discriminate.
Qed.

Lemma forallb_rev {A} (p : A -> bool) (l : list A) :
  forallb p (rev l) = forallb p l.
Proof.
  induction l as [|x l IH]; simpl; [reflexivity|].
  rewrite forallb_app, IH. simpl. rewrite andb_true_r. apply andb_comm.
Qed.

Lemma trimStart_white_suffix (s : jsstring) :
  exists w, s = w ++ Js.trimStart s /\ forallb Js.is_white w = true.
Proof.
  induction s as [|c s [w [E W]]]; simpl.
  - exists []. auto.
  - destruct (Js.is_white c) eqn:C.
    + exists (c :: w). simpl. rewrite C, W. split; [congruence | reflexivity].
    + exists []. auto.
Qed.

Lemma trim_nil_iff (s : jsstring) :
  Js.trim s = [] <-> forallb Js.is_white s = true.
Proof.
  unfold Js.trim, Js.trimEnd.
  destruct (trimStart_white_suffix s) as [w [E W]].
  split; intro H.
  - assert (T : Js.trimStart (rev (Js.trimStart s)) = []).
    { apply (f_equal (@rev N)) in H. rewrite rev_involutive in H. exact H. }
    apply trimStart_nil_iff in T. rewrite forallb_rev in T.
    rewrite E, forallb_app, W, T. reflexivity.
  - apply trimStart_nil_iff in H. rewrite H. reflexivity.
Qed.

Lemma nonblank_filter_spec (l : jsstring) :
  negb (Js.eqb (Js.trim l) []) = negb (forallb Js.is_white l).
Proof.
  f_equal. destruct (forallb Js.is_white l) eqn:W.
  - apply js_eqb_nil_r, trim_nil_iff, W.
  - destruct (Js.eqb (Js.trim l) []) eqn:E; [|reflexivity].
    apply js_eqb_nil_r, trim_nil_iff in E. congruence.
Qed.

Lemma split_lines_not_nil (s : jsstring) : Js.split_lines s <> [].
Proof.
  induction s as [|c s IH]; simpl; [discriminate|].
  destruct (N.eqb c Js.LF); [discriminate|].
  destruct (Js.split_lines s); discriminate.
Qed.

Lemma split_lines_app_lf (a b : jsstring) :
  Js.split_lines (a ++ Js.LF :: b) = Js.split_lines a ++ Js.split_lines b.
Proof.
  induction a as [|c a IH]; simpl; [reflexivity|].
  destruct (N.eqb c Js.LF).
  - rewrite IH. reflexivity.
  - rewrite IH. pose proof (split_lines_not_nil a) as NE.
    destruct (Js.split_lines a); [congruence | reflexivity].
Qed.

Lemma split_lines_single (l : jsstring) :
  ~ In Js.LF l -> Js.split_lines l = [l].
Proof.
  induction l as [|c l IH]; simpl; intro H; [reflexivity|].
  destruct (N.eqb_spec c Js.LF) as [E|E].
  - exfalso. apply H. left. exact E.
  - rewrite IH; [reflexivity|]. intro I. apply H. right. exact I.
Qed.

Lemma split_lines_white (s : jsstring) :
  forallb Js.is_white s = true ->
  Forall (fun l => forallb Js.is_white l = true) (Js.split_lines s).
Proof.
  induction s as [|c s IH]; simpl; intro H.
  - constructor; [reflexivity | constructor].
  - apply andb_true_iff in H. destruct H as [C W]. specialize (IH W).
    destruct (N.eqb c Js.LF).
    + constructor; [reflexivity | exact IH].
    + destruct (Js.split_lines s) as [|l ls].
      * constructor; [simpl; rewrite C; reflexivity | constructor].
      * inversion IH; subst. constructor; [simpl; rewrite C; assumption | assumption].
Qed.

Lemma filter_nonblank_white (ls : list jsstring) :
  Forall (fun l => forallb Js.is_white l = true) ls ->
  filter (fun l => negb (Js.eqb (Js.trim l) [])) ls = [].
Proof.
  induction 1 as [|l ls W _ IH]; simpl; [reflexivity|].
  rewrite nonblank_filter_spec, W. exact IH.
Qed.

Lemma slice_last_snoc {A} (xs : list A) (x : A) :
  Js.slice_last (xs ++ [x]) = [x].
Proof.
  unfold Js.slice_last. rewrite length_app. simpl.
  replace (length xs + 1 - 1) with (length xs + 0) by lia.
  rewrite skipn_app, Nat.add_0_r, skipn_all.
  replace (length xs - length xs) with 0 by lia. reflexivity.
Qed.

Lemma lines_until_last_nonblank (text line : jsstring) :
  last_nonblank_line text line ->
  exists before,
    filter (fun l => negb (Js.eqb (Js.trim l) [])) (Js.split_lines text)
    = before ++ [line].
Proof.
  intros (pre & suf & E & Hpre & Hsuf & Hline & Hnb & Hw). subst text.
  assert (Tail : filter (fun l => negb (Js.eqb (Js.trim l) []))
                   (Js.split_lines (line ++ suf)) = [line]).
  { destruct Hsuf as [-> | [s ->]].
    - rewrite app_nil_r, split_lines_single by assumption.
      simpl. rewrite nonblank_filter_spec, Hnb. reflexivity.
    - rewrite split_lines_app_lf, filter_app, split_lines_single by assumption.
      simpl in Hw. simpl. rewrite nonblank_filter_spec, Hnb. simpl.
      rewrite filter_nonblank_white; [reflexivity|].
      apply split_lines_white. exact Hw. }
  destruct Hpre as [-> | [p ->]].
  - exists []. exact Tail.
  - rewrite <- app_assoc. simpl. rewrite split_lines_app_lf, filter_app, Tail.
    eexists. reflexivity.
Qed.

(* ================================================================== *)
(** * Reasoning about runs *)
(* ================================================================== *)

Lemma js_eqb_eq (a b : jsstring) : Js.eqb a b = true <-> a = b.
Proof.
  revert b. induction a as [|x a IH]; destruct b as [|y b]; simpl;
    try (split; intro H; congruence).
  rewrite andb_true_iff, N.eqb_eq, IH. split.
  - intros [-> ->]. reflexivity.
  - intro H. inversion H. auto.
Qed.

Lemma js_eqb_refl (a : jsstring) : Js.eqb a a = true.
Proof. apply js_eqb_eq. reflexivity. Qed.

Section Runs.

Context {R : Type}.

Lemma createAsyncThunk_returns {A} (m : M R A) (w : World R) :
  exists action, result (createAsyncThunk m w) = Return action.
Proof.
  unfold createAsyncThunk. simpl. destruct (result (m w)); eexists; reflexivity.
Qed.

(** ** Weakest preconditions *)

Lemma wp_conseq {A} (m : M R A) w
    (Q Q' : Completion A -> World R -> list Exchange -> Prop) :
  wp m w Q -> (forall c w' t, Q c w' t -> Q' c w' t) -> wp m w Q'.
Proof. unfold wp. auto. Qed.

Lemma wp_ret {A} (a : A) w (Q : Completion A -> World R -> list Exchange -> Prop) :
  Q (Return a) w [] -> wp (ret a) w Q.
Proof. unfold wp. auto. Qed.

Lemma wp_getState w (Q : Completion RootState -> World R -> list Exchange -> Prop) :
  Q (Return (store w)) w [] -> wp getState w Q.
Proof. unfold wp. auto. Qed.

Lemma wp_bind {A B} (m : M R A) (k : A -> M R B) w
    (Q : Completion B -> World R -> list Exchange -> Prop) :
  wp m w (fun c w1 t1 =>
            match c with
            | Return a => wp (k a) w1 (fun c' w' t' => Q c' w' (t1 ++ t'))
            | Throw e => Q (Throw e) w1 t1
            end) ->
  wp (bind m k) w Q.
Proof.
  unfold wp, bind. destruct (result (m w)); simpl; auto.
Qed.

Lemma wp_createAsyncThunk {A} (m : M R A) w
    (Q : Completion (ThunkAction A) -> World R -> list Exchange -> Prop) :
  wp m w (fun c w' t =>
            Q (Return match c with
                      | Return a => fulfilled a
                      | Throw e => rejected e
                      end) w' t) ->
  wp (createAsyncThunk m) w Q.
Proof.
  unfold wp, createAsyncThunk. simpl. destruct (result (m w)); auto.
Qed.

Lemma wp_unwrapResult {A} (action : ThunkAction A) w
    (Q : Completion A -> World R -> list Exchange -> Prop) :
  Q (match action with fulfilled a => Return a | rejected e => Throw e end) w [] ->
  wp (unwrapResult action) w Q.
Proof. unfold wp. destruct action; auto. Qed.

Lemma wp_await_request {A} (h : R -> Promise A * R)
    (exchange : Promise A -> Exchange) w
    (Q : Completion A -> World R -> list Exchange -> Prop) :
  (forall w',
      store w' = store w -> entropy w' = entropy w ->
      console w' = console w -> background w' = background w ->
      remote w' = snd (h (remote w)) ->
      Q (match fst (h (remote w)) with
         | Resolves a => Return a
         | Rejects e => Throw e
         end) w' [exchange (fst (h (remote w)))]) ->
  wp (await_request h exchange) w Q.
Proof.
  unfold wp, await_request. intro H. destruct (h (remote w)) as [p r'].
  simpl in *. apply H; reflexivity.
Qed.

Lemma existsb_false_find {A} (f : A -> bool) (l : list A) :
  existsb f l = false -> find f l = None.
Proof.
  induction l as [|x l IH]; simpl; [reflexivity|].
  destruct (f x); simpl; [discriminate | exact IH].
Qed.

Lemma saved_sessions_app (a b : list Exchange) :
  saved_sessions (a ++ b) = saved_sessions a ++ saved_sessions b.
Proof.
  induction a as [|x a IH]; simpl; [reflexivity|].
  destruct x; simpl; rewrite IH; reflexivity.
Qed.

Lemma last_session_queries_app (a b : list Exchange) :
  last_session_queries (a ++ b)
  = last_session_queries a ++ last_session_queries b.
Proof.
  induction a as [|x a IH]; simpl; [reflexivity|].
  destruct x; simpl; rewrite ?IH; try reflexivity.
  destruct (limit args) as [[|[|n]]|]; simpl; rewrite ?IH; reflexivity.
Qed.

End Runs.

(* ================================================================== *)
(** * Properties of the title deriver *)
(* ================================================================== *)

Section TitleDeriverProperties.

Variable renderChatMessage : ChatMessage -> jsstring.

Lemma getChatTitleFromMessage_of_last_line (msg : ChatMessage) (line : jsstring) :
  last_nonblank_line (renderChatMessage msg) line ->
  getChatTitleFromMessage renderChatMessage msg
  = if MAX_TITLE_LENGTH <? length line
    then firstn (MAX_TITLE_LENGTH - 3) line ++ Js.of_string "..."
    else line.
Proof.
  intro H. pose proof H as (pre & suf & _ & _ & _ & _ & Hnb & _).
  destruct (lines_until_last_nonblank H) as [before E].
  unfold getChatTitleFromMessage. rewrite E, slice_last_snoc.
  change (hd_error [line]) with (Some line). cbv zeta.
  assert (T : Js.or_empty (Some line) = line).
  { destruct line; [discriminate | reflexivity]. }
  rewrite T. reflexivity.
Qed.

(** C4. When the last non-blank line of the rendered message is longer
    than 100 code units the derived title has length 100, ends in three
    dots, and starts with the first 97 code units of that line. When the
    rendered message holds white space only (it is empty, or all its
    lines are blank) the derived title is the empty string. *)
Theorem getChatTitleFromMessage_truncation (msg : ChatMessage) :
  (forall line,
      last_nonblank_line (renderChatMessage msg) line ->
      100 < length line ->
      let t := getChatTitleFromMessage renderChatMessage msg in
      length t = 100 /\
      skipn 97 t = Js.of_string "..." /\
      firstn 97 t = firstn 97 line) /\
  (forallb Js.is_white (renderChatMessage msg) = true ->
   getChatTitleFromMessage renderChatMessage msg = []).
Proof.
  split.
  - intros line H Hlen t. subst t.
    rewrite (getChatTitleFromMessage_of_last_line H).
    apply Nat.ltb_lt in Hlen. unfold MAX_TITLE_LENGTH. rewrite Hlen.
    apply Nat.ltb_lt in Hlen.
    assert (L : length (firstn (100 - 3) line) = 97)
      by (rewrite length_firstn; lia).
    change (100 - 3) with 97 in *.
    split; [|split].
    + rewrite length_app, L. reflexivity.
    + rewrite skipn_app, L, Nat.sub_diag, skipn_all2 by lia. reflexivity.
    + rewrite firstn_app, L, Nat.sub_diag, firstn_firstn, app_nil_r.
      reflexivity.
  - intro W. unfold getChatTitleFromMessage.
    rewrite filter_nonblank_white by (apply split_lines_white; exact W).
    reflexivity.
Qed.

End TitleDeriverProperties.

(* ================================================================== *)
(** * The thunks, one by one *)
(* ================================================================== *)

Section Properties.

Variable R : Type.
Variable ideMessenger : IIdeMessenger R.
Variable renderChatMessage : ChatMessage -> jsstring.
Variable NEW_SESSION_TITLE : jsstring.
Variable uuidv4 : nat -> jsstring.

Local Abbreviation dispatch :=
  (SessionThunks.dispatch (R:=R) NEW_SESSION_TITLE uuidv4).
Local Abbreviation refreshSessionMetadata :=
  (SessionThunks.refreshSessionMetadata ideMessenger NEW_SESSION_TITLE uuidv4).
Local Abbreviation updateSession :=
  (SessionThunks.updateSession ideMessenger NEW_SESSION_TITLE uuidv4).
Local Abbreviation getSession := (SessionThunks.getSession ideMessenger).
Local Abbreviation lookupWorkspaceDirectory :=
  (SessionThunks.lookupWorkspaceDirectory ideMessenger).
Local Abbreviation saveCurrentSession :=
  (SessionThunks.saveCurrentSession
     ideMessenger renderChatMessage NEW_SESSION_TITLE uuidv4).
Local Abbreviation loadSession :=
  (SessionThunks.loadSession
     ideMessenger renderChatMessage NEW_SESSION_TITLE uuidv4).
Local Abbreviation loadLastSession :=
  (SessionThunks.loadLastSession
     ideMessenger renderChatMessage NEW_SESSION_TITLE uuidv4).
Local Abbreviation deleteSession :=
  (SessionThunks.deleteSession
     ideMessenger renderChatMessage NEW_SESSION_TITLE uuidv4).

(** ** Refresh metadata *)

(** C7. [refreshSessionMetadata] makes one [history/list] request. When
    the answer has an error status the thunk is rejected with that error
    and the store is untouched. When the answer is a success the thunk is
    fulfilled with the returned list, the loading flag is false and the
    metadata collection is exactly that list. *)
Theorem refreshSessionMetadata_contract (args : ListArgs) (w : World R) :
  let run := refreshSessionMetadata args w in
  (forall e,
      fst (history_list ideMessenger args (remote w)) = Resolves (Failure e) ->
      result run = Return (rejected (Error e)) /\
      store (final run) = store w) /\
  (forall content,
      fst (history_list ideMessenger args (remote w)) = Resolves (Success content) ->
      result run = Return (fulfilled content) /\
      isSessionMetadataLoading (session (store (final run))) = false /\
      allSessionMetadata (session (store (final run))) = content).
Proof.
  unfold SessionThunks.refreshSessionMetadata, createAsyncThunk, bind, await_request.
  destruct (history_list ideMessenger args (remote w)) as [reply r'].
  simpl. split.
  - intros e ->. simpl. auto.
  - intros content ->. simpl. auto.
Qed.

(** ** Save current: the short circuit *)

Lemma saveCurrentSession_no_history openNewSession generateTitle w :
  history (session (store w)) = [] ->
  wp (saveCurrentSession openNewSession generateTitle) w
    (fun c w' t => c = Return (fulfilled tt) /\ w' = w /\ t = []).
Proof.
  intro H. unfold SessionThunks.saveCurrentSession.
  apply wp_createAsyncThunk, wp_bind, wp_getState. cbv beta iota.
  rewrite H. change (length (@nil ChatHistoryItem) =? 0) with true. cbv iota.
  apply wp_ret. auto.
Qed.

(** C8. With an empty history [saveCurrentSession] returns at once,
    whatever its flags: the thunk is fulfilled, no request has been made
    and the world (store, messenger, background work) is the one it
    started in. *)
Theorem saveCurrentSession_empty_history
    (openNewSession generateTitle : bool) (w : World R) :
  history (session (store w)) = [] ->
  let run := saveCurrentSession openNewSession generateTitle w in
  result run = Return (fulfilled tt) /\ final run = w /\ trace run = [].
Proof.
  intros H run. subst run.
  change (wp (saveCurrentSession openNewSession generateTitle) w
            (fun c w' t => c = Return (fulfilled tt) /\ w' = w /\ t = [])).
  unfold SessionThunks.saveCurrentSession.
  apply wp_createAsyncThunk, wp_bind, wp_getState. cbv beta iota.
  rewrite H. change (length (@nil ChatHistoryItem) =? 0) with true. cbv iota.
  apply wp_ret. auto.
  Qed.

(** ** What each thunk does to the trace *)

Lemma lookupWorkspaceDirectory_wp {V} (initial : V) adopt w :
  let reply := fst (getWorkspaceDirs ideMessenger (remote w)) in
  wp (lookupWorkspaceDirectory initial adopt) w
    (fun c w' t =>
       c = Return (match adopted_directory reply with
                   | Some d => adopt d
                   | None => initial
                   end) /\
       store w' = store w /\ t = [XDirs reply]).
Proof.
  unfold wp, SessionThunks.lookupWorkspaceDirectory, try_catch, bind, await_request.
  destruct (getWorkspaceDirs ideMessenger (remote w)) as [p r'].
  destruct p as [[[|d ds]|r]|e]; simpl; auto.
Qed.

Lemma refreshSessionMetadata_wp args w :
  let reply := fst (history_list ideMessenger args (remote w)) in
  wp (refreshSessionMetadata args) w
    (fun c w' t =>
       (exists action, c = Return action /\
                       payload_of action =
                         match reply with
                         | Resolves (Success content) => Some content
                         | _ => None
                         end) /\
       allSessionMetadata (session (store w'))
       = match reply with
         | Resolves (Success content) => content
         | _ => allSessionMetadata (session (store w))
         end /\
       t = [XList args reply]).
Proof.
  unfold wp, SessionThunks.refreshSessionMetadata, createAsyncThunk, bind,
    await_request.
  destruct (history_list ideMessenger args (remote w)) as [p r'].
  destruct p as [[content|e]|e]; simpl; eauto 10.
Qed.

Lemma updateSession_wp s w :
  wp (updateSession s) w
    (fun c w' t =>
       (exists action, c = Return action) /\
       saved_sessions t = [s] /\ last_session_queries t = []).
Proof.
  unfold wp, SessionThunks.updateSession, SessionThunks.refreshSessionMetadata,
    createAsyncThunk, bind, await_request.
  simpl.
  destruct (history_save ideMessenger s (remote w)) as [p r'].
  destruct p as [u|e]; simpl; [|eauto].
  destruct (history_list ideMessenger _ r') as [q r''].
  simpl. destruct q as [[content|e]|e]; simpl; eauto.
Qed.

(** Everything [saveCurrentSession] does with a history that is not
    empty: it hands exactly one session to [history/save], made of the
    id and the history of the state it started in, the adopted workspace
    directory and a title. *)
Lemma saveCurrentSession_wp openNewSession generateTitle w :
  history (session (store w)) <> [] ->
  let reply := fst (getWorkspaceDirs ideMessenger (remote w)) in
  wp (saveCurrentSession openNewSession generateTitle) w
    (fun c w' t =>
       last_session_queries t = [] /\
       exists s,
         saved_sessions t = [s] /\
         s_sessionId s = id (session (store w)) /\
         s_history s = history (session (store w)) /\
         s_workspaceDirectory s =
           match adopted_directory reply with Some d => d | None => [] end /\
         (s_title s = [] -> NEW_SESSION_TITLE = []) /\
         (title (session (store w)) = NEW_SESSION_TITLE \/
          title (session (store w)) = [] ->
          existsb describes_title t = false ->
          derived_title renderChatMessage (history (session (store w))) = [] ->
          has_metadata_of (id (session (store w)))
            (allSessionMetadata (session (store w))) = false ->
          s_title s = NEW_SESSION_TITLE)).
Proof.
  intros Hh reply. unfold SessionThunks.saveCurrentSession.
  apply wp_createAsyncThunk, wp_bind, wp_getState. cbv beta iota.
  destruct (history (session (store w))) as [|first rest] eqn:Hhist;
    [congruence|].
  change (length (first :: rest) =? 0) with false. cbv iota.
  apply wp_bind.
  eapply wp_conseq; [apply lookupWorkspaceDirectory_wp|].
  intros c w1 t1 (-> & Hs1 & ->). cbv beta iota. fold reply.
  apply wp_bind.
  eapply wp_conseq
    with (Q := fun c w2 t =>
                 c = Return tt /\ t = [] /\
                 allSessionMetadata (session (store w2))
                 = allSessionMetadata (session (store w1))).
  { destruct openNewSession; unfold wp; simpl; auto. }
  intros c w2 t2 (-> & -> & Hm2). cbv beta iota.
  apply wp_bind.
  eapply wp_conseq
    with (Q := fun c w3 t =>
                 store w3 = store w2 /\ saved_sessions t = [] /\
                 last_session_queries t = [] /\
                 exists title1,
                   c = Return title1 /\
                   (title (session (store w)) = NEW_SESSION_TITLE \/
                    title (session (store w)) = [] ->
                    existsb describes_title t = false ->
                    getChatTitleFromMessage renderChatMessage (message first) = [] ->
                    title1 = [])).
  { destruct (Js.eqb (title (session (store w))) NEW_SESSION_TITLE) eqn:Et.
    2:{ unfold wp. simpl. repeat split; auto. eexists. split; [reflexivity|].
        intros [E|E] _ _; [|exact E].
        apply js_eqb_eq in E. congruence. }
    apply wp_bind.
    eapply wp_conseq
      with (Q := fun c w3 t =>
                   store w3 = store w2 /\ saved_sessions t = [] /\
                   last_session_queries t = [] /\
                   exists described,
                     c = Return described /\
                     (existsb describes_title t = false ->
                      described = title (session (store w)))).
    { unfold wp.
      destruct (negb (flag_truthy (disableSessionTitles (config (store w))))
                && present (selectSelectedChatModel (store w)));
        [|simpl; eauto 10].
      destruct (firstAssistantResponse (first :: rest)) as [text|];
        [|simpl; eauto 10].
      destruct (Js.truthy text && generateTitle); [|simpl; eauto 10].
      unfold try_catch, bind, await_request.
      destruct (chatDescriber_describe ideMessenger text (remote w2)) as [p r'].
      destruct p as [[[c|]|e]|e]; simpl; eauto 10.
      destruct (Js.truthy c) eqn:Ec; simpl; rewrite ?Ec; simpl.
      - repeat split; auto. eexists. split; [reflexivity|]. discriminate.
      - eauto 10. }
    intros c w3 t3 (Hs3 & Hsv3 & Hq3 & described & -> & Hd).
    destruct (Js.eqb described NEW_SESSION_TITLE) eqn:Ed.
    - apply wp_ret. rewrite app_nil_r. repeat split; auto.
      eexists. split; [reflexivity|]. auto.
    - apply wp_ret. rewrite app_nil_r. repeat split; auto.
      eexists. split; [reflexivity|]. intros _ E2 _.
      rewrite (Hd E2), Et in Ed. discriminate. }
  intros c w3 t3 (Hs3 & Hsv3 & Hq3 & title1 & -> & Ht1). cbv beta iota.
  apply wp_bind.
  eapply wp_conseq
    with (Q := fun c w4 t =>
                 t = [] /\
                 exists title2,
                   c = Return title2 /\
                   (title1 = [] ->
                    has_metadata_of (id (session (store w)))
                      (allSessionMetadata (session (store w))) = false ->
                    title2 = [])).
  { destruct (length title1 =? 0) eqn:El.
    - apply wp_bind, wp_getState. cbv beta iota.
      rewrite Hs3, Hm2, Hs1.
      destruct (find _ _) as [m|] eqn:Ef.
      + destruct (Js.truthy (m_title m)); apply wp_ret;
          (split; [reflexivity|]); eexists; (split; [reflexivity|]); auto.
        intros _ Hno. apply existsb_false_find in Hno.
        unfold jsstring in *. congruence.
      + apply wp_ret. eauto.
    - apply wp_ret. eauto. }
  intros c w4 t4 (-> & title2 & -> & Ht2). cbv beta iota.
  apply wp_bind.
  eapply wp_conseq; [apply updateSession_wp|].
  intros c w5 t5 ([action ->] & Hsv5 & Hq5).
  apply wp_unwrapResult.
  simpl. rewrite !last_session_queries_app, !saved_sessions_app.
  rewrite Hsv3, Hq3, Hsv5, Hq5. simpl. split; [reflexivity|].
  eexists. split; [reflexivity|]. simpl. repeat split; auto.
  - destruct (length title2 =? 0) eqn:E2; [auto|].
    intro Z. rewrite Z in E2. discriminate.
  - intros E1 E2 E3 E4. rewrite app_nil_r in E2.
    rewrite existsb_app in E2. apply orb_false_iff in E2. destruct E2 as [E2 _].
    rewrite Ht2; auto.
Qed.


Lemma saveCurrentSession_quiet openNewSession generateTitle w :
  wp (saveCurrentSession openNewSession generateTitle) w
    (fun c w' t =>
       (exists action, c = Return action) /\ last_session_queries t = []).
Proof.
  unfold wp. split; [apply createAsyncThunk_returns|].
  destruct (history (session (store w))) as [|first rest] eqn:Hh.
  - destruct (saveCurrentSession_no_history openNewSession generateTitle w Hh)
      as (_ & _ & ->). reflexivity.
  - apply (@saveCurrentSession_wp openNewSession generateTitle w).
    rewrite Hh. discriminate.
Qed.

Lemma getSession_wp sid w :
  let reply := fst (history_load ideMessenger sid (remote w)) in
  wp (getSession sid) w
    (fun c w' t =>
       c = match reply with
           | Resolves (Success s) => Return s
           | Resolves (Failure e) => Throw (Error e)
           | Rejects e => Throw e
           end /\
       store w' = store w /\ entropy w' = entropy w /\
       t = [XLoad sid reply]).
Proof.
  unfold wp, SessionThunks.getSession, bind, await_request.
  destruct (history_load ideMessenger sid (remote w)) as [p r'].
  destruct p as [[s|e]|e]; simpl; auto.
Qed.

(** [loadLastSession] asks once for the last session, in the workspace
    directory its lookup adopted. *)
Lemma loadLastSession_queries flag w :
  let reply := fst (getWorkspaceDirs ideMessenger (remote w)) in
  last_session_queries (trace (loadLastSession flag w))
  = [{| limit := Some 1; offset := None;
        workspaceDirectory := adopted_directory reply |}].
Proof.
  intro reply.
  change (wp (loadLastSession flag) w
            (fun _ _ t =>
               last_session_queries t
               = [{| limit := Some 1; offset := None;
                     workspaceDirectory := adopted_directory reply |}])).
  unfold SessionThunks.loadLastSession.
  apply wp_createAsyncThunk, wp_bind, wp_getState. cbv beta iota.
  apply wp_bind.
  eapply wp_conseq; [apply lookupWorkspaceDirectory_wp|].
  intros c w1 t1 (-> & Hs1 & ->). cbv beta iota. fold reply.
  replace (match adopted_directory reply with Some d => Some d | None => None end)
    with (adopted_directory reply) by (destruct (adopted_directory reply); reflexivity).
  apply wp_bind.
  eapply wp_conseq
    with (Q := fun c w2 t => c = Return tt /\ last_session_queries t = []).
  { destruct (Js.truthy (id (session (store w))) && flag).
    - apply wp_bind.
      eapply wp_conseq; [apply saveCurrentSession_quiet|].
      intros c w2 t2 ([action ->] & Hq). apply wp_ret.
      rewrite app_nil_r. auto.
    - apply wp_ret. auto. }
  intros c w2 t2 (-> & Hq2). cbv beta iota.
  apply wp_bind.
  eapply wp_conseq; [apply refreshSessionMetadata_wp|].
  intros c w3 t3 ((action & -> & Hp) & _ & ->). cbv beta iota.
  destruct (match payload_of action with
            | Some l => hd_error l
            | None => None
            end) as [m|].
  - apply wp_bind.
    eapply wp_conseq; [apply getSession_wp|].
    intros c w4 t4 (-> & _ & _ & ->).
    destruct (fst (history_load ideMessenger (m_sessionId m) (remote w3)))
      as [[s|e]|e]; unfold wp; simpl;
      rewrite !last_session_queries_app, Hq2; reflexivity.
  - unfold wp. simpl. rewrite !last_session_queries_app, Hq2. reflexivity.
Qed.

(** ** Save current: the title that is persisted *)

(** C3. [saveCurrentSession] on a history that is not empty hands one
    session to [history/save]. Its title is never the empty string (the
    sentinel being a non-empty string). When the title of the active
    session is the sentinel or empty, no [chatDescriber/describe] answer gave a
    title (the stage was skipped, the request was rejected, answered with
    an error status or without content), the title derived from the first
    message is empty and no stored metadata entry has the id of the
    active session, the title persisted is the sentinel. *)
Theorem saveCurrentSession_title_fallback
    (openNewSession generateTitle : bool) (w : World R) :
  history (session (store w)) <> [] ->
  let run := saveCurrentSession openNewSession generateTitle w in
  exists s,
    saved_sessions (trace run) = [s] /\
    (NEW_SESSION_TITLE <> [] -> s_title s <> []) /\
    (title (session (store w)) = NEW_SESSION_TITLE \/
     title (session (store w)) = [] ->
     existsb describes_title (trace run) = false ->
     derived_title renderChatMessage (history (session (store w))) = [] ->
     has_metadata_of (id (session (store w)))
       (allSessionMetadata (session (store w))) = false ->
     s_title s = NEW_SESSION_TITLE).
Proof.
  intros Hh run.
  destruct (@saveCurrentSession_wp openNewSession generateTitle w Hh)
    as (_ & s & Hs & _ & _ & _ & Hne & Hfb).
  exists s. split; [exact Hs|]. split; [|exact Hfb].
  intros HN E. apply HN, Hne, E.
Qed.

(** ** The workspace directory *)

(** C10. Let [reply] be the answer to the [getWorkspaceDirs] request
    [loadLastSession] and [saveCurrentSession] start with. When it is a
    tagged response, a success carrying directories included,
    [loadLastSession] asks for the last session with no workspace
    directory and [saveCurrentSession] persists the empty string as
    workspace directory. A directory is asked for, or a non-empty one
    persisted, only when [reply] is itself an array with that directory
    first. *)
Theorem workspace_directory_adoption (w : World R) :
  let reply := fst (getWorkspaceDirs ideMessenger (remote w)) in
  (forall r, reply = Resolves (DirsTagged r) ->
     (forall flag,
         last_session_queries (trace (loadLastSession flag w))
         = [{| limit := Some 1; offset := None; workspaceDirectory := None |}]) /\
     (forall openNewSession generateTitle,
         history (session (store w)) <> [] ->
         map s_workspaceDirectory
           (saved_sessions (trace (saveCurrentSession openNewSession generateTitle w)))
         = [[]])) /\
  (forall flag args d,
      In args (last_session_queries (trace (loadLastSession flag w))) ->
      workspaceDirectory args = Some d ->
      exists rest, reply = Resolves (DirsArray (d :: rest))) /\
  (forall openNewSession generateTitle s,
      In s (saved_sessions (trace (saveCurrentSession openNewSession generateTitle w))) ->
      s_workspaceDirectory s <> [] ->
      exists rest, reply = Resolves (DirsArray (s_workspaceDirectory s :: rest))).
Proof.
  intro reply.
  assert (Adopt : forall d, adopted_directory reply = Some d ->
                            exists rest, reply = Resolves (DirsArray (d :: rest))).
  { intros d. destruct reply as [[[|first rest]|r]|e]; simpl; try discriminate.
    intro E. inversion E. subst. eexists. reflexivity. }
  split; [|split].
  - intros r Hr. split.
    + intro flag. rewrite loadLastSession_queries. fold reply. rewrite Hr.
      reflexivity.
    + intros o g Hh.
      destruct (@saveCurrentSession_wp o g w Hh) as (_ & s & -> & _ & _ & Hwd & _).
      fold reply in Hwd. rewrite Hr in Hwd. simpl in *. rewrite Hwd. reflexivity.
  - intros flag args d Hin Hd. rewrite loadLastSession_queries in Hin.
    destruct Hin as [<-|[]]. simpl in Hd. apply Adopt. exact Hd.
  - intros o g s Hin Hne.
    destruct (history (session (store w))) as [|first rest] eqn:Hh.
    + destruct (saveCurrentSession_no_history o g w Hh) as (_ & _ & Ht).
      rewrite Ht in Hin. destruct Hin.
    + assert (Hh' : history (session (store w)) <> []) by (rewrite Hh; discriminate).
      destruct (@saveCurrentSession_wp o g w Hh') as (_ & s' & Hs & _ & _ & Hwd & _).
      rewrite Hs in Hin. destruct Hin as [<-|[]]. fold reply in Hwd.
      destruct (adopted_directory reply) as [d|] eqn:Ea; [|congruence].
      rewrite Hwd. apply Adopt. reflexivity.
Qed.

(** ** Invariants carried through the thunks *)

Section Invariants.

Variable I : World R -> World R -> Prop.
Variable T : Exchange -> Prop.
Hypothesis I_refl : forall w, I w w.
Hypothesis I_trans : forall a b c, I a b -> I b c -> I a c.
(** [I] looks at the store only. *)
Hypothesis I_store : forall w w', store w' = store w -> I w w'.
(** Every action but [newSession] keeps [I]. *)
Hypothesis I_dispatch :
  forall a w, (forall p, a <> newSession p) -> I w (final (dispatch a w)).
Hypothesis T_list : forall args p, T (XList args p).
Hypothesis T_dirs : forall p, T (XDirs p).
Hypothesis T_describe : forall text p, T (XDescribe text p).

Lemma respects_ret {A} (a : A) : respects I T (ret (R:=R) a).
Proof. intro w. simpl. auto. Qed.

Lemma respects_throw {A} e : respects I T (@throw R A e).
Proof. intro w. simpl. auto. Qed.

Lemma respects_getState : respects I T (getState (R:=R)).
Proof. intro w. simpl. auto. Qed.

Lemma respects_bind {A B} (m : M R A) (k : A -> M R B) :
  respects I T m -> (forall a, respects I T (k a)) ->
  respects I T (bind m k).
Proof.
  intros Hm Hk w. unfold bind. destruct (Hm w) as [I1 T1].
  destruct (result (m w)) as [a|e]; simpl.
  - destruct (Hk a (final (m w))) as [I2 T2]. split.
    + eapply I_trans; eassumption.
    + apply Forall_app. auto.
  - auto.
Qed.

Lemma respects_try_catch {A} (m : M R A) (h : JsError -> M R A) :
  respects I T m -> (forall e, respects I T (h e)) ->
  respects I T (try_catch m h).
Proof.
  intros Hm Hh w. unfold try_catch. destruct (Hm w) as [I1 T1].
  destruct (result (m w)) as [a|e]; simpl.
  - auto.
  - destruct (Hh e (final (m w))) as [I2 T2]. split.
    + eapply I_trans; eassumption.
    + apply Forall_app. auto.
Qed.

Lemma respects_createAsyncThunk {A} (m : M R A) :
  respects I T m -> respects I T (createAsyncThunk m).
Proof. intros Hm w. exact (Hm w). Qed.

Lemma respects_unwrapResult {A} (action : ThunkAction A) :
  respects I T (unwrapResult (R:=R) action).
Proof. destruct action; [apply respects_ret | apply respects_throw]. Qed.

Lemma respects_log line : respects I T (log (R:=R) line).
Proof. intro w. simpl. auto. Qed.

Lemma respects_await_request {A} (h : R -> Promise A * R)
    (exchange : Promise A -> Exchange) :
  (forall p, T (exchange p)) -> respects I T (await_request h exchange).
Proof.
  intros HT w. unfold await_request. destruct (h (remote w)) as [p r'].
  simpl. auto.
Qed.

Lemma respects_dispatch a :
  (forall p, a <> newSession p) -> respects I T (dispatch a).
Proof. intros Ha w. split; [apply I_dispatch; exact Ha | constructor]. Qed.

Ltac respects_step :=
  lazymatch goal with
  | |- respects _ _ (ret _) => apply respects_ret
  | |- respects _ _ (throw _) => apply respects_throw
  | |- respects _ _ getState => apply respects_getState
  | |- respects _ _ (unwrapResult _) => apply respects_unwrapResult
  | |- respects _ _ (log _) => apply respects_log
  | |- respects _ _ (createAsyncThunk _) => apply respects_createAsyncThunk
  | |- respects _ _ (bind _ _) => apply respects_bind; [ | intro ]
  | |- respects _ _ (try_catch _ _) => apply respects_try_catch; [ | intro ]
  | |- respects _ _ (await_request _ _) =>
      apply respects_await_request; solve [ auto ]
  | |- respects _ _ (dispatch _) => apply respects_dispatch; discriminate
  | |- respects _ _ (if ?b then _ else _) => destruct b
  | |- respects _ _ (match ?x with _ => _ end) => destruct x
  end.

Ltac respects_auto := repeat respects_step.

Lemma refreshSessionMetadata_respects args :
  respects I T (refreshSessionMetadata args).
Proof. unfold SessionThunks.refreshSessionMetadata. respects_auto. Qed.

Lemma updateSession_respects s :
  (forall p, T (XSave s p)) -> respects I T (updateSession s).
Proof.
  intro HS. unfold SessionThunks.updateSession. respects_auto.
  apply refreshSessionMetadata_respects.
Qed.

Lemma lookupWorkspaceDirectory_respects {V} (initial : V) adopt :
  respects I T (lookupWorkspaceDirectory initial adopt).
Proof. unfold SessionThunks.lookupWorkspaceDirectory. respects_auto. Qed.

(** [saveCurrentSession] keeps an invariant that [newSession] keeps (or
    any invariant, when no new session is opened), provided the trace
    property admits the save of a session whose title is not empty,
    or is the sentinel. *)
Lemma saveCurrentSession_respects openNewSession generateTitle :
  (openNewSession = true ->
   forall w, I w (final (dispatch (newSession None) w))) ->
  (forall s p, (s_title s = [] -> NEW_SESSION_TITLE = []) -> T (XSave s p)) ->
  respects I T (saveCurrentSession openNewSession generateTitle).
Proof.
  intros HN HS. unfold SessionThunks.saveCurrentSession.
  apply respects_createAsyncThunk.
  apply respects_bind; [apply respects_getState | intro state].
  destruct (length (history (session state)) =? 0); [apply respects_ret|].
  apply respects_bind; [apply lookupWorkspaceDirectory_respects | intro wd].
  apply respects_bind.
  { destruct openNewSession; [|apply respects_ret].
    intro w. split; [apply HN; reflexivity | constructor]. }
  intros _.
  apply respects_bind; [respects_auto | intro title1].
  apply respects_bind; [respects_auto | intro title2].
  apply respects_bind; [|intro; apply respects_unwrapResult].
  apply updateSession_respects. intro p. apply HS. simpl.
  destruct (length title2 =? 0) eqn:E; [auto|].
  intro Z. rewrite Z in E. discriminate.
Qed.

Lemma getSession_respects sid :
  (forall p, T (XLoad sid p)) -> respects I T (getSession sid).
Proof. intro HL. unfold SessionThunks.getSession. respects_auto. Qed.

Lemma loadLastSession_respects flag :
  (forall p w, I w (final (dispatch (newSession p) w))) ->
  (forall s p, T (XSave s p)) ->
  (forall sid p, T (XLoad sid p)) ->
  respects I T (loadLastSession flag).
Proof.
  intros HN HS HL. unfold SessionThunks.loadLastSession.
  assert (New : forall p, respects I T (dispatch (newSession p))).
  { intros p w. split; [apply HN | constructor]. }
  apply respects_createAsyncThunk.
  apply respects_bind; [apply respects_getState | intro state].
  apply respects_bind; [apply lookupWorkspaceDirectory_respects | intro wd].
  apply respects_bind.
  { destruct (Js.truthy (id (session state)) && flag); [|apply respects_ret].
    apply respects_bind; [|intro; apply respects_ret].
    apply saveCurrentSession_respects; [discriminate | auto]. }
  intros _.
  apply respects_bind; [apply refreshSessionMetadata_respects | intro action].
  destruct (match payload_of action with
            | Some l => hd_error l
            | None => None
            end) as [m|]; [|apply New].
  apply respects_bind; [apply getSession_respects; auto | intro; apply New].
Qed.

End Invariants.

Lemma same_active_session_refl (w : World R) : same_active_session w w.
Proof. unfold same_active_session. auto. Qed.

Lemma same_active_session_trans (a b c : World R) :
  same_active_session a b -> same_active_session b c ->
  same_active_session a c.
Proof.
  unfold same_active_session. intros (E1 & E2 & E3) (F1 & F2 & F3).
  repeat split; congruence.
Qed.

Lemma same_active_session_store (w w' : World R) :
  store w' = store w -> same_active_session w w'.
Proof. unfold same_active_session. intros ->. auto. Qed.

Lemma same_active_session_dispatch a (w : World R) :
  (forall p, a <> newSession p) ->
  same_active_session w (final (dispatch a w)).
Proof.
  unfold same_active_session. intro H.
  destruct a; simpl; auto. exfalso. exact (H _ eq_refl).
Qed.

Lemma Forall_existsb_false {A} (f : A -> bool) (l : list A) :
  Forall (fun x => f x = false) l <-> existsb f l = false.
Proof.
  induction l as [|x l IH]; simpl.
  - split; auto.
  - rewrite orb_false_iff, <- IH. split.
    + intro H. inversion H. auto.
    + intros [H1 H2]. constructor; assumption.
Qed.

(** Saving without opening a new session leaves the active session as it
    is and loads nothing. *)
Lemma saveCurrentSession_keeps_active_session generateTitle w :
  let run := saveCurrentSession false generateTitle w in
  same_active_session w (final run) /\ existsb is_load (trace run) = false.
Proof.
  destruct (@saveCurrentSession_respects
              same_active_session (fun x => is_load x = false)
              same_active_session_refl same_active_session_trans
              same_active_session_store same_active_session_dispatch
              (fun _ _ => eq_refl) (fun _ => eq_refl) (fun _ _ => eq_refl)
              false generateTitle
              (fun (H : false = true) => False_ind _ (diff_false_true H))
              (fun _ _ _ => eq_refl) w) as [HI HT].
  split; [exact HI | apply Forall_existsb_false, HT].
Qed.

Lemma loadLastSession_returns flag w :
  exists action, result (loadLastSession flag w) = Return action.
Proof. apply createAsyncThunk_returns. Qed.

(** Loading the last session without saving never asks for a deletion. *)
Lemma loadLastSession_no_delete w :
  existsb is_delete (trace (loadLastSession false w)) = false.
Proof.
  apply Forall_existsb_false.
  apply (@loadLastSession_respects (fun _ _ => True) (fun x => is_delete x = false));
    auto.
Qed.

Lemma has_metadata_of_filter sid (l : list SessionMetadata) :
  has_metadata_of sid
    (filter (fun m => negb (Js.eqb (m_sessionId m) sid)) l) = false.
Proof.
  unfold has_metadata_of. induction l as [|m l IH]; simpl; [reflexivity|].
  destruct (Js.eqb (m_sessionId m) sid) eqn:E; simpl; [exact IH|].
  rewrite E, IH. reflexivity.
Qed.

Lemma existsb_false_In {A} (f : A -> bool) (l : list A) (x : A) :
  existsb f l = false -> In x l -> f x = false.
Proof.
  intros H Hin. apply Forall_existsb_false in H.
  rewrite Forall_forall in H. auto.
Qed.

(** ** Load session *)

Lemma fetch_and_activate_wp sessionId w :
  wp (session <- getSession sessionId ;; dispatch (newSession (Some session))) w
    (fun c w' t =>
       exists reply,
         t = [XLoad sessionId reply] /\
         forall s, reply = Resolves (Success s) ->
                   c = Return tt /\
                   id (session (store w')) = s_sessionId s /\
                   title (session (store w')) = s_title s /\
                   history (session (store w')) = s_history s).
Proof.
  unfold wp, SessionThunks.getSession, bind, await_request.
  destruct (history_load ideMessenger sessionId (remote w)) as [p r'].
  exists p. destruct p as [[s|e]|e]; simpl; split; try reflexivity;
    intros s' E; inversion E; subst; auto.
Qed.

(** C9. When [loadSession] is asked to save first and the save-current
    thunk is rejected, [loadSession] is rejected with the same error, no
    [history/load] request is made and id, title and history of the active
    session are what they were. When the save is fulfilled, or no save is
    asked for, the one [history/load] request is for the target session,
    and on a success answer the thunk is fulfilled and id, title and
    history of the active session are those of the session received. *)
Theorem loadSession_contract (sessionId : jsstring) (w : World R) :
  (forall e,
      result (saveCurrentSession false true w) = Return (rejected e) ->
      let run := loadSession sessionId true w in
      result run = Return (rejected e) /\
      existsb is_load (trace run) = false /\
      same_active_session w (final run)) /\
  (forall save,
      save = false \/
      result (saveCurrentSession false true w) = Return (fulfilled tt) ->
      let run := loadSession sessionId save w in
      exists before reply,
        trace run = before ++ [XLoad sessionId reply] /\
        existsb is_load before = false /\
        forall s, reply = Resolves (Success s) ->
                  result run = Return (fulfilled tt) /\
                  id (session (store (final run))) = s_sessionId s /\
                  title (session (store (final run))) = s_title s /\
                  history (session (store (final run))) = s_history s).
Proof.
  destruct (saveCurrentSession_keeps_active_session true w) as [Keep NoLoad].
  cbv zeta in Keep, NoLoad. split.
  - intros e He run. subst run.
    change (wp (loadSession sessionId true) w
              (fun c w' t =>
                 c = Return (rejected e) /\
                 existsb is_load t = false /\ same_active_session w w')).
    unfold SessionThunks.loadSession.
    apply wp_createAsyncThunk, wp_bind, wp_bind.
    unfold wp at 1. rewrite He. cbv beta iota.
    apply wp_unwrapResult. rewrite app_nil_r. auto.
  - intros save Hsave run. subst run.
    change (wp (loadSession sessionId save) w
              (fun c w' t =>
                 exists before reply,
                   t = before ++ [XLoad sessionId reply] /\
                   existsb is_load before = false /\
                   forall s, reply = Resolves (Success s) ->
                             c = Return (fulfilled tt) /\
                             id (session (store w')) = s_sessionId s /\
                             title (session (store w')) = s_title s /\
                             history (session (store w')) = s_history s)).
    unfold SessionThunks.loadSession.
    apply wp_createAsyncThunk, wp_bind.
    destruct save.
    + destruct Hsave as [Hsave|Hsave]; [discriminate|].
      apply wp_bind. unfold wp at 1. rewrite Hsave. cbv beta iota.
      apply wp_unwrapResult. cbv beta iota.
      eapply wp_conseq; [apply fetch_and_activate_wp|].
      intros c w' t (reply & -> & Hr).
      exists (trace (saveCurrentSession false true w)), reply.
      rewrite app_nil_r. split; [reflexivity|]. split; [exact NoLoad|].
      intros s Es. destruct (Hr s Es) as (-> & E1 & E2 & E3). auto.
    + apply wp_ret. cbv beta iota.
      eapply wp_conseq; [apply fetch_and_activate_wp|].
      intros c w' t (reply & -> & Hr).
      exists [], reply. split; [reflexivity|]. split; [reflexivity|].
      intros s Es. destruct (Hr s Es) as (-> & E1 & E2 & E3). auto.
Qed.

(** ** Delete session *)

Lemma wp_dispatch a w (Q : Completion unit -> World R -> list Exchange -> Prop) :
  Q (Return tt) (final (dispatch a w)) [] -> wp (dispatch a) w Q.
Proof. unfold wp. auto. Qed.

(** The metadata collection after [loadLastSession] without saving is the
    one before, or the content of a successful [history/list] answer. *)
Lemma loadLastSession_metadata w :
  wp (loadLastSession false) w
    (fun c w' t =>
       allSessionMetadata (session (store w'))
       = allSessionMetadata (session (store w)) \/
       exists args content,
         In (XList args (Resolves (Success content))) t /\
         allSessionMetadata (session (store w')) = content).
Proof.
  unfold SessionThunks.loadLastSession.
  apply wp_createAsyncThunk, wp_bind, wp_getState. cbv beta iota.
  apply wp_bind.
  eapply wp_conseq; [apply lookupWorkspaceDirectory_wp|].
  intros c w1 t1 (-> & Hs1 & ->). cbv beta iota.
  rewrite andb_false_r.
  apply wp_bind, wp_ret. cbv beta iota.
  apply wp_bind.
  eapply wp_conseq; [apply refreshSessionMetadata_wp|].
  intros c w2 t2 ((action & -> & _) & Hm2 & ->). cbv beta iota.
  rewrite Hs1 in Hm2.
  eapply wp_conseq
    with (Q := fun c w3 t =>
                 allSessionMetadata (session (store w3))
                 = allSessionMetadata (session (store w2))).
  { destruct (match payload_of action with
              | Some l => hd_error l
              | None => None
              end) as [m|]; [|reflexivity].
    unfold wp, SessionThunks.getSession, bind, await_request.
    destruct (history_load ideMessenger (m_sessionId m) (remote w2)) as [p r'].
    destruct p as [[s|e]|e]; reflexivity. }
  intros c w3 t3 Hm3. rewrite Hm3, Hm2.
  destruct (fst (history_list ideMessenger _ (remote w1))) as [[content|e]|e] eqn:E;
    auto.
  right. exists {| limit := Some 1; offset := None;
                   workspaceDirectory :=
                     match
                       adopted_directory (fst (getWorkspaceDirs ideMessenger (remote w)))
                     with
                     | Some d => Some d
                     | None => None
                     end |}, content.
  split; [|reflexivity]. simpl. right. left. reflexivity.
Qed.

(** C6, amended. When the [history/delete] request of [deleteSession] is
    answered with an error status, the thunk is rejected with that error,
    and [deleteSession] puts nothing back: the metadata collection holds
    an entry of the session afterwards only if the session was the active
    one and a [history/list] answer received while the last session was
    loaded brought the entry in again. *)
Theorem deleteSession_error_not_rolled_back
    (sessionId e : jsstring) (w : World R) :
  let run := deleteSession sessionId w in
  In (XDelete sessionId (Resolves (Failure e))) (trace run) ->
  result run = Return (rejected (Error e)) /\
  (has_metadata_of sessionId
     (allSessionMetadata (session (store (final run)))) = true ->
   id (session (store w)) = sessionId /\
   exists args content,
     In (XList args (Resolves (Success content))) (trace run) /\
     has_metadata_of sessionId content = true).
Proof.
  intro run. subst run.
  change (wp (deleteSession sessionId) w
            (fun c w' t =>
               In (XDelete sessionId (Resolves (Failure e))) t ->
               c = Return (rejected (Error e)) /\
               (has_metadata_of sessionId
                  (allSessionMetadata (session (store w'))) = true ->
                id (session (store w)) = sessionId /\
                exists args content,
                  In (XList args (Resolves (Success content))) t /\
                  has_metadata_of sessionId content = true))).
  unfold SessionThunks.deleteSession.
  apply wp_createAsyncThunk, wp_bind, wp_dispatch. cbv beta iota.
  set (w0 := final (dispatch (deleteSessionMetadata sessionId) w)).
  assert (Hmeta : has_metadata_of sessionId
                    (allSessionMetadata (session (store w0))) = false)
    by apply has_metadata_of_filter.
  assert (Hid : id (session (store w0)) = id (session (store w)))
    by reflexivity.
  apply wp_bind, wp_getState. cbv beta iota.
  apply wp_bind.
  eapply wp_conseq
    with (Q := fun c w1 t =>
                 c = Return tt /\ existsb is_delete t = false /\
                 (has_metadata_of sessionId
                    (allSessionMetadata (session (store w1))) = true ->
                  id (session (store w)) = sessionId /\
                  exists args content,
                    In (XList args (Resolves (Success content))) t /\
                    has_metadata_of sessionId content = true)).
  { destruct (Js.eqb sessionId (id (session (store w0)))) eqn:Eid.
    - apply wp_bind. unfold wp at 1.
      destruct (loadLastSession_returns false w0) as [action Ha].
      rewrite Ha. cbv beta iota. apply wp_ret. rewrite app_nil_r.
      split; [reflexivity|].
      split; [apply loadLastSession_no_delete|].
      intro Has. apply js_eqb_eq in Eid.
      split; [congruence|].
      destruct (loadLastSession_metadata w0) as [Same|(args & content & Hin & Hc)].
      + rewrite Same, Hmeta in Has. discriminate.
      + exists args, content. rewrite Hc in Has. auto.
    - apply wp_ret. split; [reflexivity|]. split; [reflexivity|].
      intro Has. rewrite Hmeta in Has. discriminate. }
  intros c w1 t1 (-> & NoDel & Hback). cbv beta iota.
  apply wp_bind, wp_await_request.
  intros w2 Hs2 _ _ _ _.
  assert (Own : forall reply tail,
             tail = [] ->
             In (XDelete sessionId (Resolves (Failure e)))
               ([] ++ [] ++ t1 ++ [XDelete sessionId reply] ++ tail) ->
             reply = Resolves (Failure e)).
  { intros reply tail -> Hin. simpl in Hin. apply in_app_or in Hin.
    destruct Hin as [Hin|[Hin|[]]].
    - apply (existsb_false_In _ _ _ NoDel) in Hin. discriminate.
    - inversion Hin. reflexivity. }
  destruct (fst (history_delete ideMessenger sessionId (remote w1)))
    as [[u|e']|e']; unfold wp; cbn [result final trace throw];
    intro Hin; apply Own in Hin; try reflexivity; try discriminate.
  inversion Hin. subst e'. split; [reflexivity|].
  rewrite Hs2. intro Has. destruct (Hback Has) as (Ea & args & content & Hl & Hc).
  split; [exact Ea|]. exists args, content. split; [|exact Hc].
  simpl. apply in_or_app. left. exact Hl.
Qed.

End Properties.

(* ================================================================== *)
(** * Runs against the history store *)
(* ================================================================== *)

(** ** The thunks at work *)

Lemma refreshSessionMetadata_contract_witness :
  let args := {| limit := Some 1; offset := None; workspaceDirectory := None |} in
  let failing :=
    Demo.world (Demo.store_with Demo.abc [Demo.abc; Demo.old])
      (Demo.disk Demo.ListFails) in
  let healthy :=
    Demo.world (Demo.store_with Demo.abc [Demo.abc; Demo.old])
      (Demo.disk Demo.Healthy) in
  (result (Demo.refreshSessionMetadata args failing)
   = Return (rejected (Error (Js.of_string "list failed"))) /\
   store (final (Demo.refreshSessionMetadata args failing)) = store failing) /\
  (result (Demo.refreshSessionMetadata args healthy)
   = Return (fulfilled [Demo.metadata_of Demo.abc]) /\
   isSessionMetadataLoading
     (session (store (final (Demo.refreshSessionMetadata args healthy)))) = false /\
   allSessionMetadata
     (session (store (final (Demo.refreshSessionMetadata args healthy))))
   = [Demo.metadata_of Demo.abc]).
Proof.
  intros args failing healthy. split.
  - apply (proj1 (@refreshSessionMetadata_contract
                    _ Demo.messenger Demo.NEW_SESSION_TITLE Demo.uuidv4
                    args failing)).
    reflexivity.
  - apply (proj2 (@refreshSessionMetadata_contract
                    _ Demo.messenger Demo.NEW_SESSION_TITLE Demo.uuidv4
                    args healthy)).
    reflexivity.
Defined.

Lemma saveCurrentSession_empty_history_witness :
  let w :=
    Demo.world (Demo.store_with Demo.blank [Demo.abc; Demo.old])
      (Demo.disk Demo.Healthy) in
  history (session (store w)) = [] /\
  result (Demo.saveCurrentSession true true w) = Return (fulfilled tt) /\
  final (Demo.saveCurrentSession true true w) = w /\
  trace (Demo.saveCurrentSession true true w) = [].
Proof.
  intro w. split; [reflexivity|].
  apply (@saveCurrentSession_empty_history
           _ Demo.messenger Demo.render Demo.NEW_SESSION_TITLE Demo.uuidv4
           true true w).
  reflexivity.
Defined.

Lemma saveCurrentSession_title_fallback_witness :
  let w :=
    Demo.world (Demo.store_with Demo.untitled [Demo.abc; Demo.old])
      (Demo.disk Demo.Healthy) in
  title (session (store w)) = Demo.NEW_SESSION_TITLE /\
  existsb describes_title (trace (Demo.saveCurrentSession false true w)) = false /\
  derived_title Demo.render (history (session (store w))) = [] /\
  has_metadata_of (id (session (store w)))
    (allSessionMetadata (session (store w))) = false /\
  exists s,
    saved_sessions (trace (Demo.saveCurrentSession false true w)) = [s] /\
    s_title s <> [] /\
    s_title s = Demo.NEW_SESSION_TITLE.
Proof.
  intro w.
  assert (Hh : history (session (store w)) <> []) by discriminate.
  assert (Ht : title (session (store w)) = Demo.NEW_SESSION_TITLE) by reflexivity.
  assert (Hd : existsb describes_title
                 (trace (Demo.saveCurrentSession false true w)) = false)
    by (vm_compute; reflexivity).
  assert (Hf : derived_title Demo.render (history (session (store w))) = [])
    by (vm_compute; reflexivity).
  assert (Hm : has_metadata_of (id (session (store w)))
                 (allSessionMetadata (session (store w))) = false)
    by (vm_compute; reflexivity).
  assert (Hn : Demo.NEW_SESSION_TITLE <> []) by discriminate.
  repeat (split; [assumption|]).
  destruct (@saveCurrentSession_title_fallback
              _ Demo.messenger Demo.render Demo.NEW_SESSION_TITLE Demo.uuidv4
              false true w Hh) as (s & Hs & Hne & Hfb).
  exists s. split; [exact Hs|].
  split; [exact (Hne Hn) | exact (Hfb (or_introl Ht) Hd Hf Hm)].
Defined.

Lemma getChatTitleFromMessage_truncation_witness :
  (last_nonblank_line (Demo.render Demo.long_message) Demo.long_line /\
   100 < length Demo.long_line /\
   length (getChatTitleFromMessage Demo.render Demo.long_message) = 100 /\
   skipn 97 (getChatTitleFromMessage Demo.render Demo.long_message)
   = Js.of_string "..." /\
   firstn 97 (getChatTitleFromMessage Demo.render Demo.long_message)
   = firstn 97 Demo.long_line) /\
  (forallb Js.is_white (Demo.render Demo.blank_message) = true /\
   getChatTitleFromMessage Demo.render Demo.blank_message = []).
Proof.
  assert (L : last_nonblank_line (Demo.render Demo.long_message) Demo.long_line).
  { exists [Js.LF], [Js.LF; 32%N; Js.LF]. split; [reflexivity|].
    split; [right; exists []; reflexivity|].
    split; [right; eexists; reflexivity|].
    split; [|split; reflexivity].
    intro H. apply repeat_spec in H. discriminate. }
  assert (G : 100 < length Demo.long_line)
    by (unfold Demo.long_line; rewrite repeat_length; lia).
  assert (W : forallb Js.is_white (Demo.render Demo.blank_message) = true)
    by reflexivity.
  split.
  - split; [exact L|]. split; [exact G|].
    exact (proj1 (getChatTitleFromMessage_truncation Demo.render Demo.long_message)
             Demo.long_line L G).
  - split; [exact W|].
    exact (proj2 (getChatTitleFromMessage_truncation Demo.render Demo.blank_message) W).
Defined.

Lemma loadSession_contract_witness :
  let stuck :=
    Demo.world (Demo.store_with Demo.abc [Demo.abc; Demo.old])
      (Demo.disk Demo.SaveRejects) in
  let healthy :=
    Demo.world (Demo.store_with Demo.abc [Demo.abc; Demo.old])
      (Demo.disk Demo.Healthy) in
  let e := Error (Js.of_string "bridge closed") in
  (result (Demo.saveCurrentSession false true stuck) = Return (rejected e) /\
   result (Demo.loadSession (Js.of_string "old") true stuck) = Return (rejected e) /\
   existsb is_load (trace (Demo.loadSession (Js.of_string "old") true stuck)) = false /\
   same_active_session stuck
     (final (Demo.loadSession (Js.of_string "old") true stuck))) /\
  (result (Demo.saveCurrentSession false true healthy) = Return (fulfilled tt) /\
   exists before reply,
     trace (Demo.loadSession (Js.of_string "old") true healthy)
     = before ++ [XLoad (Js.of_string "old") reply] /\
     existsb is_load before = false /\
     forall s, reply = Resolves (Success s) ->
       result (Demo.loadSession (Js.of_string "old") true healthy)
       = Return (fulfilled tt) /\
       id (session (store (final (Demo.loadSession (Js.of_string "old") true healthy))))
       = s_sessionId s /\
       title (session (store (final (Demo.loadSession (Js.of_string "old") true healthy))))
       = s_title s /\
       history (session (store (final (Demo.loadSession (Js.of_string "old") true healthy))))
       = s_history s).
Proof.
  intros stuck healthy e.
  assert (Hstuck : result (Demo.saveCurrentSession false true stuck)
                   = Return (rejected e)) by (vm_compute; reflexivity).
  assert (Hok : result (Demo.saveCurrentSession false true healthy)
                = Return (fulfilled tt)) by (vm_compute; reflexivity).
  split.
  - split; [exact Hstuck|].
    exact (proj1 (@loadSession_contract
                    _ Demo.messenger Demo.render Demo.NEW_SESSION_TITLE Demo.uuidv4
                    (Js.of_string "old") stuck) e Hstuck).
  - split; [exact Hok|].
    exact (proj2 (@loadSession_contract
                    _ Demo.messenger Demo.render Demo.NEW_SESSION_TITLE Demo.uuidv4
                    (Js.of_string "old") healthy) true (or_intror Hok)).
Defined.

Lemma deleteSession_error_not_rolled_back_witness :
  let w :=
    Demo.world (Demo.store_with Demo.abc [Demo.abc; Demo.old])
      (Demo.disk Demo.ReadOnly) in
  let run := Demo.deleteSession (Js.of_string "old") w in
  In (XDelete (Js.of_string "old") (Resolves (Failure (Js.of_string "read-only"))))
    (trace run) /\
  result run = Return (rejected (Error (Js.of_string "read-only"))) /\
  (has_metadata_of (Js.of_string "old")
     (allSessionMetadata (session (store (final run)))) = true ->
   id (session (store w)) = Js.of_string "old" /\
   exists args content,
     In (XList args (Resolves (Success content))) (trace run) /\
     has_metadata_of (Js.of_string "old") content = true).
Proof.
  intros w run.
  assert (H : In (XDelete (Js.of_string "old")
                    (Resolves (Failure (Js.of_string "read-only"))))
                (trace run)) by (left; reflexivity).
  split; [exact H|].
  exact (@deleteSession_error_not_rolled_back
           _ Demo.messenger Demo.render Demo.NEW_SESSION_TITLE Demo.uuidv4
           (Js.of_string "old") (Js.of_string "read-only") w H).
Defined.

Lemma workspace_directory_adoption_witness :
  let tagged :=
    Demo.world (Demo.store_with Demo.abc [Demo.abc; Demo.old])
      (Demo.disk Demo.Healthy) in
  let plain :=
    Demo.world (Demo.store_with Demo.abc [Demo.abc; Demo.old])
      Demo.disk_plain_dirs in
  let query wd := {| limit := Some 1; offset := None; workspaceDirectory := wd |} in
  (fst (getWorkspaceDirs Demo.messenger (remote tagged))
   = Resolves (DirsTagged (Success [Js.of_string "/ws"])) /\
   last_session_queries (trace (Demo.loadLastSession true tagged)) = [query None] /\
   map s_workspaceDirectory
     (saved_sessions (trace (Demo.saveCurrentSession false true tagged))) = [[]]) /\
  (In (query (Some (Js.of_string "/ws")))
     (last_session_queries (trace (Demo.loadLastSession true plain))) /\
   exists rest,
     fst (getWorkspaceDirs Demo.messenger (remote plain))
     = Resolves (DirsArray (Js.of_string "/ws" :: rest))) /\
  (In {| s_sessionId := s_sessionId Demo.abc; s_title := s_title Demo.abc;
         s_workspaceDirectory := Js.of_string "/ws";
         s_history := s_history Demo.abc |}
     (saved_sessions (trace (Demo.saveCurrentSession false true plain))) /\
   exists rest,
     fst (getWorkspaceDirs Demo.messenger (remote plain))
     = Resolves (DirsArray (Js.of_string "/ws" :: rest))).
Proof.
  intros tagged plain query.
  pose proof (@workspace_directory_adoption
                _ Demo.messenger Demo.render Demo.NEW_SESSION_TITLE Demo.uuidv4
                tagged) as (Ht & _ & _).
  pose proof (@workspace_directory_adoption
                _ Demo.messenger Demo.render Demo.NEW_SESSION_TITLE Demo.uuidv4
                plain) as (_ & Hq & Hs).
  split; [|split].
  - split; [reflexivity|].
    destruct (Ht (Success [Js.of_string "/ws"]) eq_refl) as [Hl Hsv].
    split; [exact (Hl true)|].
    apply (Hsv false true). discriminate.
  - assert (Hin : In (query (Some (Js.of_string "/ws")))
                    (last_session_queries (trace (Demo.loadLastSession true plain))))
      by (left; reflexivity).
    split; [exact Hin|].
    exact (Hq true _ (Js.of_string "/ws") Hin eq_refl).
  - set (s := {| s_sessionId := s_sessionId Demo.abc; s_title := s_title Demo.abc;
                 s_workspaceDirectory := Js.of_string "/ws";
                 s_history := s_history Demo.abc |}).
    assert (Hin : In s (saved_sessions
                          (trace (Demo.saveCurrentSession false true plain))))
      by (left; reflexivity).
    split; [exact Hin|].
    apply (Hs false true s Hin). discriminate.
Defined.

(** ** Where the thunks depart from the design *)

(** C1, on the code as it is. [updateSession] awaits the [history/save]
    request and drops its answer: with a store that answers the save with
    an error status the thunk is fulfilled all the same. *)
Theorem updateSession_ignores_error_status :
  let w :=
    Demo.world (Demo.store_with Demo.abc [Demo.abc; Demo.old])
      (Demo.disk Demo.ReadOnly) in
  let run := Demo.updateSession Demo.abc w in
  (exists rest,
      trace run
      = XSave Demo.abc (Resolves (Failure (Js.of_string "read-only"))) :: rest) /\
  result run = Return (fulfilled tt).
Proof.
  split; [eexists|]; reflexivity.
Qed.

(** C2, on the code as it is. Deleting the active session loads the last
    session before the store has deleted anything, so the session on top of
    the list is the one being deleted: when the delete has completed the
    active session is the deleted one, which the store no longer has, and it
    stays so when the refresh left in the background has finished. *)
Theorem deleteSession_reloads_deleted_session :
  let w :=
    Demo.world (Demo.store_with Demo.abc [Demo.abc; Demo.old])
      (Demo.disk Demo.Healthy) in
  let run := Demo.deleteSession (Js.of_string "abc") w in
  id (session (store w)) = Js.of_string "abc" /\
  result run = Return (fulfilled tt) /\
  id (session (store (final run))) = Js.of_string "abc" /\
  map s_sessionId (Demo.sessions (remote (final run))) = [Js.of_string "old"] /\
  id (session (store (final (Demo.settle_background (final run)))))
  = Js.of_string "abc".
Proof.
  repeat split; vm_compute; reflexivity.
Qed.

(** C5, on the code as it is. [loadLastSession] awaits the save-current
    thunk and does not unwrap its action: with a store whose save request
    is rejected the save-current thunk is rejected, and [loadLastSession]
    goes on and is fulfilled. *)
Theorem loadLastSession_swallows_save_failure :
  let w :=
    Demo.world (Demo.store_with Demo.abc [Demo.abc; Demo.old])
      (Demo.disk Demo.SaveRejects) in
  let e := Error (Js.of_string "bridge closed") in
  let run := Demo.loadLastSession true w in
  Js.truthy (id (session (store w))) = true /\
  result (Demo.saveCurrentSession false true w) = Return (rejected e) /\
  (exists s, In (XSave s (Rejects e)) (trace run)) /\
  result run = Return (fulfilled tt).
Proof.
  split; [reflexivity|]. split; [vm_compute; reflexivity|].
  split; [|vm_compute; reflexivity].
  eexists. vm_compute. right. right. left. reflexivity.
Qed.

(** C6 as stated fails when the session deleted is the active one: the
    last session is loaded before the delete request, the metadata
    collection is replaced by what the store lists, and the store, which
    refuses the deletion, still lists the session. *)
Lemma deleteSession_active_entry_comes_back :
  let w :=
    Demo.world (Demo.store_with Demo.abc [Demo.abc; Demo.old])
      (Demo.disk Demo.ReadOnly) in
  let run := Demo.deleteSession (Js.of_string "abc") w in
  ~ (In (XDelete (Js.of_string "abc")
           (Resolves (Failure (Js.of_string "read-only")))) (trace run) ->
     result run = Return (rejected (Error (Js.of_string "read-only"))) /\
     has_metadata_of (Js.of_string "abc")
       (allSessionMetadata (session (store (final run)))) = false).
Proof.
  intros w run H.
  assert (Hin : In (XDelete (Js.of_string "abc")
                      (Resolves (Failure (Js.of_string "read-only"))))
                  (trace run)).
  { vm_compute. right. right. right. left. reflexivity. }
  destruct (H Hin) as [_ Habs]. vm_compute in Habs. discriminate.
Qed.

(* ================================================================== *)
(** * More on the thunks *)
(* ================================================================== *)

Section MoreProperties.

Variable R : Type.
Variable ideMessenger : IIdeMessenger R.
Variable renderChatMessage : ChatMessage -> jsstring.
Variable NEW_SESSION_TITLE : jsstring.
Variable uuidv4 : nat -> jsstring.

Local Abbreviation dispatch :=
  (SessionThunks.dispatch (R:=R) NEW_SESSION_TITLE uuidv4).
Local Abbreviation refreshSessionMetadata :=
  (SessionThunks.refreshSessionMetadata ideMessenger NEW_SESSION_TITLE uuidv4).
Local Abbreviation updateSession :=
  (SessionThunks.updateSession ideMessenger NEW_SESSION_TITLE uuidv4).
Local Abbreviation getSession := (SessionThunks.getSession ideMessenger).
Local Abbreviation lookupWorkspaceDirectory :=
  (SessionThunks.lookupWorkspaceDirectory ideMessenger).
Local Abbreviation saveCurrentSession :=
  (SessionThunks.saveCurrentSession
     ideMessenger renderChatMessage NEW_SESSION_TITLE uuidv4).
Local Abbreviation loadSession :=
  (SessionThunks.loadSession
     ideMessenger renderChatMessage NEW_SESSION_TITLE uuidv4).
Local Abbreviation loadLastSession :=
  (SessionThunks.loadLastSession
     ideMessenger renderChatMessage NEW_SESSION_TITLE uuidv4).
Local Abbreviation deleteSession :=
  (SessionThunks.deleteSession
     ideMessenger renderChatMessage NEW_SESSION_TITLE uuidv4).

(** Two worlds that differ at most in the state of the messenger and in
    the console. *)
Local Abbreviation framed w w' :=
  (store w' = store w /\ entropy w' = entropy w /\
   background w' = background w).

Lemma lookupWorkspaceDirectory_frame {V} (initial : V) adopt w :
  let dirs := getWorkspaceDirs ideMessenger (remote w) in
  wp (lookupWorkspaceDirectory initial adopt) w
    (fun c w' t =>
       c = Return (match adopted_directory (fst dirs) with
                   | Some d => adopt d
                   | None => initial
                   end) /\
       framed w w' /\ remote w' = snd dirs /\ t = [XDirs (fst dirs)]).
Proof.
  unfold wp, SessionThunks.lookupWorkspaceDirectory, try_catch, bind,
    await_request.
  destruct (getWorkspaceDirs ideMessenger (remote w)) as [p r'].
  destruct p as [[[|d ds]|r]|e]; simpl; auto 10.
Qed.

Lemma refreshSessionMetadata_frame args w :
  let reply := fst (history_list ideMessenger args (remote w)) in
  wp (refreshSessionMetadata args) w
    (fun c w' t =>
       c = Return match reply with
                  | Resolves (Success content) => fulfilled content
                  | Resolves (Failure e) => rejected (Error e)
                  | Rejects e => rejected e
                  end /\
       same_active_session w w' /\
       config (store w') = config (store w) /\
       entropy w' = entropy w /\ background w' = background w /\
       (forall content, reply = Resolves (Success content) ->
                        allSessionMetadata (session (store w')) = content /\
                        isSessionMetadataLoading (session (store w')) = false) /\
       ((forall content, reply <> Resolves (Success content)) ->
        store w' = store w) /\
       t = [XList args reply]).
Proof.
  unfold wp, SessionThunks.refreshSessionMetadata, createAsyncThunk, bind,
    await_request, same_active_session.
  destruct (history_list ideMessenger args (remote w)) as [p r'].
  destruct p as [[content|e]|e]; simpl;
    (split; [reflexivity|]); (split; [auto|]);
    do 3 (split; [reflexivity|]); (split; [|split; [|reflexivity]]).
  - intros content' E. inversion E. auto.
  - intro H. exfalso. exact (H content eq_refl).
  - intros content' E. discriminate.
  - reflexivity.
  - intros content' E. discriminate.
  - reflexivity.
Qed.

Lemma updateSession_frame s w :
  let saveReply := fst (history_save ideMessenger s (remote w)) in
  wp (updateSession s) w
    (fun c w' t =>
       c = Return match saveReply with
                  | Resolves _ => fulfilled tt
                  | Rejects e => rejected e
                  end /\
       same_active_session w w' /\
       config (store w') = config (store w) /\
       entropy w' = entropy w /\ background w' = background w /\
       match saveReply with
       | Rejects _ => t = [XSave s saveReply]
       | Resolves _ =>
           exists listReply,
             t = [XSave s saveReply;
                  XList (refresh_query (s_workspaceDirectory s)) listReply] /\
             forall content,
               listReply = Resolves (Success content) ->
               allSessionMetadata (session (store w')) = content
       end).
Proof.
  intro saveReply. unfold SessionThunks.updateSession.
  apply wp_createAsyncThunk, wp_bind, wp_dispatch. cbv beta iota.
  set (w0 := final (dispatch (updateSessionMetadata
                                {| u_sessionId := s_sessionId s;
                                   u_title := s_title s;
                                   u_workspaceDirectory :=
                                     s_workspaceDirectory s |}) w)).
  assert (H0 : same_active_session w w0 /\
               config (store w0) = config (store w) /\
               entropy w0 = entropy w /\ background w0 = background w)
    by (unfold same_active_session; repeat split; reflexivity).
  destruct H0 as (Hs0 & Hc0 & He0 & Hb0).
  apply wp_bind, wp_await_request.
  intros w1 Hs1 He1 _ Hb1 Hr1.
  change (remote w0) with (remote w) in *. fold saveReply.
  assert (Same1 : same_active_session w w1).
  { unfold same_active_session in *. rewrite Hs1. exact Hs0. }
  destruct saveReply as [u|e]; cbv beta iota.
  - apply wp_bind.
    eapply wp_conseq; [apply refreshSessionMetadata_frame|].
    intros c w2 t2 (-> & Hs2 & Hc2 & He2 & Hb2 & Hm2 & _ & ->). cbv beta iota.
    apply wp_ret. split; [reflexivity|].
    split; [eapply same_active_session_trans; eassumption|].
    split; [congruence|]. split; [congruence|]. split; [congruence|].
    eexists. split; [reflexivity|].
    intros content E. exact (proj1 (Hm2 content E)).
  - split; [reflexivity|]. split; [exact Same1|].
    split; [congruence|]. split; [congruence|]. split; [congruence|].
    reflexivity.
Qed.

(** ** Update session *)

(** X1. [updateSession] first sends the session to [history/save]. When
    that promise rejects the thunk is rejected with the reason and nothing
    else is requested. When it resolves, whatever the status of the answer,
    the metadata is refreshed for the workspace directory of the session
    and the thunk is fulfilled whatever the refresh answers; a successful
    refresh leaves its content as the metadata collection. The active
    session is not touched. *)
Theorem updateSession_outcome (s : Session) (w : World R) :
  let saveReply := fst (history_save ideMessenger s (remote w)) in
  let run := updateSession s w in
  result run = Return match saveReply with
                      | Resolves _ => fulfilled tt
                      | Rejects e => rejected e
                      end /\
  same_active_session w (final run) /\
  match saveReply with
  | Rejects _ => trace run = [XSave s saveReply]
  | Resolves _ =>
      exists listReply,
        trace run
        = [XSave s saveReply;
           XList (refresh_query (s_workspaceDirectory s)) listReply] /\
        forall content,
          listReply = Resolves (Success content) ->
          allSessionMetadata (session (store (final run))) = content
  end.
Proof.
  intros saveReply run.
  destruct (updateSession_frame s w) as (Hr & Hs & _ & _ & _ & Ht).
  fold saveReply in Hr, Ht. auto.
Qed.

(** ** Save current: the whole run *)

(** The run of [saveCurrentSession] on a history that is not empty: the
    workspace lookup, the describe request if one is due, then
    [updateSession] on the session made of the id and history of the state
    at the start, the resolved title and the adopted directory. *)
Lemma saveCurrentSession_shape openNewSession generateTitle w :
  history (session (store w)) <> [] ->
  let dirs := getWorkspaceDirs ideMessenger (remote w) in
  let run := saveCurrentSession openNewSession generateTitle w in
  let w0 := if openNewSession then final (dispatch (newSession None) w) else w in
  exists dp described w4,
    match describe_request NEW_SESSION_TITLE (store w) generateTitle with
    | Some text =>
        let reply := fst (chatDescriber_describe ideMessenger text (snd dirs)) in
        dp = [XDescribe text reply] /\
        described = described_title (title (session (store w))) reply
    | None => dp = [] /\ described = title (session (store w))
    end /\
    store w4 = store w0 /\ entropy w4 = entropy w0 /\
    background w4 = background w /\
    let s :=
      {| s_sessionId := id (session (store w));
         s_title := resolved_title NEW_SESSION_TITLE renderChatMessage
                      (store w) described;
         s_workspaceDirectory :=
           match adopted_directory (fst dirs) with Some d => d | None => [] end;
         s_history := history (session (store w)) |} in
    trace run = XDirs (fst dirs) :: dp ++ trace (updateSession s w4) /\
    final run = final (updateSession s w4) /\
    result run = result (updateSession s w4).
Proof.
  intros Hh dirs run w0. subst run.
  change (wp (saveCurrentSession openNewSession generateTitle) w
            (fun c w' t =>
               exists dp described w4,
                 match describe_request NEW_SESSION_TITLE (store w) generateTitle with
                 | Some text =>
                     let reply :=
                       fst (chatDescriber_describe ideMessenger text (snd dirs)) in
                     dp = [XDescribe text reply] /\
                     described
                     = described_title (title (session (store w))) reply
                 | None => dp = [] /\ described = title (session (store w))
                 end /\
                 store w4 = store w0 /\ entropy w4 = entropy w0 /\
                 background w4 = background w /\
                 let s :=
                   {| s_sessionId := id (session (store w));
                      s_title := resolved_title NEW_SESSION_TITLE
                                   renderChatMessage (store w) described;
                      s_workspaceDirectory :=
                        match adopted_directory (fst dirs) with
                        | Some d => d
                        | None => []
                        end;
                      s_history := history (session (store w)) |} in
                 t = XDirs (fst dirs) :: dp ++ trace (updateSession s w4) /\
                 w' = final (updateSession s w4) /\
                 c = result (updateSession s w4))).
  unfold describe_request, resolved_title, derived_title. cbv zeta.
  unfold SessionThunks.saveCurrentSession.
  apply wp_createAsyncThunk, wp_bind, wp_getState. cbv beta iota.
  destruct (history (session (store w))) as [|first rest] eqn:Hhist;
    [congruence|].
  change (length (first :: rest) =? 0) with false. cbv iota.
  apply wp_bind.
  eapply wp_conseq; [apply lookupWorkspaceDirectory_frame|].
  intros c w1 t1 (-> & (Hs1 & He1 & Hb1) & Hr1 & ->). cbv beta iota.
  fold dirs in Hr1. fold dirs.
  apply wp_bind.
  eapply wp_conseq
    with (Q := fun c w2 t =>
                 c = Return tt /\ t = [] /\
                 store w2 = store w0 /\ entropy w2 = entropy w0 /\
                 background w2 = background w /\ remote w2 = snd dirs).
  { unfold w0. destruct openNewSession; unfold wp; simpl;
      rewrite ?Hs1, ?He1; auto 10. }
  intros c w2 t2 (-> & -> & Hs2 & He2 & Hb2 & Hr2). cbv beta iota.
  apply wp_bind.
  eapply wp_conseq
    with (Q := fun c w3 t =>
                 store w3 = store w2 /\ entropy w3 = entropy w2 /\
                 background w3 = background w2 /\
                 exists described,
                   match
                     (if Js.eqb (title (session (store w))) NEW_SESSION_TITLE
                         && (negb (flag_truthy
                                     (disableSessionTitles (config (store w))))
                             && present (selectSelectedChatModel (store w)))
                      then match firstAssistantResponse (first :: rest) with
                           | Some text =>
                               if Js.truthy text && generateTitle
                               then Some text else None
                           | None => None
                           end
                      else None)
                   with
                   | Some text =>
                       t = [XDescribe text
                              (fst (chatDescriber_describe ideMessenger text
                                      (snd dirs)))] /\
                       described
                       = described_title (title (session (store w)))
                           (fst (chatDescriber_describe ideMessenger text
                                   (snd dirs)))
                   | None => t = [] /\ described = title (session (store w))
                   end /\
                   c = Return
                         (if Js.eqb (title (session (store w))) NEW_SESSION_TITLE
                          then if Js.eqb described NEW_SESSION_TITLE
                               then getChatTitleFromMessage renderChatMessage
                                      (message first)
                               else described
                          else title (session (store w)))).
  { destruct (Js.eqb (title (session (store w))) NEW_SESSION_TITLE) eqn:Et;
      [|apply wp_ret; simpl; eauto 10].
    rewrite andb_true_l. apply wp_bind.
    eapply wp_conseq
      with (Q := fun c w3 t =>
                   store w3 = store w2 /\ entropy w3 = entropy w2 /\
                   background w3 = background w2 /\
                   exists described,
                     match
                       (if negb (flag_truthy
                                   (disableSessionTitles (config (store w))))
                           && present (selectSelectedChatModel (store w))
                        then match firstAssistantResponse (first :: rest) with
                             | Some text =>
                                 if Js.truthy text && generateTitle
                                 then Some text else None
                             | None => None
                             end
                        else None)
                     with
                     | Some text =>
                         t = [XDescribe text
                                (fst (chatDescriber_describe ideMessenger text
                                        (snd dirs)))] /\
                         described
                         = described_title (title (session (store w)))
                             (fst (chatDescriber_describe ideMessenger text
                                     (snd dirs)))
                     | None => t = [] /\ described = title (session (store w))
                     end /\
                     c = Return described).
    { destruct (negb (flag_truthy (disableSessionTitles (config (store w))))
                && present (selectSelectedChatModel (store w)));
        [|apply wp_ret; eauto 10].
      destruct (firstAssistantResponse (first :: rest)) as [text|];
        [|apply wp_ret; eauto 10].
      destruct (Js.truthy text && generateTitle); [|apply wp_ret; eauto 10].
      unfold wp, try_catch, bind, await_request. rewrite Hr2.
      destruct (chatDescriber_describe ideMessenger text (snd dirs)) as [p r'].
      destruct p as [[[c|]|e]|e]; simpl; [destruct (Js.truthy c); simpl|..];
        eauto 10. }
    intros c w3 t3 (Hs3 & He3 & Hb3 & described & Hd & ->). cbv beta iota.
    destruct (Js.eqb described NEW_SESSION_TITLE) eqn:Ed; apply wp_ret;
      rewrite app_nil_r; do 3 (split; [assumption|]);
      exists described; rewrite Ed; auto. }
  intros c w3 t3 (Hs3 & He3 & Hb3 & described & Hd & ->). cbv beta iota.
  set (title1 := if Js.eqb (title (session (store w))) NEW_SESSION_TITLE
                 then if Js.eqb described NEW_SESSION_TITLE
                      then getChatTitleFromMessage renderChatMessage
                             (message first)
                      else described
                 else title (session (store w))).
  assert (Hmeta : allSessionMetadata (session (store w3))
                  = allSessionMetadata (session (store w))).
  { rewrite Hs3, Hs2. unfold w0. destruct openNewSession; reflexivity. }
  apply wp_bind.
  eapply wp_conseq
    with (Q := fun c w4 t =>
                 w4 = w3 /\ t = [] /\
                 c = Return
                       (if length title1 =? 0
                        then match
                            find (fun m => Js.eqb (m_sessionId m)
                                             (id (session (store w))))
                              (allSessionMetadata (session (store w)))
                          with
                          | Some m =>
                              if Js.truthy (m_title m) then m_title m else title1
                          | None => title1
                          end
                        else title1)).
  { destruct (length title1 =? 0); [|apply wp_ret; auto].
    apply wp_bind, wp_getState. cbv beta iota. rewrite Hmeta.
    destruct (find _ _) as [m|]; [destruct (Js.truthy (m_title m))|];
      apply wp_ret; auto. }
  intros c w4 t4 (-> & -> & ->). cbv beta iota.
  apply wp_bind. unfold wp at 1.
  match goal with
  | |- context [result (updateSession ?s w3)] => set (S := s)
  end.
  destruct (updateSession_frame S w3) as (Hres & _).
  rewrite Hres. cbv beta iota. apply wp_unwrapResult.
  exists t3, described, w3.
  split; [exact Hd|].
  split; [congruence|]. split; [congruence|]. split; [congruence|].
  cbv zeta. fold title1. fold S.
  split; [simpl; rewrite !app_nil_r; reflexivity|].
  split; [reflexivity|].
  change (Return
            match
              match
                match fst (history_save ideMessenger S (remote w3)) with
                | Resolves _ => fulfilled tt
                | Rejects e => rejected e
                end
              with
              | fulfilled a => Return a
              | rejected e => Throw e
              end
            with
            | Return a => fulfilled a
            | Throw e => rejected e
            end = result (updateSession S w3)).
  rewrite Hres. destruct (fst (history_save ideMessenger S (remote w3)));
    reflexivity.
Qed.

(** What the shape gives on the trace, the outcome and the world left. *)
Lemma saveCurrentSession_digest openNewSession generateTitle w :
  history (session (store w)) <> [] ->
  let dirs := getWorkspaceDirs ideMessenger (remote w) in
  let run := saveCurrentSession openNewSession generateTitle w in
  let w0 := if openNewSession then final (dispatch (newSession None) w) else w in
  exists dp described saveReply refreshes,
    match describe_request NEW_SESSION_TITLE (store w) generateTitle with
    | Some text =>
        let reply := fst (chatDescriber_describe ideMessenger text (snd dirs)) in
        dp = [XDescribe text reply] /\
        described = described_title (title (session (store w))) reply
    | None => dp = [] /\ described = title (session (store w))
    end /\
    let s :=
      {| s_sessionId := id (session (store w));
         s_title := resolved_title NEW_SESSION_TITLE renderChatMessage
                      (store w) described;
         s_workspaceDirectory :=
           match adopted_directory (fst dirs) with Some d => d | None => [] end;
         s_history := history (session (store w)) |} in
    trace run = XDirs (fst dirs) :: dp ++ XSave s saveReply :: refreshes /\
    match saveReply with
    | Rejects _ => refreshes = []
    | Resolves _ =>
        exists listReply,
          refreshes = [XList (refresh_query (s_workspaceDirectory s)) listReply]
    end /\
    result run = Return match saveReply with
                        | Resolves _ => fulfilled tt
                        | Rejects e => rejected e
                        end /\
    same_active_session w0 (final run) /\
    entropy (final run) = entropy w0 /\
    background (final run) = background w.
Proof.
  intros Hh dirs run w0.
  destruct (saveCurrentSession_shape openNewSession generateTitle w Hh)
    as (dp & described & w4 & Hd & Hs4 & He4 & Hb4 & Ht & Hf & Hr).
  fold dirs in Hd, Ht, Hf, Hr. fold run in Ht, Hf, Hr. fold w0 in Hs4, He4.
  cbv zeta in Ht, Hf, Hr.
  set (s := {| s_sessionId := id (session (store w));
               s_title := resolved_title NEW_SESSION_TITLE renderChatMessage
                            (store w) described;
               s_workspaceDirectory :=
                 match adopted_directory (fst dirs) with
                 | Some d => d
                 | None => []
                 end;
               s_history := history (session (store w)) |}) in *.
  destruct (updateSession_frame s w4) as (Ur & Us & _ & Ue & Ub & Ut).
  set (saveReply := fst (history_save ideMessenger s (remote w4))) in *.
  exists dp, described, saveReply.
  assert (Same : same_active_session w0 (final run)).
  { rewrite Hf. unfold same_active_session in *. rewrite <- Hs4. exact Us. }
  destruct saveReply as [u|e] eqn:Es.
  - destruct Ut as (listReply & Ut & _).
    exists [XList (refresh_query (s_workspaceDirectory s)) listReply].
    split; [exact Hd|]. cbv zeta. fold s.
    split; [rewrite Ht, Ut; reflexivity|].
    split; [eexists; reflexivity|].
    split; [rewrite Hr; exact Ur|].
    split; [exact Same|]. rewrite Hf. split; congruence.
  - exists []. split; [exact Hd|]. cbv zeta. fold s.
    split; [rewrite Ht, Ut; reflexivity|].
    split; [reflexivity|].
    split; [rewrite Hr; exact Ur|].
    split; [exact Same|]. rewrite Hf. split; congruence.
Qed.

(** X2. On a history that is not empty [saveCurrentSession] asks for the
    workspace directories, then at most once for a description, then sends
    one session to [history/save]; only when that promise resolves does it
    ask for the metadata, of the directory it persisted. It is rejected
    exactly when the promise of the save rejects: neither the lookup, the
    description, an error status of the save nor the refresh make it
    fail. *)
Theorem saveCurrentSession_requests
    (openNewSession generateTitle : bool) (w : World R) :
  history (session (store w)) <> [] ->
  let run := saveCurrentSession openNewSession generateTitle w in
  exists dirsReply describes s saveReply refreshes,
    trace run = XDirs dirsReply :: describes ++ XSave s saveReply :: refreshes /\
    (describes = [] \/ exists text reply, describes = [XDescribe text reply]) /\
    match saveReply with
    | Rejects e => refreshes = [] /\ result run = Return (rejected e)
    | Resolves _ =>
        (exists listReply,
            refreshes
            = [XList (refresh_query (s_workspaceDirectory s)) listReply]) /\
        result run = Return (fulfilled tt)
    end.
Proof.
  intros Hh run.
  destruct (saveCurrentSession_digest openNewSession generateTitle w Hh)
    as (dp & described & saveReply & refreshes & Hd & Ht & Hrf & Hr & _).
  cbv zeta in Ht, Hrf. fold run in Ht, Hr.
  eexists _, dp, _, saveReply, refreshes.
  split; [exact Ht|]. split.
  - destruct (describe_request NEW_SESSION_TITLE (store w) generateTitle);
      destruct Hd as [-> _]; [right; eauto | left; reflexivity].
  - destruct saveReply; auto.
Qed.

(** ** Save current: the title *)

Lemma describe_request_Some state generateTitle text :
  describe_request NEW_SESSION_TITLE state generateTitle = Some text ->
  Js.eqb (title (session state)) NEW_SESSION_TITLE = true /\
  flag_truthy (disableSessionTitles (config state)) = false /\
  present (selectSelectedChatModel state) = true /\
  firstAssistantResponse (history (session state)) = Some text /\
  Js.truthy text = true /\ generateTitle = true.
Proof.
  unfold describe_request.
  destruct (Js.eqb (title (session state)) NEW_SESSION_TITLE); simpl;
    [|discriminate].
  destruct (flag_truthy (disableSessionTitles (config state))); simpl;
    [discriminate|].
  destruct (present (selectSelectedChatModel state)); simpl; [|discriminate].
  destruct (firstAssistantResponse (history (session state))) as [t|];
    [|discriminate].
  destruct (Js.truthy t) eqn:Et; simpl; [|discriminate].
  destruct generateTitle; [|discriminate].
  intro E. inversion E. subst. repeat split; assumption || reflexivity.
Qed.

Lemma truthy_iff (s : jsstring) : Js.truthy s = true <-> s <> [].
Proof. destruct s; simpl; split; intro H; congruence. Qed.

Lemma length_eqb_0_false {A} (l : list A) : l <> [] -> (length l =? 0) = false.
Proof. destruct l; [congruence | reflexivity]. Qed.

(** The session saved and the describe exchanges, read off the trace. *)
Lemma saveCurrentSession_saved openNewSession generateTitle w :
  history (session (store w)) <> [] ->
  let dirs := getWorkspaceDirs ideMessenger (remote w) in
  let run := saveCurrentSession openNewSession generateTitle w in
  exists dp described,
    match describe_request NEW_SESSION_TITLE (store w) generateTitle with
    | Some text =>
        let reply := fst (chatDescriber_describe ideMessenger text (snd dirs)) in
        dp = [XDescribe text reply] /\
        described = described_title (title (session (store w))) reply
    | None => dp = [] /\ described = title (session (store w))
    end /\
    saved_sessions (trace run)
    = [{| s_sessionId := id (session (store w));
          s_title := resolved_title NEW_SESSION_TITLE renderChatMessage
                       (store w) described;
          s_workspaceDirectory :=
            match adopted_directory (fst dirs) with Some d => d | None => [] end;
          s_history := history (session (store w)) |}] /\
    filter is_describe (trace run) = dp.
Proof.
  intros Hh dirs run.
  destruct (saveCurrentSession_digest openNewSession generateTitle w Hh)
    as (dp & described & saveReply & refreshes & Hd & Ht & Hrf & _).
  cbv zeta in Ht, Hrf. fold run dirs in Ht. fold dirs in Hd, Hrf.
  exists dp, described. split; [exact Hd|].
  assert (Hdp : saved_sessions dp = [] /\ filter is_describe dp = dp).
  { destruct (describe_request NEW_SESSION_TITLE (store w) generateTitle);
      destruct Hd as [-> _]; auto. }
  assert (Hrefresh : saved_sessions refreshes = [] /\
                     filter is_describe refreshes = []).
  { destruct saveReply; [destruct Hrf as [lr ->] | subst refreshes]; auto. }
  destruct Hdp as [D1 D2]. destruct Hrefresh as [R1 R2].
  rewrite Ht. simpl. rewrite saved_sessions_app, filter_app. simpl.
  rewrite D1, D2, R1, R2, app_nil_r. auto.
Qed.

(** X3. When [saveCurrentSession] gets a non-empty title other than the
    sentinel from [chatDescriber/describe], that title is the one
    persisted. *)
Theorem saveCurrentSession_adopts_described_title
    (openNewSession generateTitle : bool) (w : World R) (text c : jsstring) :
  let run := saveCurrentSession openNewSession generateTitle w in
  In (XDescribe text (Resolves (Success (Some c)))) (trace run) ->
  c <> [] -> c <> NEW_SESSION_TITLE ->
  exists s, saved_sessions (trace run) = [s] /\ s_title s = c.
Proof.
  intros run Hin Hc Hn.
  destruct (history (session (store w))) as [|first rest] eqn:Hhist.
  { destruct (saveCurrentSession_no_history ideMessenger renderChatMessage
                NEW_SESSION_TITLE uuidv4 openNewSession generateTitle w Hhist)
      as (_ & _ & Ht).
    unfold run in Hin. rewrite Ht in Hin. destruct Hin. }
  assert (Hh : history (session (store w)) <> [])
    by (rewrite Hhist; discriminate).
  destruct (saveCurrentSession_saved openNewSession generateTitle w Hh)
    as (dp & described & Hd & Hs & Hf).
  fold run in Hs, Hf.
  assert (Hdp : In (XDescribe text (Resolves (Success (Some c)))) dp).
  { rewrite <- Hf. apply filter_In. auto. }
  destruct (describe_request NEW_SESSION_TITLE (store w) generateTitle)
    as [text'|] eqn:Ed; [|destruct Hd as [-> _]; destruct Hdp].
  destruct (describe_request_Some _ _ Ed) as (Et & _).
  destruct Hd as [-> Hdesc]. destruct Hdp as [E|[]].
  injection E as E1 E2. subst text'. cbv zeta in Hdesc.
  rewrite E2 in Hdesc. simpl in Hdesc.
  apply truthy_iff in Hc. rewrite Hc in Hdesc. subst described.
  eexists. split; [exact Hs|]. simpl. unfold resolved_title. rewrite Et.
  destruct (Js.eqb c NEW_SESSION_TITLE) eqn:Ec;
    [apply js_eqb_eq in Ec; congruence|].
  apply truthy_iff in Hc. rewrite !(length_eqb_0_false Hc). reflexivity.
Qed.

(** X4. [saveCurrentSession] asks for a description at most once, and only
    when the title is the sentinel, a title is asked for, titles are not
    disabled, a chat model is selected and the first assistant message has
    a non-empty text, which is the text it sends. *)
Theorem saveCurrentSession_describes_only_when_due
    (openNewSession generateTitle : bool) (w : World R) :
  let run := saveCurrentSession openNewSession generateTitle w in
  length (filter is_describe (trace run)) <= 1 /\
  forall text reply,
    In (XDescribe text reply) (trace run) ->
    title (session (store w)) = NEW_SESSION_TITLE /\
    generateTitle = true /\
    flag_truthy (disableSessionTitles (config (store w))) = false /\
    selectSelectedChatModel (store w) <> None /\
    firstAssistantResponse (history (session (store w))) = Some text /\
    text <> [].
Proof.
  intro run.
  destruct (history (session (store w))) as [|first rest] eqn:Hhist.
  { destruct (saveCurrentSession_no_history ideMessenger renderChatMessage
                NEW_SESSION_TITLE uuidv4 openNewSession generateTitle w Hhist)
      as (_ & _ & Ht).
    unfold run. rewrite Ht. simpl. split; [lia | intros ? ? []]. }
  assert (Hh : history (session (store w)) <> [])
    by (rewrite Hhist; discriminate).
  destruct (saveCurrentSession_saved openNewSession generateTitle w Hh)
    as (dp & described & Hd & _ & Hf).
  fold run in Hf. rewrite Hf.
  destruct (describe_request NEW_SESSION_TITLE (store w) generateTitle)
    as [text'|] eqn:Ed.
  - destruct (describe_request_Some _ _ Ed) as (Et & Hdis & Hm & Ha & Htx & Hg).
    destruct Hd as [-> _]. split; [simpl; lia|].
    intros text reply Hin.
    assert (Hdp : In (XDescribe text reply) (filter is_describe (trace run)))
      by (apply filter_In; auto).
    rewrite Hf in Hdp. destruct Hdp as [E|[]]. inversion E. subst text'.
    apply js_eqb_eq in Et. rewrite <- Hhist. repeat split; auto.
    + destruct (selectSelectedChatModel (store w)); [discriminate|].
      simpl in Hm. discriminate.
    + apply truthy_iff. exact Htx.
  - destruct Hd as [-> _]. split; [simpl; lia|].
    intros text reply Hin.
    assert (Hdp : In (XDescribe text reply) (filter is_describe (trace run)))
      by (apply filter_In; auto).
    rewrite Hf in Hdp. destruct Hdp.
Qed.

(** The title after the describe stage when no answer gave a title. *)
Lemma described_unavailing openNewSession generateTitle w dp described :
  let dirs := getWorkspaceDirs ideMessenger (remote w) in
  match describe_request NEW_SESSION_TITLE (store w) generateTitle with
  | Some text =>
      let reply := fst (chatDescriber_describe ideMessenger text (snd dirs)) in
      dp = [XDescribe text reply] /\
      described = described_title (title (session (store w))) reply
  | None => dp = [] /\ described = title (session (store w))
  end ->
  filter is_describe
    (trace (saveCurrentSession openNewSession generateTitle w)) = dp ->
  existsb describes_title
    (trace (saveCurrentSession openNewSession generateTitle w)) = false ->
  described = title (session (store w)).
Proof.
  intros dirs Hd Hf Hno.
  destruct (describe_request NEW_SESSION_TITLE (store w) generateTitle)
    as [text|]; [|tauto].
  destruct Hd as [Hdp ->]. cbv zeta in Hdp.
  assert (Hin : In (XDescribe text
                      (fst (chatDescriber_describe ideMessenger text (snd dirs))))
                  (trace (saveCurrentSession openNewSession generateTitle w))).
  { apply (proj1 (filter_In is_describe _ _)). rewrite Hf, Hdp. left. reflexivity. }
  apply (existsb_false_In _ _ _ Hno) in Hin. simpl in Hin.
  cbv zeta. unfold described_title.
  destruct (fst (chatDescriber_describe ideMessenger text (snd dirs)))
    as [[[c|]|e]|e]; try reflexivity.
  rewrite Hin. reflexivity.
Qed.

(** X5. A session whose title is neither the sentinel nor empty is saved
    under that title, and no description is asked for. *)
Theorem saveCurrentSession_keeps_given_title
    (openNewSession generateTitle : bool) (w : World R) :
  history (session (store w)) <> [] ->
  title (session (store w)) <> NEW_SESSION_TITLE ->
  title (session (store w)) <> [] ->
  let run := saveCurrentSession openNewSession generateTitle w in
  existsb is_describe (trace run) = false /\
  exists s, saved_sessions (trace run) = [s] /\
            s_title s = title (session (store w)).
Proof.
  intros Hh Hn He run.
  destruct (saveCurrentSession_saved openNewSession generateTitle w Hh)
    as (dp & described & Hd & Hs & Hf).
  fold run in Hs, Hf.
  assert (Et : Js.eqb (title (session (store w))) NEW_SESSION_TITLE = false).
  { destruct (Js.eqb _ _) eqn:E; [apply js_eqb_eq in E; congruence|reflexivity]. }
  unfold describe_request in Hd. rewrite Et in Hd. simpl in Hd.
  destruct Hd as [-> ->]. split.
  - apply Forall_existsb_false, Forall_forall. intros x Hx.
    destruct (is_describe x) eqn:Ex; [|reflexivity].
    assert (Hin : In x (filter is_describe (trace run)))
      by (apply filter_In; auto).
    rewrite Hf in Hin. destruct Hin.
  - eexists. split; [exact Hs|]. simpl. unfold resolved_title.
    rewrite Et, !(length_eqb_0_false He). reflexivity.
Qed.

(** X6. When the title is the sentinel and no description gave a title,
    the session is saved under the title derived from its first message, if
    that is not empty. *)
Theorem saveCurrentSession_derives_title
    (openNewSession generateTitle : bool) (w : World R) :
  history (session (store w)) <> [] ->
  title (session (store w)) = NEW_SESSION_TITLE ->
  let run := saveCurrentSession openNewSession generateTitle w in
  existsb describes_title (trace run) = false ->
  derived_title renderChatMessage (history (session (store w))) <> [] ->
  exists s, saved_sessions (trace run) = [s] /\
            s_title s
            = derived_title renderChatMessage (history (session (store w))).
Proof.
  intros Hh Ht run Hno Hder.
  destruct (saveCurrentSession_saved openNewSession generateTitle w Hh)
    as (dp & described & Hd & Hs & Hf).
  fold run in Hs, Hf.
  pose proof (@described_unavailing openNewSession generateTitle w
                dp described Hd Hf Hno)
    as ->.
  eexists. split; [exact Hs|]. simpl. unfold resolved_title.
  rewrite Ht, js_eqb_refl, !(length_eqb_0_false Hder). reflexivity.
Qed.

(** X7. When the title is the sentinel, no description gave a title and
    the title derived from the first message is empty, the session is saved
    under the non-empty title of the first stored metadata entry that has
    its id. *)
Theorem saveCurrentSession_falls_back_on_metadata
    (openNewSession generateTitle : bool) (w : World R) (m : SessionMetadata) :
  history (session (store w)) <> [] ->
  title (session (store w)) = NEW_SESSION_TITLE ->
  let run := saveCurrentSession openNewSession generateTitle w in
  existsb describes_title (trace run) = false ->
  derived_title renderChatMessage (history (session (store w))) = [] ->
  find (fun m => Js.eqb (m_sessionId m) (id (session (store w))))
    (allSessionMetadata (session (store w))) = Some m ->
  m_title m <> [] ->
  exists s, saved_sessions (trace run) = [s] /\ s_title s = m_title m.
Proof.
  intros Hh Ht run Hno Hder Hfind Hm.
  destruct (saveCurrentSession_saved openNewSession generateTitle w Hh)
    as (dp & described & Hd & Hs & Hf).
  fold run in Hs, Hf.
  pose proof (@described_unavailing openNewSession generateTitle w
                dp described Hd Hf Hno)
    as ->.
  eexists. split; [exact Hs|]. simpl. unfold resolved_title.
  rewrite Ht, js_eqb_refl, Hder. simpl (length [] =? 0). cbv iota.
  unfold jsstring in *. rewrite Hfind.
  pose proof (proj2 (truthy_iff (m_title m)) Hm) as Htr. rewrite Htr.
  rewrite (length_eqb_0_false Hm). reflexivity.
Qed.

(** ** Save current: the session left active *)

(** X8. What is saved is the session the thunk found active: its id and
    its history. Asked to open a new session, the thunk leaves an empty
    session active, under the sentinel title and the next identifier;
    otherwise the active session is left as it was. *)
Theorem saveCurrentSession_active_session
    (openNewSession generateTitle : bool) (w : World R) :
  history (session (store w)) <> [] ->
  let run := saveCurrentSession openNewSession generateTitle w in
  (exists s, saved_sessions (trace run) = [s] /\
             s_sessionId s = id (session (store w)) /\
             s_history s = history (session (store w))) /\
  (openNewSession = true ->
   id (session (store (final run))) = uuidv4 (entropy w) /\
   title (session (store (final run))) = NEW_SESSION_TITLE /\
   history (session (store (final run))) = [] /\
   entropy (final run) = S (entropy w)) /\
  (openNewSession = false ->
   same_active_session w (final run) /\ entropy (final run) = entropy w).
Proof.
  intros Hh run.
  destruct (saveCurrentSession_saved openNewSession generateTitle w Hh)
    as (dp & described & _ & Hs & _).
  destruct (saveCurrentSession_digest openNewSession generateTitle w Hh)
    as (_ & _ & _ & _ & _ & _ & _ & _ & (Hi & Ht & Hy) & He & _).
  fold run in Hs, Hi, Ht, Hy, He.
  split; [eexists; split; [exact Hs | split; reflexivity]|].
  split; intros ->; simpl in *.
  - auto.
  - unfold same_active_session. auto.
Qed.

(** ** Load last session: the whole run *)

Lemma getSession_frame sid w :
  let reply := fst (history_load ideMessenger sid (remote w)) in
  wp (getSession sid) w
    (fun c w' t =>
       c = match reply with
           | Resolves (Success s) => Return s
           | Resolves (Failure e) => Throw (Error e)
           | Rejects e => Throw e
           end /\
       store w' = store w /\ entropy w' = entropy w /\
       background w' = background w /\ t = [XLoad sid reply]).
Proof.
  unfold wp, SessionThunks.getSession, bind, await_request.
  destruct (history_load ideMessenger sid (remote w)) as [p r'].
  destruct p as [[s|e]|e]; simpl; auto.
Qed.

Lemma in_last_session_queries args reply t :
  In (XList args reply) t -> limit args = Some 1 ->
  In args (last_session_queries t).
Proof.
  intros Hin Hl. induction t as [|x t IH]; [destruct Hin|].
  destruct Hin as [->|Hin].
  - simpl. rewrite Hl. left. reflexivity.
  - specialize (IH Hin). destruct x; simpl; auto.
    destruct (limit args0) as [[|[|n]]|]; simpl; auto.
Qed.

(** Saving without opening a new session, seen from outside: the active
    session, the identifiers and the background work are as before, and
    nothing is loaded, deleted or looked for. *)
Lemma saveCurrentSession_frame generateTitle w :
  let run := saveCurrentSession false generateTitle w in
  same_active_session w (final run) /\
  entropy (final run) = entropy w /\
  background (final run) = background w /\
  existsb is_load (trace run) = false /\
  existsb is_delete (trace run) = false /\
  last_session_queries (trace run) = [].
Proof.
  intro run.
  destruct (history (session (store w))) as [|first rest] eqn:Hhist.
  - destruct (saveCurrentSession_no_history ideMessenger renderChatMessage
                NEW_SESSION_TITLE uuidv4 false generateTitle w Hhist)
      as (_ & Hf & Ht).
    unfold run. rewrite Hf, Ht. unfold same_active_session. auto 10.
  - assert (Hh : history (session (store w)) <> [])
      by (rewrite Hhist; discriminate).
    destruct (saveCurrentSession_digest false generateTitle w Hh)
      as (dp & described & saveReply & refreshes & Hd & Ht & Hrf & _ & Hs & He & Hb).
    cbv zeta in Ht, Hrf. fold run in Ht, Hs, He, Hb.
    do 3 (split; [assumption|]).
    assert (Hdp : existsb is_load dp = false /\ existsb is_delete dp = false /\
                  last_session_queries dp = []).
    { destruct (describe_request NEW_SESSION_TITLE (store w) generateTitle);
        destruct Hd as [-> _]; auto. }
    assert (Hre : existsb is_load refreshes = false /\
                  existsb is_delete refreshes = false /\
                  last_session_queries refreshes = []).
    { destruct saveReply; [destruct Hrf as [lr ->] | subst refreshes]; auto. }
    destruct Hdp as (D1 & D2 & D3). destruct Hre as (R1 & R2 & R3).
    rewrite Ht. simpl. rewrite !existsb_app, last_session_queries_app. simpl.
    rewrite D1, D2, D3, R1, R2, R3. auto.
Qed.

Lemma saveCurrentSession_returns openNewSession generateTitle w :
  exists action,
    result (saveCurrentSession openNewSession generateTitle w) = Return action.
Proof. apply createAsyncThunk_returns. Qed.

Lemma loadLastSession_shape flag w :
  let dirs := getWorkspaceDirs ideMessenger (remote w) in
  let run := loadLastSession flag w in
  let query := last_session_query (adopted_directory (fst dirs)) in
  exists saves listReply,
    existsb is_load saves = false /\
    existsb is_delete saves = false /\
    last_session_queries saves = [] /\
    (Js.truthy (id (session (store w))) && flag = false -> saves = []) /\
    background (final run) = background w /\
    match listed_session listReply with
    | None =>
        trace run = XDirs (fst dirs) :: saves ++ [XList query listReply] /\
        result run = Return (fulfilled tt) /\
        id (session (store (final run))) = uuidv4 (entropy w) /\
        title (session (store (final run))) = NEW_SESSION_TITLE /\
        history (session (store (final run))) = []
    | Some m =>
        exists loadReply,
          trace run
          = XDirs (fst dirs)
              :: saves ++ [XList query listReply;
                           XLoad (m_sessionId m) loadReply] /\
          match loadReply with
          | Resolves (Success s) =>
              result run = Return (fulfilled tt) /\
              id (session (store (final run))) = s_sessionId s /\
              title (session (store (final run))) = s_title s /\
              history (session (store (final run))) = s_history s
          | _ =>
              exists err,
                load_error loadReply = Some err /\
                result run = Return (rejected err) /\
                same_active_session w (final run)
          end
    end.
Proof.
  intros dirs run query. subst run.
  change (wp (loadLastSession flag) w
            (fun c w' t =>
               exists saves listReply,
                 existsb is_load saves = false /\
                 existsb is_delete saves = false /\
                 last_session_queries saves = [] /\
                 (Js.truthy (id (session (store w))) && flag = false ->
                  saves = []) /\
                 background w' = background w /\
                 match listed_session listReply with
                 | None =>
                     t = XDirs (fst dirs) :: saves ++ [XList query listReply] /\
                     c = Return (fulfilled tt) /\
                     id (session (store w')) = uuidv4 (entropy w) /\
                     title (session (store w')) = NEW_SESSION_TITLE /\
                     history (session (store w')) = []
                 | Some m =>
                     exists loadReply,
                       t = XDirs (fst dirs)
                             :: saves ++ [XList query listReply;
                                          XLoad (m_sessionId m) loadReply] /\
                       match loadReply with
                       | Resolves (Success s) =>
                           c = Return (fulfilled tt) /\
                           id (session (store w')) = s_sessionId s /\
                           title (session (store w')) = s_title s /\
                           history (session (store w')) = s_history s
                       | _ =>
                           exists err,
                             load_error loadReply = Some err /\
                             c = Return (rejected err) /\
                             same_active_session w w'
                       end
                 end)).
  unfold SessionThunks.loadLastSession.
  apply wp_createAsyncThunk, wp_bind, wp_getState. cbv beta iota.
  apply wp_bind.
  eapply wp_conseq; [apply lookupWorkspaceDirectory_frame|].
  intros c w1 t1 (-> & (Hs1 & He1 & Hb1) & _ & ->). cbv beta iota.
  fold dirs.
  replace (match adopted_directory (fst dirs) with
           | Some d => Some d
           | None => None
           end)
    with (adopted_directory (fst dirs))
    by (destruct (adopted_directory (fst dirs)); reflexivity).
  change {| limit := Some 1; offset := None;
            workspaceDirectory := adopted_directory (fst dirs) |}
    with query.
  apply wp_bind.
  eapply wp_conseq
    with (Q := fun c w2 t =>
                 c = Return tt /\
                 same_active_session w w2 /\ entropy w2 = entropy w /\
                 background w2 = background w /\
                 existsb is_load t = false /\ existsb is_delete t = false /\
                 last_session_queries t = [] /\
                 (Js.truthy (id (session (store w))) && flag = false -> t = [])).
  { destruct (Js.truthy (id (session (store w))) && flag).
    - apply wp_bind. unfold wp at 1.
      destruct (saveCurrentSession_frame true w1)
        as (Fs & Fe & Fb & Fl & Fd & Fq).
      destruct (saveCurrentSession_returns false true w1) as [action Er].
      rewrite Er. cbv beta iota. apply wp_ret. rewrite app_nil_r.
      split; [reflexivity|].
      unfold same_active_session in *. rewrite Hs1 in Fs.
      split; [exact Fs|]. split; [congruence|]. split; [congruence|].
      do 3 (split; [assumption|]). discriminate.
    - apply wp_ret. unfold same_active_session. rewrite Hs1.
      repeat split; auto. }
  intros c w2 t2 (-> & Hs2 & He2 & Hb2 & Hl2 & Hd2 & Hq2 & Hn2). cbv beta iota.
  apply wp_bind.
  eapply wp_conseq; [apply refreshSessionMetadata_frame|].
  intros c w3 t3 (-> & Hs3 & _ & He3 & Hb3 & _ & _ & ->). cbv beta iota.
  set (listReply := fst (history_list ideMessenger query (remote w2))).
  assert (Hpay : match
                   payload_of
                     match listReply with
                     | Resolves (Success content) => fulfilled content
                     | Resolves (Failure e) => rejected (Error e)
                     | Rejects e => rejected e
                     end
                 with
                 | Some l => hd_error l
                 | None => None
                 end = listed_session listReply).
  { destruct listReply as [[[|m l]|e]|e]; reflexivity. }
  rewrite Hpay.
  assert (Hs03 : same_active_session w w3).
  { unfold same_active_session in *. intuition congruence. }
  destruct (listed_session listReply) as [m|] eqn:Elisted.
  - apply wp_bind.
    eapply wp_conseq; [apply getSession_frame|].
    intros c w4 t4 (-> & Hs4 & He4 & Hb4 & ->).
    destruct (fst (history_load ideMessenger (m_sessionId m) (remote w3)))
      as [[s|e]|e] eqn:El; cbv beta iota.
    + apply wp_dispatch. exists t2, listReply. rewrite Elisted.
      do 4 (split; [assumption|]). split; [simpl; congruence|].
      exists (Resolves (Success s)).
      split; [reflexivity|]. simpl. auto.
    + exists t2, listReply. rewrite Elisted.
      do 4 (split; [assumption|]). split; [congruence|].
      exists (Resolves (Failure e)). split; [reflexivity|].
      eexists. split; [reflexivity|]. split; [reflexivity|].
      unfold same_active_session in *. rewrite Hs4. exact Hs03.
    + exists t2, listReply. rewrite Elisted.
      do 4 (split; [assumption|]). split; [congruence|].
      exists (Rejects e). split; [reflexivity|].
      eexists. split; [reflexivity|]. split; [reflexivity|].
      unfold same_active_session in *. rewrite Hs4. exact Hs03.
  - unfold wp. simpl. exists t2, listReply. rewrite Elisted.
    do 4 (split; [assumption|]). split; [congruence|].
    split; [reflexivity|].
    split; [reflexivity|]. split; [congruence|]. auto.
Qed.

(** The [history/list] exchange of a [loadLastSession] trace that asks for
    one entry is the thunk's own. *)
Lemma own_last_session_query d saves query listReply tail args reply :
  last_session_queries saves = [] ->
  existsb (fun x => match x with XList _ _ => true | _ => false end) tail = false ->
  In (XList args reply) (XDirs d :: saves ++ XList query listReply :: tail) ->
  limit args = Some 1 ->
  reply = listReply.
Proof.
  intros Hq Htail Hin Hl. destruct Hin as [E|Hin]; [discriminate|].
  apply in_app_or in Hin. destruct Hin as [Hin|[E|Hin]].
  - apply (in_last_session_queries _ _ _ Hin) in Hl. rewrite Hq in Hl.
    destruct Hl.
  - inversion E. reflexivity.
  - apply (existsb_false_In _ _ _ Htail) in Hin. discriminate.
Qed.

(** ** Load last session *)

(** X9. When the answer to the request for the last session is not a
    success with at least one entry (an error status, a rejected promise or
    an empty list), [loadLastSession] loads nothing and is fulfilled,
    leaving an empty session active under the sentinel title and the next
    identifier. *)
Theorem loadLastSession_starts_new_session
    (flag : bool) (w : World R) (args : ListArgs)
    (reply : Promise (WebviewResult (list SessionMetadata))) :
  let run := loadLastSession flag w in
  In (XList args reply) (trace run) ->
  limit args = Some 1 ->
  listed_session reply = None ->
  result run = Return (fulfilled tt) /\
  existsb is_load (trace run) = false /\
  id (session (store (final run))) = uuidv4 (entropy w) /\
  title (session (store (final run))) = NEW_SESSION_TITLE /\
  history (session (store (final run))) = [].
Proof.
  intros run Hin Hl Hnone.
  destruct (loadLastSession_shape flag w)
    as (saves & listReply & Hld & _ & Hq & _ & _ & Hcase).
  fold run in Hcase.
  destruct (listed_session listReply) as [m|] eqn:El.
  - destruct Hcase as (loadReply & Ht & _).
    rewrite Ht in Hin.
    assert (E : reply = listReply)
      by (eapply own_last_session_query;
          [exact Hq | | exact Hin | exact Hl]; reflexivity).
    congruence.
  - destruct Hcase as (Ht & Hr & Hi & Hti & Hh).
    split; [exact Hr|]. split; [|auto].
    rewrite Ht. simpl. rewrite existsb_app, Hld. reflexivity.
Qed.

(** X10. When the answer to the request for the last session lists
    sessions, [loadLastSession] loads the first of them and no other: on a
    success it is fulfilled with that session active; when the load fails it
    is rejected with the error of the load and the active session is what
    it was. *)
Theorem loadLastSession_loads_first_listed
    (flag : bool) (w : World R) (args : ListArgs)
    (m : SessionMetadata) (others : list SessionMetadata) :
  let run := loadLastSession flag w in
  In (XList args (Resolves (Success (m :: others)))) (trace run) ->
  limit args = Some 1 ->
  exists before loadReply,
    trace run = before ++ [XLoad (m_sessionId m) loadReply] /\
    existsb is_load before = false /\
    (forall s, loadReply = Resolves (Success s) ->
               result run = Return (fulfilled tt) /\
               id (session (store (final run))) = s_sessionId s /\
               title (session (store (final run))) = s_title s /\
               history (session (store (final run))) = s_history s) /\
    (forall err, load_error loadReply = Some err ->
                 result run = Return (rejected err) /\
                 same_active_session w (final run)).
Proof.
  intros run Hin Hl.
  destruct (loadLastSession_shape flag w)
    as (saves & listReply & Hld & _ & Hq & _ & _ & Hcase).
  fold run in Hcase.
  destruct (listed_session listReply) as [m'|] eqn:El.
  - destruct Hcase as (loadReply & Ht & Hres).
    pose proof Hin as Hin'. rewrite Ht in Hin'.
    assert (E : Resolves (Success (m :: others)) = listReply)
      by (eapply own_last_session_query;
          [exact Hq | | exact Hin' | exact Hl]; reflexivity).
    rewrite <- E in El. simpl in El. inversion El. subst m'.
    exists (XDirs (fst (getWorkspaceDirs ideMessenger (remote w)))
              :: saves ++ [XList
                             (last_session_query
                                (adopted_directory
                                   (fst (getWorkspaceDirs ideMessenger (remote w)))))
                             listReply]), loadReply.
    split; [rewrite Ht; simpl; rewrite <- app_assoc; reflexivity|].
    split; [simpl; rewrite existsb_app, Hld; reflexivity|].
    split.
    + intros s ->. exact Hres.
    + intros err Herr.
      destruct loadReply as [[s|e]|e]; [discriminate|..];
        destruct Hres as (err' & He & Hr & Hs); split; congruence || assumption.
  - destruct Hcase as (Ht & _).
    rewrite Ht in Hin.
    assert (E : Resolves (Success (m :: others)) = listReply)
      by (eapply own_last_session_query;
          [exact Hq | | exact Hin | exact Hl]; reflexivity).
    rewrite <- E in El. discriminate.
Qed.

(** X11. [loadLastSession] is rejected only by a failing load of the
    listed session, with the error of that load, and the active session is
    then what it was: a failing save-current, a failing workspace lookup
    and a failing list request do not reject it. *)
Theorem loadLastSession_rejected_only_by_load
    (flag : bool) (w : World R) (err : JsError) :
  let run := loadLastSession flag w in
  result run = Return (rejected err) ->
  (exists sessionId loadReply,
      In (XLoad sessionId loadReply) (trace run) /\
      load_error loadReply = Some err) /\
  same_active_session w (final run).
Proof.
  intros run Hrej.
  destruct (loadLastSession_shape flag w)
    as (saves & listReply & _ & _ & _ & _ & _ & Hcase).
  fold run in Hcase.
  destruct (listed_session listReply) as [m|].
  - destruct Hcase as (loadReply & Ht & Hres).
    destruct loadReply as [[s|e]|e].
    + destruct Hres as (Hr & _). congruence.
    + destruct Hres as (err' & He & Hr & Hs).
      assert (err' = err) by congruence. subst err'.
      split; [|exact Hs]. eexists _, _. split; [|exact He].
      rewrite Ht. right. apply in_or_app. right. right. left. reflexivity.
    + destruct Hres as (err' & He & Hr & Hs).
      assert (err' = err) by congruence. subst err'.
      split; [|exact Hs]. eexists _, _. split; [|exact He].
      rewrite Ht. right. apply in_or_app. right. right. left. reflexivity.
  - destruct Hcase as (_ & Hr & _). congruence.
Qed.

(** X12. Without an active session id, or when not asked to save,
    [loadLastSession] makes two or three requests and no other: the
    workspace lookup, the request for the last session, and the load of the
    session listed if there is one. *)
Theorem loadLastSession_requests_without_save (flag : bool) (w : World R) :
  flag = false \/ id (session (store w)) = [] ->
  let run := loadLastSession flag w in
  exists dirsReply query listReply,
    limit query = Some 1 /\
    match listed_session listReply with
    | None => trace run = [XDirs dirsReply; XList query listReply]
    | Some m =>
        exists loadReply,
          trace run = [XDirs dirsReply; XList query listReply;
                       XLoad (m_sessionId m) loadReply]
    end.
Proof.
  intros Hc run.
  destruct (loadLastSession_shape flag w)
    as (saves & listReply & _ & _ & _ & Hno & _ & Hcase).
  fold run in Hcase.
  assert (Hs : saves = []).
  { apply Hno. destruct Hc as [->| ->]; [apply andb_false_r | reflexivity]. }
  subst saves. cbn [app] in Hcase.
  exists (fst (getWorkspaceDirs ideMessenger (remote w))),
    (last_session_query
       (adopted_directory (fst (getWorkspaceDirs ideMessenger (remote w))))),
    listReply.
  split; [reflexivity|].
  destruct (listed_session listReply) as [m|].
  - destruct Hcase as (loadReply & Ht & _). eauto.
  - destruct Hcase as (Ht & _). exact Ht.
Qed.

(** ** Delete session *)

Lemma loadLastSession_unsaved w :
  let run := loadLastSession false w in
  existsb is_delete (trace run) = false /\
  existsb is_save (trace run) = false /\
  background (final run) = background w.
Proof.
  intro run.
  destruct (loadLastSession_shape false w)
    as (saves & listReply & _ & _ & _ & Hno & Hb & Hcase).
  fold run in Hcase, Hb.
  assert (Hs : saves = []) by (apply Hno, andb_false_r).
  subst saves. cbn [app] in Hcase.
  destruct (listed_session listReply) as [m|].
  - destruct Hcase as (loadReply & -> & _). auto.
  - destruct Hcase as (-> & _). auto.
Qed.

(** X13. [deleteSession] always ends with the [history/delete] request for
    the session, also when loading the last session failed, and its outcome
    is that of this request alone: fulfilled on a success, rejected with
    the error of an error status or with the reason of a rejected promise.
    Nothing is saved on the way, a session that is not active is deleted
    with this one request, and a metadata refresh is left in the background
    on a success only. *)
Theorem deleteSession_outcome (sessionId : jsstring) (w : World R) :
  let run := deleteSession sessionId w in
  exists before reply,
    trace run = before ++ [XDelete sessionId reply] /\
    existsb is_delete before = false /\
    existsb is_save before = false /\
    (id (session (store w)) <> sessionId -> before = []) /\
    result run = Return match reply with
                        | Resolves (Success _) => fulfilled tt
                        | Resolves (Failure e) => rejected (Error e)
                        | Rejects e => rejected e
                        end /\
    background (final run)
    = background w ++ match reply with
                      | Resolves (Success _) => [plain_refresh]
                      | _ => []
                      end.
Proof.
  intro run. subst run.
  change (wp (deleteSession sessionId) w
            (fun c w' t =>
               exists before reply,
                 t = before ++ [XDelete sessionId reply] /\
                 existsb is_delete before = false /\
                 existsb is_save before = false /\
                 (id (session (store w)) <> sessionId -> before = []) /\
                 c = Return match reply with
                            | Resolves (Success _) => fulfilled tt
                            | Resolves (Failure e) => rejected (Error e)
                            | Rejects e => rejected e
                            end /\
                 background w'
                 = background w ++ match reply with
                                   | Resolves (Success _) => [plain_refresh]
                                   | _ => []
                                   end)).
  unfold SessionThunks.deleteSession.
  apply wp_createAsyncThunk, wp_bind, wp_dispatch. cbv beta iota.
  set (w0 := final (dispatch (deleteSessionMetadata sessionId) w)).
  assert (Hid : id (session (store w0)) = id (session (store w)))
    by reflexivity.
  assert (Hb0 : background w0 = background w) by reflexivity.
  apply wp_bind, wp_getState. cbv beta iota.
  apply wp_bind.
  eapply wp_conseq
    with (Q := fun c w1 t =>
                 c = Return tt /\ existsb is_delete t = false /\
                 existsb is_save t = false /\
                 (id (session (store w)) <> sessionId -> t = []) /\
                 background w1 = background w).
  { destruct (Js.eqb sessionId (id (session (store w0)))) eqn:Eid.
    - apply wp_bind. unfold wp at 1.
      destruct (loadLastSession_returns ideMessenger renderChatMessage
                  NEW_SESSION_TITLE uuidv4 false w0) as [action Ha].
      destruct (loadLastSession_unsaved w0) as (Hd & Hs & Hb).
      rewrite Ha. cbv beta iota. apply wp_ret. rewrite app_nil_r.
      do 3 (split; [assumption || reflexivity|]).
      split; [|congruence].
      intro Hne. exfalso. apply Hne. apply js_eqb_eq in Eid. congruence.
    - apply wp_ret. auto. }
  intros c w1 t1 (-> & Hd1 & Hs1 & Hn1 & Hb1). cbv beta iota.
  apply wp_bind, wp_await_request.
  intros w2 _ _ _ Hb2 _.
  destruct (fst (history_delete ideMessenger sessionId (remote w1)))
    as [[u|e]|e]; cbv beta iota.
  - unfold wp. simpl. exists t1, (Resolves (Success u)).
    split; [reflexivity|]. do 3 (split; [assumption|]).
    split; [reflexivity|]. rewrite Hb2, Hb1. reflexivity.
  - unfold wp. simpl. exists t1, (Resolves (Failure e)).
    split; [reflexivity|]. do 3 (split; [assumption|]).
    split; [reflexivity|]. rewrite app_nil_r. congruence.
  - exists t1, (Rejects e).
    split; [reflexivity|]. do 3 (split; [assumption|]).
    split; [reflexivity|]. rewrite app_nil_r. congruence.
Qed.

(** X14. Deleting a session that is not active leaves the active session
    as it is and, whatever the store answers, the metadata collection
    without an entry of the deleted session. *)
Theorem deleteSession_of_inactive_session (sessionId : jsstring) (w : World R) :
  id (session (store w)) <> sessionId ->
  let run := deleteSession sessionId w in
  same_active_session w (final run) /\
  has_metadata_of sessionId
    (allSessionMetadata (session (store (final run)))) = false /\
  config (store (final run)) = config (store w).
Proof.
  intros Hne run. subst run.
  assert (Eid : Js.eqb sessionId (id (session (store w))) = false).
  { destruct (Js.eqb _ _) eqn:E; [|reflexivity].
    apply js_eqb_eq in E. congruence. }
  change (wp (deleteSession sessionId) w
            (fun c w' t =>
               same_active_session w w' /\
               has_metadata_of sessionId
                 (allSessionMetadata (session (store w'))) = false /\
               config (store w') = config (store w))).
  unfold SessionThunks.deleteSession.
  apply wp_createAsyncThunk, wp_bind, wp_dispatch. cbv beta iota.
  set (w0 := final (dispatch (deleteSessionMetadata sessionId) w)).
  assert (H0 : same_active_session w w0 /\
               has_metadata_of sessionId
                 (allSessionMetadata (session (store w0))) = false /\
               config (store w0) = config (store w)).
  { split; [unfold same_active_session; repeat split; reflexivity|].
    split; [apply has_metadata_of_filter | reflexivity]. }
  apply wp_bind, wp_getState. cbv beta iota.
  change (id (session (store w0))) with (id (session (store w))).
  rewrite Eid. apply wp_bind, wp_ret. cbv beta iota.
  apply wp_bind, wp_await_request.
  intros w1 Hs1 _ _ _ _.
  assert (H1 : same_active_session w w1 /\
               has_metadata_of sessionId
                 (allSessionMetadata (session (store w1))) = false /\
               config (store w1) = config (store w)).
  { unfold same_active_session in *. rewrite Hs1. exact H0. }
  destruct (fst (history_delete ideMessenger sessionId (remote w0)))
    as [[u|e]|e]; cbv beta iota; exact H1.
Qed.

(** ** Load session *)

(** X15. When the [history/load] request of [loadSession] fails, with an
    error status or a rejected promise, the thunk is rejected with the
    error and the active session is what it was, whether or not the current
    session was saved first. *)
Theorem loadSession_load_failure
    (sessionId : jsstring) (save : bool) (w : World R)
    (reply : Promise (WebviewResult Session)) (err : JsError) :
  let run := loadSession sessionId save w in
  In (XLoad sessionId reply) (trace run) ->
  load_error reply = Some err ->
  result run = Return (rejected err) /\ same_active_session w (final run).
Proof.
  intros run. subst run.
  change (wp (loadSession sessionId save) w
            (fun c w' t =>
               In (XLoad sessionId reply) t ->
               load_error reply = Some err ->
               c = Return (rejected err) /\ same_active_session w w')).
  unfold SessionThunks.loadSession.
  apply wp_createAsyncThunk, wp_bind.
  eapply wp_conseq
    with (Q := fun c w1 t =>
                 existsb is_load t = false /\ same_active_session w w1 /\
                 ((exists e, c = Throw e) \/ c = Return tt)).
  { destruct save.
    - apply wp_bind. unfold wp at 1.
      destruct (saveCurrentSession_keeps_active_session ideMessenger
                  renderChatMessage NEW_SESSION_TITLE uuidv4 true w)
        as [Keep NoLoad].
      destruct (saveCurrentSession_returns false true w) as [action Ha].
      rewrite Ha. cbv beta iota. apply wp_unwrapResult. rewrite app_nil_r.
      split; [exact NoLoad|]. split; [exact Keep|].
      destruct action as [[]|e]; eauto.
    - apply wp_ret. split; [reflexivity|].
      split; [apply same_active_session_refl | auto]. }
  intros c w1 t1 (Hl1 & Hs1 & [[e ->]| ->]).
  - intros Hin _. apply (existsb_false_In _ _ _ Hl1) in Hin. discriminate.
  - cbv beta iota. apply wp_bind.
    eapply wp_conseq; [apply getSession_frame|].
    intros c w2 t2 (-> & Hs2 & _ & _ & ->).
    assert (Own : forall tail,
               tail = [] ->
               In (XLoad sessionId reply)
                 (t1 ++ [XLoad sessionId
                           (fst (history_load ideMessenger sessionId (remote w1)))]
                     ++ tail) ->
               fst (history_load ideMessenger sessionId (remote w1)) = reply).
    { intros tail -> Hin. apply in_app_or in Hin. destruct Hin as [Hin|[E|[]]].
      - apply (existsb_false_In _ _ _ Hl1) in Hin. discriminate.
      - inversion E. reflexivity. }
    assert (Same : same_active_session w w2).
    { unfold same_active_session in *. rewrite Hs2. exact Hs1. }
    destruct (fst (history_load ideMessenger sessionId (remote w1)))
      as [[s|e]|e] eqn:El; cbv beta iota.
    + apply wp_dispatch. intros Hin Herr. apply Own in Hin; [|reflexivity].
      subst reply. discriminate.
    + intros Hin Herr. apply Own in Hin; [|reflexivity]. subst reply.
      simpl in Herr. inversion Herr. auto.
    + intros Hin Herr. apply Own in Hin; [|reflexivity]. subst reply.
      simpl in Herr. inversion Herr. auto.
Qed.

(** ** The workspace directory *)

(** X16. When the answer to [getWorkspaceDirs] is itself an array, its
    first element is the workspace directory of both thunks:
    [loadLastSession] asks for the last session of that directory, and
    [saveCurrentSession] persists it and refreshes the metadata of that
    directory. When the promise rejects or the array is empty, the lookup is
    no failure: the one asks without a directory and the other persists the
    empty string. *)
Theorem workspace_directory_from_array (w : World R) :
  let reply := fst (getWorkspaceDirs ideMessenger (remote w)) in
  (forall d others,
      reply = Resolves (DirsArray (d :: others)) ->
      (forall flag,
          last_session_queries (trace (loadLastSession flag w))
          = [last_session_query (Some d)]) /\
      (forall openNewSession generateTitle,
          history (session (store w)) <> [] ->
          let run := saveCurrentSession openNewSession generateTitle w in
          map s_workspaceDirectory (saved_sessions (trace run)) = [d] /\
          forall args r, In (XList args r) (trace run) ->
                         args = refresh_query d)) /\
  ((exists e, reply = Rejects e) \/ reply = Resolves (DirsArray []) ->
   (forall flag,
       last_session_queries (trace (loadLastSession flag w))
       = [last_session_query None]) /\
   (forall openNewSession generateTitle,
       history (session (store w)) <> [] ->
       map s_workspaceDirectory
         (saved_sessions
            (trace (saveCurrentSession openNewSession generateTitle w)))
       = [[]])).
Proof.
  intro reply.
  assert (Save : forall o g,
             history (session (store w)) <> [] ->
             let run := saveCurrentSession o g w in
             let d := match adopted_directory reply with
                      | Some d => d
                      | None => []
                      end in
             map s_workspaceDirectory (saved_sessions (trace run)) = [d] /\
             forall args r, In (XList args r) (trace run) ->
                            args = refresh_query d).
  { intros o g Hh run d.
    destruct (saveCurrentSession_saved o g w Hh) as (dp & ds & _ & Hs & _).
    destruct (saveCurrentSession_digest o g w Hh)
      as (dp' & ds' & saveReply & refreshes & Hd & Ht & Hrf & _).
    cbv zeta in Ht, Hrf. fold run in Hs, Ht. fold reply in Hs, Ht, Hrf.
    split; [rewrite Hs; reflexivity|].
    intros args r Hin. rewrite Ht in Hin.
    destruct Hin as [E|Hin]; [discriminate|].
    apply in_app_or in Hin. destruct Hin as [Hin|[E|Hin]]; [|discriminate|].
    - destruct (describe_request NEW_SESSION_TITLE (store w) g);
        destruct Hd as [-> _]; [destruct Hin as [E|[]]; discriminate|destruct Hin].
    - destruct saveReply; [destruct Hrf as [lr ->] | subst refreshes; destruct Hin].
      destruct Hin as [E|[]]. inversion E. reflexivity. }
  split.
  - intros d others Hr. split.
    + intro flag.
      rewrite (loadLastSession_queries ideMessenger renderChatMessage
                 NEW_SESSION_TITLE uuidv4 flag w).
      fold reply. rewrite Hr. reflexivity.
    + intros o g Hh. specialize (Save o g Hh). fold reply in Save.
      rewrite Hr in Save. exact Save.
  - intros Hr.
    assert (Ha : adopted_directory reply = None)
      by (destruct Hr as [[e ->]| ->]; reflexivity).
    split.
    + intro flag.
      rewrite (loadLastSession_queries ideMessenger renderChatMessage
                 NEW_SESSION_TITLE uuidv4 flag w).
      fold reply. rewrite Ha. reflexivity.
    + intros o g Hh. destruct (Save o g Hh) as [S _]. rewrite Ha in S. exact S.
Qed.

(** ** Refresh metadata *)

(** X17. [refreshSessionMetadata] makes the one [history/list] request it
    is given the arguments of and never touches the active session; when
    the promise of the request rejects, the thunk is rejected with the
    reason and the store is what it was. *)
Theorem refreshSessionMetadata_single_request (args : ListArgs) (w : World R) :
  let reply := fst (history_list ideMessenger args (remote w)) in
  let run := refreshSessionMetadata args w in
  trace run = [XList args reply] /\
  same_active_session w (final run) /\
  forall e, reply = Rejects e ->
            result run = Return (rejected e) /\ store (final run) = store w.
Proof.
  intros reply run.
  destruct (refreshSessionMetadata_frame args w)
    as (Hr & Hs & _ & _ & _ & _ & Hst & Ht).
  fold reply in Hr, Hst. fold run in Hr, Hs, Hst, Ht.
  split; [exact Ht|]. split; [exact Hs|].
  intros e He. rewrite He in Hr. split; [exact Hr|].
  apply Hst. intros content E. congruence.
Qed.

(** ** The title deriver *)

Lemma split_lines_no_lf (s : jsstring) :
  Forall (fun l => ~ In Js.LF l) (Js.split_lines s).
Proof.
  induction s as [|c s IH]; simpl.
  - constructor; [intros [] | constructor].
  - destruct (N.eqb_spec c Js.LF) as [E|E].
    + constructor; [intros [] | exact IH].
    + destruct (Js.split_lines s) as [|l ls].
      * constructor; [|constructor]. intros [H|[]]. congruence.
      * inversion IH; subst. constructor; [|assumption].
        intros [H|H]; [congruence | auto].
Qed.

Lemma In_skipn {A} (x : A) n (l : list A) : In x (skipn n l) -> In x l.
Proof.
  intro H. rewrite <- (firstn_skipn n l). apply in_or_app. right. exact H.
Qed.

Lemma In_firstn {A} (x : A) n (l : list A) : In x (firstn n l) -> In x l.
Proof.
  intro H. rewrite <- (firstn_skipn n l). apply in_or_app. left. exact H.
Qed.

(** The text the title is cut from: nothing, or a non-blank line. *)
Lemma title_text_cases (msg : ChatMessage) :
  let text :=
    Js.or_empty
      (hd_error
         (Js.slice_last
            (filter (fun l => negb (Js.eqb (Js.trim l) []))
               (Js.split_lines (renderChatMessage msg))))) in
  text = [] \/ (~ In Js.LF text /\ forallb Js.is_white text = false).
Proof.
  intro text. subst text.
  destruct (hd_error _) as [l|] eqn:E; [|left; reflexivity].
  assert (Hin : In l (filter (fun l => negb (Js.eqb (Js.trim l) []))
                        (Js.split_lines (renderChatMessage msg)))).
  { unfold Js.slice_last in E.
    destruct (skipn _ _) as [|x xs] eqn:Es; [discriminate|].
    inversion E. subst x. eapply In_skipn. rewrite Es. left. reflexivity. }
  apply filter_In in Hin. destruct Hin as [Hl Hnb].
  rewrite nonblank_filter_spec in Hnb.
  destruct l as [|c l]; [left; reflexivity|]. right. simpl Js.or_empty.
  split.
  - pose proof (split_lines_no_lf (renderChatMessage msg)) as F.
    rewrite Forall_forall in F. exact (F _ Hl).
  - destruct (forallb Js.is_white (c :: l)); [discriminate | reflexivity].
Qed.

(** X18. Whatever the message, the derived title has at most 100 code
    units, holds no line feed, and is empty or holds a character that is
    not white space. *)
Theorem getChatTitleFromMessage_bounds (msg : ChatMessage) :
  let t := getChatTitleFromMessage renderChatMessage msg in
  length t <= 100 /\
  ~ In Js.LF t /\
  (t = [] \/ forallb Js.is_white t = false).
Proof.
  intro t. subst t. unfold getChatTitleFromMessage. cbv zeta.
  destruct (title_text_cases msg) as [E|[Hlf Hnb]].
  - cbv zeta in E. rewrite E. simpl. split; [lia|]. split; [intros []|auto].
  - cbv zeta in Hlf, Hnb.
    set (text := Js.or_empty _) in *.
    unfold MAX_TITLE_LENGTH, Js.slice_to.
    destruct (100 <? length text) eqn:El.
    + apply Nat.ltb_lt in El. split; [|split].
      * rewrite length_app, length_firstn.
        change (length (Js.of_string "...")) with 3. lia.
      * intro H. apply in_app_or in H. destruct H as [H|H].
        -- apply Hlf. eapply In_firstn. exact H.
        -- simpl in H. unfold Js.LF in H.
           destruct H as [H|[H|[H|[]]]]; discriminate.
      * right. rewrite forallb_app. simpl. apply andb_false_r.
    + apply Nat.ltb_ge in El. auto.
Qed.

(** X19. A last non-blank line of at most 100 code units is the derived
    title as it stands. *)
Theorem getChatTitleFromMessage_short_line (msg : ChatMessage) (line : jsstring) :
  last_nonblank_line (renderChatMessage msg) line ->
  length line <= 100 ->
  getChatTitleFromMessage renderChatMessage msg = line.
Proof.
  intros H Hlen.
  rewrite (getChatTitleFromMessage_of_last_line renderChatMessage msg H).
  unfold MAX_TITLE_LENGTH.
  destruct (100 <? length line) eqn:E; [|reflexivity].
  apply Nat.ltb_lt in E. lia.
Qed.

End MoreProperties.

(* ================================================================== *)
(** * More runs against the history store *)
(* ================================================================== *)

Lemma updateSession_outcome_witness :
  let w :=
    Demo.world (Demo.store_with Demo.abc [Demo.abc; Demo.old])
      (Demo.disk Demo.Healthy) in
  let run := Demo.updateSession Demo.abc w in
  result run = Return (fulfilled tt) /\
  same_active_session w (final run) /\
  exists listReply,
    trace run
    = [XSave Demo.abc (Resolves (Success tt));
       XList (refresh_query (Js.of_string "/ws")) listReply] /\
    (listReply = Resolves (Success (map Demo.metadata_of [Demo.abc; Demo.old])) ->
     allSessionMetadata (session (store (final run)))
     = map Demo.metadata_of [Demo.abc; Demo.old]).
Proof.
  intros w run.
  pose proof (@updateSession_outcome Demo.Disk Demo.messenger
                Demo.NEW_SESSION_TITLE Demo.uuidv4 Demo.abc w) as H.
  cbv zeta in H. fold run in H.
  change (fst (history_save Demo.messenger Demo.abc (remote w)))
    with (@Resolves (WebviewResult unit) (Success tt)) in H.
  destruct H as (Hr & Hs & listReply & Ht & Hm).
  split; [exact Hr|]. split; [exact Hs|].
  exists listReply. split; [exact Ht|]. intro E. exact (Hm _ E).
Defined.

Lemma saveCurrentSession_requests_witness :
  let w :=
    Demo.world (Scenes.store_ready Scenes.chat [Demo.abc; Demo.old])
      Scenes.describing in
  let run := Demo.saveCurrentSession false true w in
  history (session (store w)) <> [] /\
  exists dirsReply describes s saveReply refreshes,
    trace run = XDirs dirsReply :: describes ++ XSave s saveReply :: refreshes /\
    (describes = [] \/ exists text reply, describes = [XDescribe text reply]) /\
    match saveReply with
    | Rejects e => refreshes = [] /\ result run = Return (rejected e)
    | Resolves _ =>
        (exists listReply,
            refreshes
            = [XList (refresh_query (s_workspaceDirectory s)) listReply]) /\
        result run = Return (fulfilled tt)
    end.
Proof.
  intros w run.
  assert (Hh : history (session (store w)) <> []) by discriminate.
  split; [exact Hh|].
  exact (@saveCurrentSession_requests Demo.Disk Demo.messenger Demo.render
           Demo.NEW_SESSION_TITLE Demo.uuidv4 false true w Hh).
Defined.

Lemma saveCurrentSession_adopts_described_title_witness :
  let w :=
    Demo.world (Scenes.store_ready Scenes.chat [Demo.abc; Demo.old])
      Scenes.describing in
  let run := Demo.saveCurrentSession false true w in
  In (XDescribe Scenes.answer (Resolves (Success (Some Scenes.suggested))))
    (trace run) /\
  Scenes.suggested <> [] /\
  Scenes.suggested <> Demo.NEW_SESSION_TITLE /\
  exists s, saved_sessions (trace run) = [s] /\ s_title s = Scenes.suggested.
Proof.
  intros w run.
  assert (H1 : In (XDescribe Scenes.answer
                     (Resolves (Success (Some Scenes.suggested)))) (trace run))
    by (vm_compute; auto 10).
  assert (H2 : Scenes.suggested <> []) by discriminate.
  assert (H3 : Scenes.suggested <> Demo.NEW_SESSION_TITLE) by discriminate.
  do 3 (split; [assumption|]).
  exact (@saveCurrentSession_adopts_described_title Demo.Disk Demo.messenger
           Demo.render Demo.NEW_SESSION_TITLE Demo.uuidv4 false true w
           Scenes.answer Scenes.suggested H1 H2 H3).
Defined.

Lemma saveCurrentSession_describes_only_when_due_witness :
  let w :=
    Demo.world (Scenes.store_ready Scenes.chat [Demo.abc; Demo.old])
      Scenes.describing in
  let run := Demo.saveCurrentSession false true w in
  let reply := Resolves (Success (Some Scenes.suggested)) in
  In (XDescribe Scenes.answer reply) (trace run) /\
  title (session (store w)) = Demo.NEW_SESSION_TITLE /\
  true = true /\
  flag_truthy (disableSessionTitles (config (store w))) = false /\
  selectSelectedChatModel (store w) <> None /\
  firstAssistantResponse (history (session (store w))) = Some Scenes.answer /\
  Scenes.answer <> [].
Proof.
  intros w run reply.
  assert (H1 : In (XDescribe Scenes.answer reply) (trace run))
    by (vm_compute; auto 10).
  split; [exact H1|].
  exact (proj2 (@saveCurrentSession_describes_only_when_due Demo.Disk
                  Demo.messenger Demo.render Demo.NEW_SESSION_TITLE Demo.uuidv4
                  false true w) Scenes.answer reply H1).
Defined.

Lemma saveCurrentSession_keeps_given_title_witness :
  let w :=
    Demo.world (Scenes.store_ready Demo.abc [Demo.abc; Demo.old])
      Scenes.describing in
  let run := Demo.saveCurrentSession true true w in
  history (session (store w)) <> [] /\
  title (session (store w)) <> Demo.NEW_SESSION_TITLE /\
  title (session (store w)) <> [] /\
  existsb is_describe (trace run) = false /\
  exists s, saved_sessions (trace run) = [s] /\
            s_title s = title (session (store w)).
Proof.
  intros w run.
  assert (H1 : history (session (store w)) <> []) by discriminate.
  assert (H2 : title (session (store w)) <> Demo.NEW_SESSION_TITLE)
    by discriminate.
  assert (H3 : title (session (store w)) <> []) by discriminate.
  do 3 (split; [assumption|]).
  exact (@saveCurrentSession_keeps_given_title Demo.Disk Demo.messenger
           Demo.render Demo.NEW_SESSION_TITLE Demo.uuidv4 true true w H1 H2 H3).
Defined.

Lemma saveCurrentSession_derives_title_witness :
  let w :=
    Demo.world (Demo.store_with Scenes.chat [Demo.abc; Demo.old])
      (Demo.disk Demo.Healthy) in
  let run := Demo.saveCurrentSession false true w in
  history (session (store w)) <> [] /\
  title (session (store w)) = Demo.NEW_SESSION_TITLE /\
  existsb describes_title (trace run) = false /\
  derived_title Demo.render (history (session (store w)))
  = Js.of_string "Fix the parser" /\
  exists s, saved_sessions (trace run) = [s] /\
            s_title s = Js.of_string "Fix the parser".
Proof.
  intros w run.
  assert (H1 : history (session (store w)) <> []) by discriminate.
  assert (H2 : title (session (store w)) = Demo.NEW_SESSION_TITLE)
    by reflexivity.
  assert (H3 : existsb describes_title (trace run) = false)
    by (vm_compute; reflexivity).
  assert (H4 : derived_title Demo.render (history (session (store w)))
               = Js.of_string "Fix the parser") by (vm_compute; reflexivity).
  assert (H5 : derived_title Demo.render (history (session (store w))) <> [])
    by (rewrite H4; discriminate).
  do 4 (split; [assumption|]).
  rewrite <- H4.
  exact (@saveCurrentSession_derives_title Demo.Disk Demo.messenger
           Demo.render Demo.NEW_SESSION_TITLE Demo.uuidv4 false true w
           H1 H2 H3 H5).
Defined.

Lemma saveCurrentSession_falls_back_on_metadata_witness :
  let w :=
    Demo.world (Demo.store_with Demo.untitled [Demo.abc; Scenes.stored])
      (Demo.disk Demo.Healthy) in
  let run := Demo.saveCurrentSession false true w in
  history (session (store w)) <> [] /\
  title (session (store w)) = Demo.NEW_SESSION_TITLE /\
  existsb describes_title (trace run) = false /\
  derived_title Demo.render (history (session (store w))) = [] /\
  find (fun m => Js.eqb (m_sessionId m) (id (session (store w))))
    (allSessionMetadata (session (store w)))
  = Some (Demo.metadata_of Scenes.stored) /\
  exists s, saved_sessions (trace run) = [s] /\
            s_title s = Js.of_string "Stored title".
Proof.
  intros w run.
  assert (H1 : history (session (store w)) <> []) by discriminate.
  assert (H2 : title (session (store w)) = Demo.NEW_SESSION_TITLE)
    by reflexivity.
  assert (H3 : existsb describes_title (trace run) = false)
    by (vm_compute; reflexivity).
  assert (H4 : derived_title Demo.render (history (session (store w))) = [])
    by (vm_compute; reflexivity).
  assert (H5 : find (fun m => Js.eqb (m_sessionId m) (id (session (store w))))
                 (allSessionMetadata (session (store w)))
               = Some (Demo.metadata_of Scenes.stored))
    by (vm_compute; reflexivity).
  assert (H6 : m_title (Demo.metadata_of Scenes.stored) <> []) by discriminate.
  do 5 (split; [assumption|]).
  exact (@saveCurrentSession_falls_back_on_metadata Demo.Disk Demo.messenger
           Demo.render Demo.NEW_SESSION_TITLE Demo.uuidv4 false true w
           (Demo.metadata_of Scenes.stored) H1 H2 H3 H4 H5 H6).
Defined.

Lemma saveCurrentSession_active_session_witness :
  let w :=
    Demo.world (Demo.store_with Demo.abc [Demo.abc; Demo.old])
      (Demo.disk Demo.Healthy) in
  history (session (store w)) <> [] /\
  (id (session (store (final (Demo.saveCurrentSession true false w))))
   = Demo.uuidv4 0 /\
   title (session (store (final (Demo.saveCurrentSession true false w))))
   = Demo.NEW_SESSION_TITLE /\
   history (session (store (final (Demo.saveCurrentSession true false w)))) = [] /\
   entropy (final (Demo.saveCurrentSession true false w)) = 1) /\
  (same_active_session w (final (Demo.saveCurrentSession false false w)) /\
   entropy (final (Demo.saveCurrentSession false false w)) = 0).
Proof.
  intro w.
  assert (Hh : history (session (store w)) <> []) by discriminate.
  split; [exact Hh|]. split.
  - exact (proj1 (proj2 (@saveCurrentSession_active_session Demo.Disk
                           Demo.messenger Demo.render Demo.NEW_SESSION_TITLE
                           Demo.uuidv4 true false w Hh)) eq_refl).
  - exact (proj2 (proj2 (@saveCurrentSession_active_session Demo.Disk
                           Demo.messenger Demo.render Demo.NEW_SESSION_TITLE
                           Demo.uuidv4 false false w Hh)) eq_refl).
Defined.

Lemma loadLastSession_starts_new_session_witness :
  let w :=
    Demo.world (Demo.store_with Demo.abc [Demo.abc; Demo.old])
      (Demo.disk Demo.ListFails) in
  let run := Demo.loadLastSession false w in
  let reply := Resolves (Failure (Js.of_string "list failed")) in
  In (XList (last_session_query None) reply) (trace run) /\
  listed_session reply = None /\
  result run = Return (fulfilled tt) /\
  existsb is_load (trace run) = false /\
  id (session (store (final run))) = Demo.uuidv4 0 /\
  title (session (store (final run))) = Demo.NEW_SESSION_TITLE /\
  history (session (store (final run))) = [].
Proof.
  intros w run reply.
  assert (H1 : In (XList (last_session_query None) reply) (trace run))
    by (vm_compute; auto 10).
  split; [exact H1|]. split; [reflexivity|].
  exact (@loadLastSession_starts_new_session Demo.Disk Demo.messenger
           Demo.render Demo.NEW_SESSION_TITLE Demo.uuidv4 false w
           (last_session_query None) reply H1 eq_refl eq_refl).
Defined.

Lemma loadLastSession_loads_first_listed_witness :
  let w :=
    Demo.world (Demo.store_with Demo.old [Demo.abc; Demo.old])
      (Demo.disk Demo.Healthy) in
  let run := Demo.loadLastSession false w in
  In (XList (last_session_query None)
        (Resolves (Success [Demo.metadata_of Demo.abc]))) (trace run) /\
  exists before loadReply,
    trace run = before ++ [XLoad (Js.of_string "abc") loadReply] /\
    existsb is_load before = false /\
    (forall s, loadReply = Resolves (Success s) ->
               result run = Return (fulfilled tt) /\
               id (session (store (final run))) = s_sessionId s /\
               title (session (store (final run))) = s_title s /\
               history (session (store (final run))) = s_history s) /\
    (forall err, load_error loadReply = Some err ->
                 result run = Return (rejected err) /\
                 same_active_session w (final run)).
Proof.
  intros w run.
  assert (H1 : In (XList (last_session_query None)
                     (Resolves (Success [Demo.metadata_of Demo.abc])))
                 (trace run))
    by (vm_compute; auto 10).
  split; [exact H1|].
  exact (@loadLastSession_loads_first_listed Demo.Disk Demo.messenger
           Demo.render Demo.NEW_SESSION_TITLE Demo.uuidv4 false w
           (last_session_query None) (Demo.metadata_of Demo.abc) [] H1 eq_refl).
Defined.

Lemma loadLastSession_rejected_only_by_load_witness :
  let w :=
    Demo.world (Demo.store_with Demo.old [Demo.abc; Demo.old])
      (Demo.disk Demo.Healthy) in
  let run :=
    SessionThunks.loadLastSession Scenes.forgetful Demo.render
      Demo.NEW_SESSION_TITLE Demo.uuidv4 true w in
  let err := Error (Js.of_string "gone") in
  result run = Return (rejected err) /\
  (exists sessionId loadReply,
      In (XLoad sessionId loadReply) (trace run) /\
      load_error loadReply = Some err) /\
  same_active_session w (final run).
Proof.
  intros w run err.
  assert (H1 : result run = Return (rejected err)) by (vm_compute; reflexivity).
  split; [exact H1|].
  exact (@loadLastSession_rejected_only_by_load Demo.Disk Scenes.forgetful
           Demo.render Demo.NEW_SESSION_TITLE Demo.uuidv4 true w err H1).
Defined.

Lemma loadLastSession_requests_without_save_witness :
  let w :=
    Demo.world (Demo.store_with Demo.old [Demo.abc; Demo.old])
      (Demo.disk Demo.Healthy) in
  let run := Demo.loadLastSession false w in
  exists dirsReply query listReply,
    limit query = Some 1 /\
    match listed_session listReply with
    | None => trace run = [XDirs dirsReply; XList query listReply]
    | Some m =>
        exists loadReply,
          trace run = [XDirs dirsReply; XList query listReply;
                       XLoad (m_sessionId m) loadReply]
    end.
Proof.
  intros w run.
  exact (@loadLastSession_requests_without_save Demo.Disk Demo.messenger
           Demo.render Demo.NEW_SESSION_TITLE Demo.uuidv4 false w
           (or_introl eq_refl)).
Defined.

Lemma deleteSession_outcome_witness :
  let w :=
    Demo.world (Demo.store_with Demo.abc [Demo.abc; Demo.old])
      (Demo.disk Demo.Healthy) in
  let run := Demo.deleteSession (Js.of_string "old") w in
  id (session (store w)) <> Js.of_string "old" /\
  exists reply,
    trace run = [XDelete (Js.of_string "old") reply] /\
    result run = Return match reply with
                        | Resolves (Success _) => fulfilled tt
                        | Resolves (Failure e) => rejected (Error e)
                        | Rejects e => rejected e
                        end.
Proof.
  intros w run.
  assert (H1 : id (session (store w)) <> Js.of_string "old") by discriminate.
  split; [exact H1|].
  destruct (@deleteSession_outcome Demo.Disk Demo.messenger Demo.render
              Demo.NEW_SESSION_TITLE Demo.uuidv4 (Js.of_string "old") w)
    as (before & reply & Ht & _ & _ & Hn & Hr & _).
  exists reply. rewrite (Hn H1) in Ht. split; [exact Ht | exact Hr].
Defined.

Lemma deleteSession_of_inactive_session_witness :
  let w :=
    Demo.world (Demo.store_with Demo.abc [Demo.abc; Demo.old])
      (Demo.disk Demo.ReadOnly) in
  let run := Demo.deleteSession (Js.of_string "old") w in
  id (session (store w)) <> Js.of_string "old" /\
  same_active_session w (final run) /\
  has_metadata_of (Js.of_string "old")
    (allSessionMetadata (session (store (final run)))) = false /\
  config (store (final run)) = config (store w).
Proof.
  intros w run.
  assert (H1 : id (session (store w)) <> Js.of_string "old") by discriminate.
  split; [exact H1|].
  exact (@deleteSession_of_inactive_session Demo.Disk Demo.messenger
           Demo.render Demo.NEW_SESSION_TITLE Demo.uuidv4
           (Js.of_string "old") w H1).
Defined.

Lemma loadSession_load_failure_witness :
  let w :=
    Demo.world (Demo.store_with Demo.abc [Demo.abc; Demo.old])
      (Demo.disk Demo.Healthy) in
  let run :=
    SessionThunks.loadSession Scenes.forgetful Demo.render
      Demo.NEW_SESSION_TITLE Demo.uuidv4 (Js.of_string "old") true w in
  let reply := Resolves (Failure (Js.of_string "gone")) in
  In (XLoad (Js.of_string "old") reply) (trace run) /\
  load_error reply = Some (Error (Js.of_string "gone")) /\
  result run = Return (rejected (Error (Js.of_string "gone"))) /\
  same_active_session w (final run).
Proof.
  intros w run reply.
  assert (H1 : In (XLoad (Js.of_string "old") reply) (trace run))
    by (vm_compute; auto 10).
  split; [exact H1|]. split; [reflexivity|].
  exact (@loadSession_load_failure Demo.Disk Scenes.forgetful Demo.render
           Demo.NEW_SESSION_TITLE Demo.uuidv4 (Js.of_string "old") true w
           reply (Error (Js.of_string "gone")) H1 eq_refl).
Defined.

Lemma workspace_directory_from_array_witness :
  let plain :=
    Demo.world (Demo.store_with Demo.abc [Demo.abc; Demo.old])
      Demo.disk_plain_dirs in
  let lost :=
    Demo.world (Demo.store_with Demo.abc [Demo.abc; Demo.old]) Scenes.no_ide in
  (fst (getWorkspaceDirs Demo.messenger (remote plain))
   = Resolves (DirsArray [Js.of_string "/ws"]) /\
   last_session_queries (trace (Demo.loadLastSession true plain))
   = [last_session_query (Some (Js.of_string "/ws"))] /\
   map s_workspaceDirectory
     (saved_sessions (trace (Demo.saveCurrentSession false true plain)))
   = [Js.of_string "/ws"]) /\
  (fst (getWorkspaceDirs Demo.messenger (remote lost))
   = Rejects (Error (Js.of_string "no ide")) /\
   last_session_queries (trace (Demo.loadLastSession true lost))
   = [last_session_query None] /\
   map s_workspaceDirectory
     (saved_sessions (trace (Demo.saveCurrentSession false true lost)))
   = [[]]).
Proof.
  intros plain lost.
  assert (Hh : history (session (store plain)) <> []) by discriminate.
  pose proof (@workspace_directory_from_array Demo.Disk Demo.messenger
                Demo.render Demo.NEW_SESSION_TITLE Demo.uuidv4 plain)
    as [Hp _].
  pose proof (@workspace_directory_from_array Demo.Disk Demo.messenger
                Demo.render Demo.NEW_SESSION_TITLE Demo.uuidv4 lost)
    as [_ Hl].
  split.
  - split; [reflexivity|].
    destruct (Hp (Js.of_string "/ws") [] eq_refl) as [Hq Hs].
    split; [exact (Hq true) | exact (proj1 (Hs false true Hh))].
  - split; [reflexivity|].
    destruct (Hl (or_introl (ex_intro _ (Error (Js.of_string "no ide")) eq_refl)))
      as [Hq Hs].
    split; [exact (Hq true) | exact (Hs false true Hh)].
Defined.

Lemma refreshSessionMetadata_single_request_witness :
  let w :=
    Demo.world (Demo.store_with Demo.abc [Demo.abc; Demo.old])
      (Demo.disk Demo.Healthy) in
  let run :=
    SessionThunks.refreshSessionMetadata Scenes.deaf Demo.NEW_SESSION_TITLE
      Demo.uuidv4 plain_refresh w in
  let e := Error (Js.of_string "timeout") in
  fst (history_list Scenes.deaf plain_refresh (remote w)) = Rejects e /\
  result run = Return (rejected e) /\ store (final run) = store w.
Proof.
  intros w run e. split; [reflexivity|].
  exact (proj2 (proj2 (@refreshSessionMetadata_single_request Demo.Disk
                         Scenes.deaf Demo.NEW_SESSION_TITLE Demo.uuidv4
                         plain_refresh w)) e eq_refl).
Defined.

Lemma getChatTitleFromMessage_short_line_witness :
  last_nonblank_line (Demo.render Scenes.the_answer) (Js.of_string "Done.") /\
  length (Js.of_string "Done.") <= 100 /\
  getChatTitleFromMessage Demo.render Scenes.the_answer = Js.of_string "Done.".
Proof.
  assert (L : last_nonblank_line (Demo.render Scenes.the_answer)
                (Js.of_string "Done.")).
  { exists (Js.of_string "Here is the fix." ++ [Js.LF; Js.LF]), [].
    split; [reflexivity|].
    split; [right; exists (Js.of_string "Here is the fix." ++ [Js.LF]);
            reflexivity|].
    split; [left; reflexivity|].
    split; [|split; reflexivity].
    vm_compute. intuition discriminate. }
  assert (G : length (Js.of_string "Done.") <= 100) by (simpl; lia).
  split; [exact L|]. split; [exact G|].
  exact (@getChatTitleFromMessage_short_line Demo.render Scenes.the_answer
           (Js.of_string "Done.") L G).
Defined.
